(** * EcoHarmony Park: compra de entradas

    Shallow embedding of [parque_aventura.py]: the park configuration
    ([ConfiguracionParque]), the session user ([Usuario]), the purchase
    workflow ([Compra]), the card payment window
    ([VentanaPagoTarjeta]) and the purchase form ([ComprarEntradasUI]),
    with the form of [ui_comprar_entradas.py], followed by the
    properties of the purchase pipeline and of the forms.

    Conventions of the embedding.
    - A Python [str] is the list of its code points ([str := list N]);
      literals are written [u "..."], the UTF-8 decoding of the source
      text, so [len], slicing and comparison count code points as Python
      does.
    - A Python [int] is a [Z]; a [list] is a [list]; [None] is [None].
    - A method that assigns to [self] takes the object and returns the
      updated object next to its result.
    - [date.today()] is read from the argument [hoy].
    - An exception is a value of type [excepcion]; code that can raise
      returns [Exc A]. *)

From Stdlib Require Import ZArith NArith List Bool Lia Ascii String.
From Stdlib Require Import DecimalString.
From stdpp Require Import base decidable option list gmap.

Local Open Scope Z_scope.

(** ** Python strings *)

Abbreviation str := (list N).

Definition bytes_de_string (s : string) : list N :=
  List.map N_of_ascii (list_ascii_of_string s).

(** UTF-8 decoding of a well-formed byte sequence. *)
Fixpoint utf8_decodificar (bs : list N) : str :=
  match bs with
  | [] => []
  | b0 :: r0 =>
    if (b0 <? 128)%N then b0 :: utf8_decodificar r0
    else if (b0 <? 224)%N then
      match r0 with
      | b1 :: r1 => ((b0 mod 32) * 64 + b1 mod 64)%N :: utf8_decodificar r1
      | _ => []
      end
    else if (b0 <? 240)%N then
      match r0 with
      | b1 :: b2 :: r2 =>
        ((b0 mod 16) * 4096 + (b1 mod 64) * 64 + b2 mod 64)%N
          :: utf8_decodificar r2
      | _ => []
      end
    else
      match r0 with
      | b1 :: b2 :: b3 :: r3 =>
        ((b0 mod 8) * 262144 + (b1 mod 64) * 4096 + (b2 mod 64) * 64
         + b3 mod 64)%N :: utf8_decodificar r3
      | _ => []
      end
  end.

(** A string literal of the source. *)
Definition u (s : string) : str := utf8_decodificar (bytes_de_string s).
Arguments u s%_string.

(** [len(s)] *)
Definition len {A} (l : list A) : Z := Z.of_nat (length l).

(** [sep.join(l)] *)
Fixpoint join (sep : str) (l : list str) : str :=
  match l with
  | [] => []
  | [x] => x
  | x :: r => x ++ sep ++ join sep r
  end.

(** [str(z)], the decimal text of an [int]; for the conversion as it
    can fail on long texts see [str_con_limite]. *)
Definition str_de_int (z : Z) : str :=
  bytes_de_string (NilZero.string_of_int (Z.to_int z)).

(** [needle in hay]: [needle] occurs in [hay] as a contiguous run. *)
Fixpoint es_prefijo (p s : str) : bool :=
  match p, s with
  | [], _ => true
  | a :: p', b :: s' => (a =? b)%N && es_prefijo p' s'
  | _ :: _, [] => false
  end.

Fixpoint contiene (hay needle : str) : bool :=
  es_prefijo needle hay ||
  match hay with
  | [] => false
  | _ :: r => contiene r needle
  end.

(** ** Exceptions *)

Inductive clase_excepcion :=
| ValueError
| AttributeError
| OtraExcepcion (nombre : str).

(** An exception object: its class and [str(e)]. *)
Record excepcion := Excepcion { clase : clase_excepcion; texto : str }.

Definition Exc (A : Type) : Type := excepcion + A.

Definition lanzar {A} (e : excepcion) : Exc A := inl e.
Definition devolver {A} (a : A) : Exc A := inr a.
Definition ligar {A B} (m : Exc A) (k : A -> Exc B) : Exc B :=
  match m with
  | inl e => inl e
  | inr a => k a
  end.

Notation "'sea' x <- m ; k" := (ligar m (fun x => k))
  (at level 10, x name, m at level 100, k at level 200).


(** ** The character tables of the interpreter

    [str.isdigit], [str.strip], [int] and the class [\w] of [re] consult
    the Unicode database of the interpreter, which is taken as an
    interface. *)

Definition ascii_alnum (c : N) : bool :=
  ((48 <=? c) && (c <=? 57) || (65 <=? c) && (c <=? 90)
   || (97 <=? c) && (c <=? 122))%N.

Definition ascii_digito (c : N) : bool := ((48 <=? c) && (c <=? 57))%N.

Definition ascii_espacio (c : N) : bool :=
  ((9 <=? c) && (c <=? 13) || (28 <=? c) && (c <=? 32))%N.

Class Unicode := {
  (** [ch.isalnum()] *)
  es_alnum : N -> bool;
  (** [ch.isdigit()] *)
  es_digito : N -> bool;
  (** the decimal value of a character of category Nd *)
  valor_decimal : N -> option Z;
  (** [ch.isspace()] *)
  es_espacio : N -> bool;
  (** [sys.get_int_max_str_digits()], [None] when the limit is off *)
  limite_digitos : option nat;
}.

(** The tables of every interpreter agree with these on ASCII. *)
Definition conforme_ascii `{Unicode} : Prop :=
  forall c, (c < 128)%N ->
    es_alnum c = ascii_alnum c
    /\ es_digito c = ascii_digito c
    /\ valor_decimal c = (if ascii_digito c then Some (Z.of_N c - 48) else None)
    /\ es_espacio c = ascii_espacio c.

(** ** Dates ([datetime.date]) *)

Record date := Date { year : Z; month : Z; day : Z }.

Definition _is_leap (y : Z) : bool :=
  (y mod 4 =? 0) && (negb (y mod 100 =? 0) || (y mod 400 =? 0)).

Definition _days_before_year (y0 : Z) : Z :=
  let y := y0 - 1 in y * 365 + y / 4 - y / 100 + y / 400.

Definition _DAYS_BEFORE_MONTH : list Z :=
  [-1; 0; 31; 59; 90; 120; 151; 181; 212; 243; 273; 304; 334].

Definition _days_before_month (y m : Z) : Z :=
  nth (Z.to_nat m) _DAYS_BEFORE_MONTH 0
  + (if (m >? 2) && _is_leap y then 1 else 0).

Definition toordinal (d : date) : Z :=
  _days_before_year (year d) + _days_before_month (year d) (month d) + day d.

(** [d.weekday()]: Monday is 0, Sunday is 6. *)
Definition weekday (d : date) : Z := (toordinal d + 6) mod 7.

(** [a >= b] on dates compares (year, month, day). *)
Definition date_ge (a b : date) : bool :=
  (year b <? year a)
  || (year a =? year b)
     && ((month b <? month a)
         || (month a =? month b) && (day b <=? day a)).

(** ["%0<ancho>d" % z] *)
Definition formato_0d (ancho : nat) (z : Z) : str :=
  if z <? 0 then
    let s := str_de_int (- z) in
    45%N :: replicate (ancho - 1 - length s) 48%N ++ s
  else
    let s := str_de_int z in
    replicate (ancho - length s) 48%N ++ s.

(** [str(d)], that is [d.isoformat()]. *)
Definition str_de_date (d : date) : str :=
  formato_0d 4 (year d) ++ u "-" ++ formato_0d 2 (month d) ++ u "-"
  ++ formato_0d 2 (day d).

(** ** [class ConfiguracionParque] *)

Module ConfiguracionParque.

(** Lunes a Sábado (Domingo = 6, está cerrado). *)
Definition DIAS_ABIERTOS : list Z := [0; 1; 2; 3; 4; 5].

Definition PRECIOS : gmap str Z :=
  <[u "regular" := 10000]> (<[u "VIP" := 15000]> ∅).

Definition CANTIDAD_MAX_ENTRADAS : Z := 10.
Definition CANTIDAD_MIN_ENTRADAS : Z := 1.

End ConfiguracionParque.

(** [d.get(k, defecto)] *)
Definition dict_get {V} (d : gmap str V) (k : str) (defecto : V) : V :=
  match d !! k with
  | Some v => v
  | None => defecto
  end.

(** ** Regular expressions ([re])

    Patterns over code points, matched by derivatives. *)

Module re.

Inductive patron :=
| Nada
| Vacia
| Clase (p : N -> bool)
| Sec (a b : patron)
| Alt (a b : patron)
| Estrella (a : patron).

(** [c] *)
Definition Car (c : N) : patron := Clase (N.eqb c).
(** [a+] *)
Definition Mas (a : patron) : patron := Sec a (Estrella a).

Fixpoint anulable (r : patron) : bool :=
  match r with
  | Nada => false
  | Vacia => true
  | Clase _ => false
  | Sec a b => anulable a && anulable b
  | Alt a b => anulable a || anulable b
  | Estrella _ => true
  end.

Fixpoint derivada (c : N) (r : patron) : patron :=
  match r with
  | Nada => Nada
  | Vacia => Nada
  | Clase p => if p c then Vacia else Nada
  | Sec a b =>
    if anulable a then Alt (Sec (derivada c a) b) (derivada c b)
    else Sec (derivada c a) b
  | Alt a b => Alt (derivada c a) (derivada c b)
  | Estrella a => Sec (derivada c a) (Estrella a)
  end.

(** The whole of [s] is a word of [r]. *)
Fixpoint coincide (r : patron) (s : str) : bool :=
  match s with
  | [] => anulable r
  | c :: s' => coincide (derivada c r) s'
  end.

(** [s] without one final line feed, when it ends in one. *)
Fixpoint sin_salto_final (s : str) : option str :=
  match s with
  | [] => None
  | [c] => if (c =? 10)%N then Some [] else None
  | c :: s' => option_map (cons c) (sin_salto_final s')
  end.

(** [re.match("^" r "$", s) is not None]: without flags, [^] holds at
    the start of the string and [$] at its end or before a line feed
    that ends it. *)
Definition match_anclado (r : patron) (s : str) : bool :=
  coincide r s
  || match sin_salto_final s with
     | Some s' => coincide r s'
     | None => false
     end.

(** The words of a pattern. *)
Inductive en_lenguaje : patron -> str -> Prop :=
| L_vacia : en_lenguaje Vacia []
| L_clase p c : p c = true -> en_lenguaje (Clase p) [c]
| L_sec a b s1 s2 :
    en_lenguaje a s1 -> en_lenguaje b s2 -> en_lenguaje (Sec a b) (s1 ++ s2)
| L_alt_izq a b s : en_lenguaje a s -> en_lenguaje (Alt a b) s
| L_alt_der a b s : en_lenguaje b s -> en_lenguaje (Alt a b) s
| L_estrella_nil a : en_lenguaje (Estrella a) []
| L_estrella_mas a s1 s2 :
    en_lenguaje a s1 -> en_lenguaje (Estrella a) s2 ->
    en_lenguaje (Estrella a) (s1 ++ s2).

Section Clases.
Context `{Unicode}.

(** [\w] *)
Definition palabra (c : N) : bool := es_alnum c || (c =? 95)%N.

(** [[\w\.-]] *)
Definition palabra_punto_guion (c : N) : bool :=
  palabra c || (c =? 46)%N || (c =? 45)%N.

End Clases.

End re.

(** ** Collaborators

    The module [database], the SQLite connection behind
    [obtener_conexion] and the SMTP transport are outside the sources.
    They are taken as an interface: every call may raise, a lookup
    answers with a row or [None], and the store changes only through
    [crear_tabla_usuarios] and the [INSERT OR IGNORE] statement. *)

Class Colaboradores := {
  BD : Type;
  Fila : Type;
  crear_tabla_usuarios : BD -> Exc BD;
  buscar_usuario_por_email : str -> BD -> Exc (option Fila);
  (** [INSERT OR IGNORE INTO usuarios (email, nombre, password_hash)
      VALUES (?, ?, ?)] followed by [commit] *)
  insertar_o_ignorar_usuario : str -> str -> str -> BD -> Exc BD;
  (** [smtplib.SMTP_SSL(...)], [login(emisor, password)] and
      [send_message(msg)] for a message to [destinatario] *)
  smtp_enviar : str -> str -> str -> str -> Exc unit;
}.

(** What the program asks of its collaborators, in order. *)
Inductive evento :=
| EvBuscarUsuario (email : str)
| EvCrearTabla
| EvInsertarUsuario (email nombre password_hash : str)
| EvEnviarCorreo (cuerpo_mensaje destinatario_email : str)
| EvSmtp (destinatario_email : str)
| EvPrint (linea : str).

Record Mundo `{Colaboradores} := { bd : BD; traza : list evento }.

Definition anotar `{Colaboradores} (e : evento) (w : Mundo) : Mundo :=
  {| bd := bd w; traza := traza w ++ [e] |}.

Definition con_bd `{Colaboradores} (b : BD) (w : Mundo) : Mundo :=
  {| bd := b; traza := traza w |}.

(** ** [class Usuario] *)

Module Usuario.

Record t := Build { email : str; registrado : bool }.

Section Sesion.
Context `{Unicode} `{Colaboradores}.

(** [^[\w\.-]+@[\w\.-]+\.\w+$] *)
Definition patron_email : re.patron :=
  re.Sec (re.Mas (re.Clase re.palabra_punto_guion))
    (re.Sec (re.Car 64)
       (re.Sec (re.Mas (re.Clase re.palabra_punto_guion))
          (re.Sec (re.Car 46) (re.Mas (re.Clase re.palabra))))).

(** Crea un usuario a partir de datos de sesión, verificando si
    existe en la BD. *)
Definition desde_la_sesion (email : str) (w : Mundo) : Exc t * Mundo :=
  if match email with [] => true | _ :: _ => false end
     || negb (re.match_anclado patron_email email)
  then (devolver (Build email false), w)
  else
    let w := anotar (EvBuscarUsuario email) w in
    match buscar_usuario_por_email email (bd w) with
    | inl e => (lanzar e, w)
    | inr fila =>
      let existe := match fila with Some _ => true | None => false end in
      (devolver (Build email existe), w)
    end.

End Sesion.

End Usuario.

(** ** [class Compra] *)

(** The dictionary returned by [Compra.procesar]. *)
Record Resultado := { ok : bool; mensaje : str }.

Module Compra.
Import ConfiguracionParque.

Record t := Build {
  usuario : option Usuario.t;
  fecha_visita : date;
  cantidad : Z;
  edades : list Z;
  tipo_pase : str;
  forma_pago : str;
  errores : list str;
}.

(** [Compra(usuario_logueado, fecha_visita, cantidad, edades, tipo_pase,
    forma_pago)] *)
Definition __init__ (usuario_logueado : option Usuario.t) (fecha : date)
    (cant : Z) (eds : list Z) (tipo forma : str) : t :=
  Build usuario_logueado fecha cant eds tipo forma [].

(** [self.errores = e] *)
Definition set_errores (self : t) (e : list str) : t :=
  Build (usuario self) (fecha_visita self) (cantidad self) (edades self)
        (tipo_pase self) (forma_pago self) e.

(** [self.usuario = us] (the user object is updated in place) *)
Definition set_usuario (self : t) (us : option Usuario.t) : t :=
  Build us (fecha_visita self) (cantidad self) (edades self)
        (tipo_pase self) (forma_pago self) (errores self).

(** [self.errores.append(m)] *)
Definition errores_append (self : t) (m : str) : t :=
  set_errores self (errores self ++ [m]).

Definition msg_usuario : str :=
  u "El usuario no es válido o no está registrado.".
Definition msg_fecha : str :=
  u "La fecha no es válida o el parque está cerrado.".
Definition msg_cantidad (min_entradas max_entradas : Z) : str :=
  u "Cantidad de entradas inválida (debe ser entre "
    ++ str_de_int min_entradas ++ u " y " ++ str_de_int max_entradas
    ++ u ").".
Definition msg_edades : str := u "Debe indicar la edad de cada visitante.".
Definition msg_forma_pago : str :=
  u "Debe seleccionar una forma de pago válida.".

Definition _validar_usuario (self : t) : t :=
  if match usuario self with
     | None => true
     | Some us => negb (Usuario.registrado us)
     end
  then errores_append self msg_usuario
  else self.

Definition _validar_fecha (hoy : date) (self : t) : t :=
  if negb (date_ge (fecha_visita self) hoy
           && bool_decide (weekday (fecha_visita self) ∈ DIAS_ABIERTOS))
  then errores_append self msg_fecha
  else self.

Definition _validar_cantidad (self : t) : t :=
  let min_entradas := CANTIDAD_MIN_ENTRADAS in
  let max_entradas := CANTIDAD_MAX_ENTRADAS in
  if negb ((min_entradas <=? cantidad self)
           && (cantidad self <=? max_entradas))
  then errores_append self (msg_cantidad min_entradas max_entradas)
  else self.

Definition _validar_edades (self : t) : t :=
  if match edades self with [] => true | _ :: _ => false end
     || negb (len (edades self) =? cantidad self)
  then errores_append self msg_edades
  else self.

Definition _validar_forma_pago (self : t) : t :=
  if negb (bool_decide (forma_pago self ∈ [u "efectivo"; u "tarjeta"]))
  then errores_append self msg_forma_pago
  else self.

(** Ejecuta todas las validaciones y devuelve True si no hay errores. *)
Definition es_valida (hoy : date) (self : t) : bool * t :=
  let self := set_errores self [] in
  let self := _validar_usuario self in
  let self := _validar_fecha hoy self in
  let self := _validar_cantidad self in
  let self := _validar_edades self in
  let self := _validar_forma_pago self in
  (match errores self with [] => true | _ :: _ => false end, self).

(** Calcula el monto total en base al tipo de pase y la configuración. *)
Definition calcular_monto_total (self : t) : Z :=
  let precio_unitario := dict_get PRECIOS (tipo_pase self) 0 in
  cantidad self * precio_unitario.

(** Procesa la compra si todas las validaciones son correctas. *)
Definition procesar (hoy : date) (self : t) : Exc Resultado * t :=
  let '(valida, self) := es_valida hoy self in
  if negb valida then
    (devolver {| ok := false; mensaje := join (u " ") (errores self) |},
     self)
  else
    let total := calcular_monto_total self in
    match usuario self with
    | None =>
      (lanzar (Excepcion AttributeError
                 (u "'NoneType' object has no attribute 'email'")), self)
    | Some us =>
      let mensaje :=
        u "Compra confirmada para " ++ Usuario.email us ++ u ": "
          ++ str_de_int (cantidad self) ++ u " entradas para el "
          ++ str_de_date (fecha_visita self) ++ u " por $"
          ++ str_de_int total ++ u "." in
      let mensaje :=
        if bool_decide (forma_pago self = u "tarjeta")
        then mensaje ++ u " Redirigiendo a Mercado Pago..."
        else mensaje ++ u " Pago en boletería." in
      (devolver {| ok := true; mensaje := mensaje |}, self)
    end.

End Compra.

(** ** [str] methods and [int] *)

Fixpoint quitar_mientras {A} (p : A -> bool) (l : list A) : list A :=
  match l with
  | [] => []
  | x :: r => if p x then quitar_mientras p r else l
  end.

Section Cadenas.
Context `{Unicode}.

(** [s.isdigit()] *)
Definition isdigit (s : str) : bool :=
  match s with
  | [] => false
  | _ :: _ => forallb es_digito s
  end.

(** [s.strip()] *)
Definition lstrip (s : str) : str := quitar_mientras es_espacio s.
Definition strip (s : str) : str := rev (lstrip (rev (lstrip s))).

(** The value of a run of decimal characters, most significant first. *)
Fixpoint valor_digitos (acc : Z) (s : str) : option Z :=
  match s with
  | [] => Some acc
  | c :: s' =>
    match valor_decimal c with
    | Some d => valor_digitos (acc * 10 + d) s'
    | None => None
    end
  end.

(** [int(s)] for a string made of digits only ([s.isdigit()]): a
    character without a decimal value, or more digits than the
    interpreter converts, raises [ValueError]. *)
Definition int_de_digitos (s : str) : Exc Z :=
  if match limite_digitos with
     | Some n => Nat.ltb n (length s)
     | None => false
     end
  then lanzar (Excepcion ValueError
                 (u "Exceeds the limit for integer string conversion"))
  else
    match valor_digitos 0 s with
    | Some z => devolver z
    | None =>
      lanzar (Excepcion ValueError
                (u "invalid literal for int() with base 10"))
    end.

End Cadenas.

(** ** The email library

    [EmailMessage()], its three headers and its content: the library
    may refuse a header or a content by raising. *)

Class Mensajes := {
  (** subject, sender, recipient and content *)
  componer_mensaje : str -> str -> str -> str -> Exc unit;
}.

(** ** [class VentanaPagoTarjeta] *)

(** [os.environ] *)
Record Entorno := {
  EMAIL_EMISOR : option str;
  PASSWORD_EMISOR : option str;
  SIMULATE_EMAIL : option str;
}.

Definition salto : str := [10%N].

Module VentanaPagoTarjeta.

(** The fields of the window that the payment reads and writes; the
    text box belongs to the main window ([ui_principal]). *)
Record t := Build {
  compra_original : Compra.t;
  today : date;
  email_var : str;
  entry_nombre : str;
  entry_tarjeta : str;
  entry_mes : str;
  entry_anio : str;
  entry_cvv : str;
  label_error_pago : str;
  text_resultado : str;
  destruida : bool;
}.

Definition set_compra_original (self : t) (c : Compra.t) : t :=
  Build c (today self) (email_var self) (entry_nombre self)
    (entry_tarjeta self) (entry_mes self) (entry_anio self)
    (entry_cvv self) (label_error_pago self) (text_resultado self)
    (destruida self).

(** [self.label_error_pago.configure(text=s)] *)
Definition label_error_pago_configure (self : t) (s : str) : t :=
  Build (compra_original self) (today self) (email_var self)
    (entry_nombre self) (entry_tarjeta self) (entry_mes self)
    (entry_anio self) (entry_cvv self) s (text_resultado self)
    (destruida self).

(** [self.ui_principal.text_resultado.delete("1.0", "end")] *)
Definition text_resultado_delete (self : t) : t :=
  Build (compra_original self) (today self) (email_var self)
    (entry_nombre self) (entry_tarjeta self) (entry_mes self)
    (entry_anio self) (entry_cvv self) (label_error_pago self) []
    (destruida self).

(** [self.ui_principal.text_resultado.insert("end", s)] *)
Definition text_resultado_insert (self : t) (s : str) : t :=
  Build (compra_original self) (today self) (email_var self)
    (entry_nombre self) (entry_tarjeta self) (entry_mes self)
    (entry_anio self) (entry_cvv self) (label_error_pago self)
    (text_resultado self ++ s) (destruida self).

(** [self.destroy()] *)
Definition destroy (self : t) : t :=
  Build (compra_original self) (today self) (email_var self)
    (entry_nombre self) (entry_tarjeta self) (entry_mes self)
    (entry_anio self) (entry_cvv self) (label_error_pago self)
    (text_resultado self) true.

Definition msg_nombre : str := u "Por favor, ingrese su nombre y apellido.".
Definition msg_tarjeta : str :=
  u "El número de tarjeta debe tener 16 dígitos numéricos.".
Definition msg_mes_numero : str := u "El mes debe ser un número.".
Definition msg_mes_rango : str :=
  u "El mes de vencimiento debe estar entre 1 y 12.".
Definition msg_anio : str := u "El año debe tener 4 dígitos (ej: 2025).".
Definition msg_vencida : str := u "La tarjeta de crédito está vencida.".
Definition msg_cvv : str := u "El CVV debe tener 3 dígitos numéricos.".
Definition msg_numericos : str :=
  u "Por favor, revise que los campos numéricos sean correctos.".

Section Metodos.
Context `{Unicode} `{Colaboradores} `{Mensajes}.

(** The body of the [try] block of [_validar_campos]. *)
Definition _validar_campos_try (self : t) : Exc (bool * str) :=
  let nombre := entry_nombre self in
  if match nombre with [] => true | _ :: _ => false end
     || (len nombre <? 3)
  then devolver (false, msg_nombre)
  else
  let tarjeta := entry_tarjeta self in
  if negb (isdigit tarjeta) || negb (len tarjeta =? 16)
  then devolver (false, msg_tarjeta)
  else
  let mes_str := entry_mes self in
  if negb (isdigit mes_str)
  then devolver (false, msg_mes_numero)
  else
  sea mes <- int_de_digitos mes_str;
  if negb ((1 <=? mes) && (mes <=? 12))
  then devolver (false, msg_mes_rango)
  else
  let anio_str := entry_anio self in
  if negb (isdigit anio_str) || negb (len anio_str =? 4)
  then devolver (false, msg_anio)
  else
  sea anio <- int_de_digitos anio_str;
  if (anio <? year (today self))
     || (anio =? year (today self)) && (mes <? month (today self))
  then devolver (false, msg_vencida)
  else
  let cvv := entry_cvv self in
  if negb (isdigit cvv) || negb (len cvv =? 3)
  then devolver (false, msg_cvv)
  else devolver (true, []).

Definition _validar_campos (self : t) : Exc (bool * str) :=
  match _validar_campos_try self with
  | inl e =>
    match clase e with
    | ValueError => devolver (false, msg_numericos)
    | _ => lanzar e
    end
  | inr r => devolver r
  end.

Definition no_vacio (v : option str) : bool :=
  match v with
  | Some (_ :: _) => true
  | _ => false
  end.

Definition _enviar_correo_confirmacion (entorno : Entorno)
    (cuerpo_mensaje destinatario_email : str) (w : Mundo)
    : Exc bool * Mundo :=
  let w := anotar (EvEnviarCorreo cuerpo_mensaje destinatario_email) w in
  let simulate_email :=
    match SIMULATE_EMAIL entorno with
    | Some v => v
    | None => u "1"
    end in
  match componer_mensaje (u "Confirmación de Compra - EcoHarmony Park")
          (match EMAIL_EMISOR entorno with
           | Some (c :: r) => c :: r
           | _ => u "simulado@local"
           end)
          destinatario_email
          (u "¡Gracias por tu compra!" ++ salto ++ salto
             ++ u "Aquí está el resumen:" ++ salto ++ salto
             ++ cuerpo_mensaje) with
  | inl e => (lanzar e, w)
  | inr _ =>
    if negb (no_vacio (EMAIL_EMISOR entorno))
       || negb (no_vacio (PASSWORD_EMISOR entorno))
    then
      if bool_decide (simulate_email = u "1") then
        (devolver true,
         anotar (EvPrint (u "Simulación: correo enviado a "
                            ++ destinatario_email
                            ++ u " (credenciales no configuradas).")) w)
      else
        (lanzar (Excepcion ValueError
                   (u "Credenciales de email no encontradas.")), w)
    else
      let emisor := default [] (EMAIL_EMISOR entorno) in
      let password := default [] (PASSWORD_EMISOR entorno) in
      let w := anotar (EvSmtp destinatario_email) w in
      match smtp_enviar emisor password destinatario_email cuerpo_mensaje
      with
      | inl e => (lanzar e, w)
      | inr _ => (devolver true, w)
      end
  end.

(** How the [try] block of [_procesar_pago] is left: by its
    [return], or at its end with [mensaje_final] bound. *)
Inductive salida_try :=
| Retorno
| MensajeFinal (mensaje_final : str).

Definition msg_no_coincide (entered_email email_usuario : str) : str :=
  u "❌ El email ingresado (" ++ entered_email
    ++ u ") no coincide con el usuario registrado (" ++ email_usuario
    ++ u ")." ++ salto ++ u "No se puede enviar el recibo.".

(** The inner [try]: send the receipt, or simulate it. *)
Definition _procesar_pago_envio (entorno : Entorno) (resultado : Resultado)
    (entered_email : str) (w : Mundo) : str * Mundo :=
  match _enviar_correo_confirmacion entorno (mensaje resultado)
          entered_email w with
  | (inr enviado, w) =>
    if enviado then
      (u "✅ ¡Pago con tarjeta procesado con éxito!" ++ salto ++ salto
         ++ mensaje resultado ++ salto ++ salto
         ++ u "📧 Se envió un recibo a " ++ entered_email ++ u ".", w)
    else
      (u "✅ ¡Pago con tarjeta procesado con éxito!" ++ salto ++ salto
         ++ mensaje resultado ++ salto ++ salto
         ++ u "⚠️ No se pudo enviar el email de confirmación a "
         ++ entered_email ++ u ".", w)
  | (inl e, w) =>
    (u "✅ Pago procesado, pero fallo el envío del email: " ++ texto e, w)
  end.

(** The outer [try]: verify or register the email in the store. *)
Definition _procesar_pago_try (entorno : Entorno) (resultado : Resultado)
    (entered_email : str) (self : t) (w : Mundo)
    : Exc salida_try * (t * Mundo) :=
  let w := anotar EvCrearTabla w in
  match crear_tabla_usuarios (bd w) with
  | inl e => (lanzar e, (self, w))
  | inr b =>
  let w := con_bd b w in
  match Compra.usuario (compra_original self) with
  | None =>
    (lanzar (Excepcion AttributeError
               (u "'NoneType' object has no attribute 'email'")),
     (self, w))
  | Some us =>
  let w := anotar (EvBuscarUsuario (Usuario.email us)) w in
  match buscar_usuario_por_email (Usuario.email us) (bd w) with
  | inl e => (lanzar e, (self, w))
  | inr db_row =>
    if Usuario.registrado us
       && match db_row with Some _ => true | None => false end
    then
      if negb (bool_decide (entered_email = Usuario.email us)) then
        let mensaje_final :=
          msg_no_coincide entered_email (Usuario.email us) in
        let self := text_resultado_insert self mensaje_final in
        let self := destroy self in
        (devolver Retorno, (self, w))
      else
        let '(mensaje_final, w) :=
          _procesar_pago_envio entorno resultado entered_email w in
        (devolver (MensajeFinal mensaje_final), (self, w))
    else
      let w :=
        anotar (EvInsertarUsuario entered_email
                  (u "RegistroAutomático") []) w in
      match insertar_o_ignorar_usuario entered_email
              (u "RegistroAutomático") [] (bd w) with
      | inl e => (lanzar e, (self, w))
      | inr b =>
        let w := con_bd b w in
        let self :=
          set_compra_original self
            (Compra.set_usuario (compra_original self)
               (Some (Usuario.Build entered_email true))) in
        let '(mensaje_final, w) :=
          _procesar_pago_envio entorno resultado entered_email w in
        (devolver (MensajeFinal mensaje_final), (self, w))
      end
  end
  end
  end.

Definition _procesar_pago (hoy : date) (entorno : Entorno) (self : t)
    (w : Mundo) : Exc unit * (t * Mundo) :=
  match _validar_campos self with
  | inl e => (lanzar e, (self, w))
  | inr (es_valido, mensaje_error) =>
  if negb es_valido then
    (devolver tt,
     (label_error_pago_configure self (u "⚠️ " ++ mensaje_error), w))
  else
  let self := label_error_pago_configure self [] in
  let entered_email := strip (email_var self) in
  (* procesar compra *)
  let '(resultado, compra) := Compra.procesar hoy (compra_original self) in
  let self := set_compra_original self compra in
  match resultado with
  | inl e => (lanzar e, (self, w))
  | inr resultado =>
  let self := text_resultado_delete self in
  if negb (ok resultado) then
    let self := text_resultado_insert self (mensaje resultado) in
    (devolver tt, (destroy self, w))
  else
  (* Verificar/registrar email en la BD *)
  match _procesar_pago_try entorno resultado entered_email self w with
  | (inr Retorno, (self, w)) => (devolver tt, (self, w))
  | (inr (MensajeFinal mensaje_final), (self, w)) =>
    let self := text_resultado_insert self mensaje_final in
    (devolver tt, (destroy self, w))
  | (inl e, (self, w)) =>
    let mensaje_final :=
      u "❌ Error al verificar/registrar email: " ++ texto e in
    let self := text_resultado_insert self mensaje_final in
    (devolver tt, (destroy self, w))
  end
  end
  end.

End Metodos.

End VentanaPagoTarjeta.

(** ** [int(s)], [date(y, m, d)] and [calendar.monthrange]

    The library functions that the forms call on what the visitor
    typed.  The text of their exceptions, which the forms never read,
    is abridged. *)

(** [isspace] of the C locale, which [int] uses on the ASCII form of
    the string: unlike [str.isspace], it leaves out U+001C to U+001F. *)
Definition espacio_c (c : N) : bool :=
  ((9 <=? c) && (c <=? 13) || (c =? 32))%N.

Definition digito_c (c : N) : option Z :=
  if ascii_digito c then Some (Z.of_N c - 48) else None.

(** The run of digits and underscores at the head of [s]: its value,
    the number of digits and what follows.  An underscore after an
    underscore, or at the end of the run, is refused. *)
Fixpoint leer_digitos (prev_guion : bool) (acc : Z) (digitos : nat)
    (s : list N) : option (Z * nat * list N) :=
  match s with
  | c :: r =>
    if (c =? 95)%N then
      if prev_guion then None else leer_digitos true acc digitos r
    else
      match digito_c c with
      | Some d => leer_digitos false (acc * 10 + d) (S digitos) r
      | None => if prev_guion then None else Some (acc, digitos, s)
      end
  | [] => if prev_guion then None else Some (acc, digitos, [])
  end.

(** The sign at the head of [b], [+] or [-], and what follows. *)
Definition leer_signo (b : list N) : Z * list N :=
  match b with
  | c :: r =>
    if (c =? 43)%N then (1, r)
    else if (c =? 45)%N then (-1, r)
    else (1, b)
  | [] => (1, b)
  end.

Section Enteros.
Context `{Unicode}.

(** A string that is not ASCII is first brought to ASCII: a space for
    every blank, the ASCII digit for every decimal character, and a
    question mark, which ends the string, for the first character that
    is neither. *)
Fixpoint a_ascii (s : str) : list N :=
  match s with
  | [] => []
  | c :: r =>
    if (c <? 127)%N then c :: a_ascii r
    else if es_espacio c then 32%N :: a_ascii r
    else
      match valor_decimal c with
      | Some d => Z.to_N (48 + d) :: a_ascii r
      | None => [63%N]
      end
  end.

Definition transformar (s : str) : list N :=
  if forallb (fun c => (c <? 128)%N) s then s else a_ascii s.

Definition literal_invalido : excepcion :=
  Excepcion ValueError (u "invalid literal for int() with base 10").

(** [int] on the ASCII form of the string: blanks, a sign, digits
    with single underscores between them, blanks. *)
Definition int_de_ascii (b : list N) : Exc Z :=
  let b := quitar_mientras espacio_c b in
  let '(signo, b) := leer_signo b in
  if match b with
     | c :: _ => (c =? 95)%N
     | [] => false
     end
  then lanzar literal_invalido
  else
    match leer_digitos false 0 0 b with
    | None => lanzar literal_invalido
    | Some (z, digitos, resto) =>
      if match limite_digitos with
         | Some n => Nat.ltb n digitos
         | None => false
         end
      then lanzar (Excepcion ValueError
                     (u "Exceeds the limit for integer string conversion"))
      else
        match digitos with
        | O => lanzar literal_invalido
        | S _ =>
          match quitar_mientras espacio_c resto with
          | [] => devolver (signo * z)
          | _ :: _ => lanzar literal_invalido
          end
        end
    end.

(** [int(s)] *)
Definition int_de_str (s : str) : Exc Z := int_de_ascii (transformar s).

(** [str(z)] as it can fail: a text of more than 640 characters is
    refused when [z] has more digits than the limit. *)
Definition str_con_limite (z : Z) : Exc str :=
  if Nat.ltb 640 (length (str_de_int z))
     && match limite_digitos with
        | Some n => Nat.ltb n (length (str_de_int (Z.abs z)))
        | None => false
        end
  then lanzar (Excepcion ValueError
                 (u "Exceeds the limit for integer string conversion"))
  else devolver (str_de_int z).

(** The limit on digits, when it is on, is 640 or more
    ([sys.set_int_max_str_digits]). *)
Definition limite_conforme : Prop :=
  match limite_digitos with
  | Some n => (640 <= n)%nat
  | None => True
  end.

End Enteros.

Definition _DAYS_IN_MONTH : list Z :=
  [-1; 31; 28; 31; 30; 31; 30; 31; 31; 30; 31; 30; 31].

Definition _days_in_month (y m : Z) : Z :=
  if (m =? 2) && _is_leap y then 29 else nth (Z.to_nat m) _DAYS_IN_MONTH 0.

(** The arguments of [date] are converted to the [int] of C. *)
Definition INT_MIN : Z := -2147483648.
Definition INT_MAX : Z := 2147483647.

Definition a_int_c (z : Z) : Exc Z :=
  if z <? INT_MIN then
    lanzar (Excepcion (OtraExcepcion (u "OverflowError"))
              (u "signed integer is less than minimum"))
  else if INT_MAX <? z then
    lanzar (Excepcion (OtraExcepcion (u "OverflowError"))
              (u "signed integer is greater than maximum"))
  else devolver z.

(** [date(y, m, d)] *)
Definition date_nuevo (y m d : Z) : Exc date :=
  sea y <- a_int_c y;
  sea m <- a_int_c m;
  sea d <- a_int_c d;
  if negb ((1 <=? y) && (y <=? 9999)) then
    lanzar (Excepcion ValueError
              (u "year " ++ str_de_int y ++ u " is out of range"))
  else if negb ((1 <=? m) && (m <=? 12)) then
    lanzar (Excepcion ValueError (u "month must be in 1..12"))
  else if negb ((1 <=? d) && (d <=? _days_in_month y m)) then
    lanzar (Excepcion ValueError (u "day is out of range for month"))
  else devolver (Date y m d).

(** [a < b] on dates compares (year, month, day). *)
Definition date_lt (a b : date) : bool :=
  (year a <? year b)
  || (year a =? year b)
     && ((month a <? month b)
         || (month a =? month b) && (day a <? day b)).

Definition mdays : list Z :=
  [0; 31; 28; 31; 30; 31; 30; 31; 31; 30; 31; 30; 31].

(** [calendar.monthrange(year, month)]: the weekday of the first day of
    the month and the number of days of the month.  A year outside 1 to
    9999 is brought into the range of [date] before the weekday is
    asked. *)
Definition monthrange (y m : Z) : Exc (Z * Z) :=
  if negb ((1 <=? m) && (m <=? 12)) then
    lanzar (Excepcion ValueError (u "bad month number; must be 1-12"))
  else
    let y' := if (1 <=? y) && (y <=? 9999) then y else 2000 + y mod 400 in
    devolver (weekday (Date y' m 1),
              nth (Z.to_nat m) mdays 0
              + (if (m =? 2) && _is_leap y then 1 else 0)).

(** ** [enviar_correo_confirmacion] *)

Section Correo.
Context `{Colaboradores} `{Mensajes}.

Definition enviar_correo_confirmacion (entorno : Entorno)
    (destinatario_email cuerpo_mensaje : str) (w : Mundo)
    : Exc bool * Mundo :=
  let w := anotar (EvEnviarCorreo cuerpo_mensaje destinatario_email) w in
  let simulate_email :=
    match SIMULATE_EMAIL entorno with
    | Some v => v
    | None => u "1"
    end in
  match componer_mensaje (u "Confirmación de Compra - EcoHarmony Park")
          (match EMAIL_EMISOR entorno with
           | Some (c :: r) => c :: r
           | _ => u "simulado@local"
           end)
          destinatario_email
          (u "¡Gracias por tu compra!" ++ salto ++ salto
             ++ u "Aquí está el resumen:" ++ salto ++ salto
             ++ cuerpo_mensaje) with
  | inl e => (lanzar e, w)
  | inr _ =>
    if negb (VentanaPagoTarjeta.no_vacio (EMAIL_EMISOR entorno))
       || negb (VentanaPagoTarjeta.no_vacio (PASSWORD_EMISOR entorno))
    then
      if bool_decide (simulate_email = u "1") then
        (devolver true,
         anotar (EvPrint (u "Simulación: correo enviado a "
                            ++ destinatario_email
                            ++ u " (credenciales no configuradas).")) w)
      else
        (lanzar (Excepcion ValueError
                   (u "Credenciales de email no encontradas.")), w)
    else
      let emisor := default [] (EMAIL_EMISOR entorno) in
      let password := default [] (PASSWORD_EMISOR entorno) in
      let w := anotar (EvSmtp destinatario_email) w in
      match smtp_enviar emisor password destinatario_email cuerpo_mensaje
      with
      | inl e => (lanzar e, w)
      | inr _ => (devolver true, w)
      end
  end.

End Correo.

(** ** [class ComprarEntradasUI] *)

Module ComprarEntradasUI.
Import ConfiguracionParque.

(** A label: its text and the colour of its text. *)
Record etiqueta := { text : str; text_color : str }.

(** A row of [frame_edades]: its caption and its error label; the
    variable of its entry is in [edades_inputs]. *)
Record fila_edad := { titulo : str; error_label : str }.

(** The widgets of the form that the methods read and write. *)
Record t := Build {
  usuario_logueado : Usuario.t;
  anio_var : str;
  mes_var : str;
  dia_var : str;
  om_dia_values : list str;
  label_feedback_fecha : etiqueta;
  cantidad_var : str;
  label_error_cantidad : str;
  frame_edades : list fila_edad;
  edades_inputs : list str;
  tipo_pase : str;
  forma_pago : str;
  label_total : str;
  text_resultado : str;
}.

(** [self.dia_var.set(s)] *)
Definition dia_var_set (self : t) (s : str) : t :=
  Build (usuario_logueado self) (anio_var self) (mes_var self) s
    (om_dia_values self) (label_feedback_fecha self) (cantidad_var self)
    (label_error_cantidad self) (frame_edades self) (edades_inputs self)
    (tipo_pase self) (forma_pago self) (label_total self)
    (text_resultado self).

(** [self.om_dia.configure(values=l)] *)
Definition om_dia_configure (self : t) (l : list str) : t :=
  Build (usuario_logueado self) (anio_var self) (mes_var self) (dia_var self)
    l (label_feedback_fecha self) (cantidad_var self)
    (label_error_cantidad self) (frame_edades self) (edades_inputs self)
    (tipo_pase self) (forma_pago self) (label_total self)
    (text_resultado self).

Definition set_label_feedback_fecha (self : t) (e : etiqueta) : t :=
  Build (usuario_logueado self) (anio_var self) (mes_var self) (dia_var self)
    (om_dia_values self) e (cantidad_var self)
    (label_error_cantidad self) (frame_edades self) (edades_inputs self)
    (tipo_pase self) (forma_pago self) (label_total self)
    (text_resultado self).

(** [self.label_feedback_fecha.configure(text=s, text_color=c)] *)
Definition label_feedback_fecha_configure (self : t) (s c : str) : t :=
  set_label_feedback_fecha self {| text := s; text_color := c |}.

(** [self.label_feedback_fecha.configure(text=s)] *)
Definition label_feedback_fecha_configure_text (self : t) (s : str) : t :=
  set_label_feedback_fecha self
    {| text := s; text_color := text_color (label_feedback_fecha self) |}.

(** The variable of the quantity, written without its observers. *)
Definition set_cantidad_var (self : t) (s : str) : t :=
  Build (usuario_logueado self) (anio_var self) (mes_var self) (dia_var self)
    (om_dia_values self) (label_feedback_fecha self) s
    (label_error_cantidad self) (frame_edades self) (edades_inputs self)
    (tipo_pase self) (forma_pago self) (label_total self)
    (text_resultado self).

(** [self.label_error_cantidad.configure(text=s)] *)
Definition label_error_cantidad_configure (self : t) (s : str) : t :=
  Build (usuario_logueado self) (anio_var self) (mes_var self) (dia_var self)
    (om_dia_values self) (label_feedback_fecha self) (cantidad_var self)
    s (frame_edades self) (edades_inputs self)
    (tipo_pase self) (forma_pago self) (label_total self)
    (text_resultado self).

Definition set_frame_edades (self : t) (l : list fila_edad) : t :=
  Build (usuario_logueado self) (anio_var self) (mes_var self) (dia_var self)
    (om_dia_values self) (label_feedback_fecha self) (cantidad_var self)
    (label_error_cantidad self) l (edades_inputs self)
    (tipo_pase self) (forma_pago self) (label_total self)
    (text_resultado self).

Definition set_edades_inputs (self : t) (l : list str) : t :=
  Build (usuario_logueado self) (anio_var self) (mes_var self) (dia_var self)
    (om_dia_values self) (label_feedback_fecha self) (cantidad_var self)
    (label_error_cantidad self) (frame_edades self) l
    (tipo_pase self) (forma_pago self) (label_total self)
    (text_resultado self).

(** [self.label_total.configure(text=s)] *)
Definition label_total_configure (self : t) (s : str) : t :=
  Build (usuario_logueado self) (anio_var self) (mes_var self) (dia_var self)
    (om_dia_values self) (label_feedback_fecha self) (cantidad_var self)
    (label_error_cantidad self) (frame_edades self) (edades_inputs self)
    (tipo_pase self) (forma_pago self) s
    (text_resultado self).

Definition set_text_resultado (self : t) (s : str) : t :=
  Build (usuario_logueado self) (anio_var self) (mes_var self) (dia_var self)
    (om_dia_values self) (label_feedback_fecha self) (cantidad_var self)
    (label_error_cantidad self) (frame_edades self) (edades_inputs self)
    (tipo_pase self) (forma_pago self) (label_total self) s.

(** [self.text_resultado.delete("1.0", "end")] *)
Definition text_resultado_delete (self : t) : t := set_text_resultado self [].

(** [self.text_resultado.insert("end", s)] *)
Definition text_resultado_insert (self : t) (s : str) : t :=
  set_text_resultado self (text_resultado self ++ s).

Definition msg_cantidad_rango (min_entradas max_entradas : Z) : str :=
  u "⚠️ La cantidad debe estar entre " ++ str_de_int min_entradas
    ++ u " y " ++ str_de_int max_entradas ++ u ".".
Definition msg_edad_minima : str := u "⚠️ Edad no válida (mínimo 1).".
Definition msg_edad_no_valida : str := u "⚠️ Edad no válida.".
Definition msg_fecha_anterior : str :=
  u "⚠️ La fecha no puede ser anterior a hoy.".
Definition msg_parque_cerrado : str := u "🚫 El parque está cerrado ese día.".
Definition msg_fecha_valida : str := u "✅ Fecha de visita válida.".
Definition msg_datos_invalidos : str :=
  u "⚠️ Datos inválidos. Por favor, revise su selección.".
Definition msg_edades_mayores : str :=
  u "⚠️ Todas las edades deben ser mayores a 0.".

(** What an [except ValueError] clause does with an exception. *)
Definition es_ValueError (e : excepcion) : bool :=
  match clase e with
  | ValueError => true
  | _ => false
  end.

(** What an [except (ValueError, TypeError)] clause does with it. *)
Definition es_ValueError_o_TypeError (e : excepcion) : bool :=
  match clase e with
  | ValueError => true
  | OtraExcepcion nombre => bool_decide (nombre = u "TypeError")
  | _ => false
  end.

Section Metodos.
Context `{Unicode} `{Colaboradores} `{Mensajes}.

(** The text that [validar_edad] gives to the label of the row. *)
Definition validar_edad (var : str) : str :=
  match int_de_str var with
  | inr valor => if valor <? 1 then msg_edad_minima else []
  | inl _ =>
    if negb (bool_decide (strip var = [])) then msg_edad_no_valida else []
  end.

(** The text of the [try] block of [actualizar_total]; [int] and the
    conversion of the total to text raise nothing but [ValueError]. *)
Definition actualizar_total_try (self : t) : Exc str :=
  sea cantidad <- int_de_str (cantidad_var self);
  let tipo := tipo_pase self in
  let precio_unitario := dict_get PRECIOS tipo 0 in
  let total := cantidad * precio_unitario in
  sea texto_total <- str_con_limite total;
  devolver (u "Total: $" ++ texto_total).

Definition actualizar_total (self : t) : t :=
  match actualizar_total_try self with
  | inr texto => label_total_configure self texto
  | inl _ => label_total_configure self (u "Total: -")
  end.

(** The rows made by the loop of [actualizar_campos_edad] for
    [i = desde, ..., desde + n - 1]. *)
Fixpoint filas_nuevas (desde : Z) (n : nat) : list fila_edad :=
  match n with
  | O => []
  | S n' =>
    {| titulo := u "Edad visitante " ++ str_de_int (desde + 1) ++ u ":";
       error_label := [] |} :: filas_nuevas (desde + 1) n'
  end.

Definition actualizar_campos_edad (self : t) : t :=
  (* Limpiar campos anteriores *)
  let self := set_frame_edades self [] in
  let cantidad :=
    match int_de_str (cantidad_var self) with
    | inr cantidad => cantidad
    | inl _ => 0
    end in
  let min_entradas := CANTIDAD_MIN_ENTRADAS in
  let max_entradas := CANTIDAD_MAX_ENTRADAS in
  if negb ((min_entradas <=? cantidad) && (cantidad <=? max_entradas)) then
    label_error_cantidad_configure self
      (msg_cantidad_rango min_entradas max_entradas)
  else
    let self := label_error_cantidad_configure self [] in
    let self := set_edades_inputs self [] in
    let self := set_frame_edades self (filas_nuevas 0 (Z.to_nat cantidad)) in
    set_edades_inputs self (replicate (Z.to_nat cantidad) []).

(** [self.cantidad_var.set(s)]: the variable is written and its two
    observers run, the one registered last first. *)
Definition cantidad_var_set (self : t) (s : str) : t :=
  let self := set_cantidad_var self s in
  let self := actualizar_total self in
  actualizar_campos_edad self.

Definition ajustar_cantidad (cambio : Z) (self : t) : t :=
  let self :=
    match int_de_str (cantidad_var self) with
    | inr cantidad_actual =>
      let nueva_cantidad := cantidad_actual + cambio in
      let min_entradas := CANTIDAD_MIN_ENTRADAS in
      let max_entradas := CANTIDAD_MAX_ENTRADAS in
      if (min_entradas <=? nueva_cantidad) && (nueva_cantidad <=? max_entradas)
      then cantidad_var_set self (str_de_int nueva_cantidad)
      else self
    | inl _ => cantidad_var_set self (str_de_int CANTIDAD_MIN_ENTRADAS)
    end in
  let self := actualizar_campos_edad self in
  actualizar_total self.

(** The body of the [try] block of [actualizar_dias]. *)
Definition actualizar_dias_try (hoy : date) (self : t) : Exc unit * t :=
  match int_de_str (anio_var self) with
  | inl e => (lanzar e, self)
  | inr year =>
  match int_de_str (mes_var self) with
  | inl e => (lanzar e, self)
  | inr month =>
  match monthrange year month with
  | inl e => (lanzar e, self)
  | inr (_, num_dias) =>
  let dias_disponibles :=
    map (fun d => str_de_int (Z.of_nat d)) (seq 1 (Z.to_nat num_dias)) in
  let self := om_dia_configure self dias_disponibles in
  match int_de_str (dia_var self) with
  | inl e => (lanzar e, self)
  | inr dia =>
  let self :=
    if dia >? num_dias then dia_var_set self (str_de_int num_dias)
    else self in
  match int_de_str (dia_var self) with
  | inl e => (lanzar e, self)
  | inr dia =>
  match date_nuevo year month dia with
  | inl e => (lanzar e, self)
  | inr fecha_seleccionada =>
    if date_lt fecha_seleccionada hoy then
      (devolver tt,
       label_feedback_fecha_configure self msg_fecha_anterior (u "red"))
    else if negb (bool_decide (weekday fecha_seleccionada ∈ DIAS_ABIERTOS))
    then
      (devolver tt,
       label_feedback_fecha_configure self msg_parque_cerrado (u "orange"))
    else
      (devolver tt,
       label_feedback_fecha_configure self msg_fecha_valida (u "green"))
  end
  end
  end
  end
  end
  end.

Definition actualizar_dias (hoy : date) (self : t) : Exc unit * t :=
  match actualizar_dias_try hoy self with
  | (inl e, self) =>
    if es_ValueError_o_TypeError e
    then (devolver tt, label_feedback_fecha_configure_text self [])
    else (lanzar e, self)
  | (inr _, self) => (devolver tt, self)
  end.

(** The date and the quantity that [realizar_compra] reads first. *)
Definition leer_fecha_y_cantidad (self : t) : Exc (date * Z) :=
  sea anio <- int_de_str (anio_var self);
  sea mes <- int_de_str (mes_var self);
  sea dia <- int_de_str (dia_var self);
  sea fecha_visita <- date_nuevo anio mes dia;
  sea cantidad <- int_de_str (cantidad_var self);
  devolver (fecha_visita, cantidad).

(** The loop over [edades_inputs], up to the first age that is not a
    number or is less than 1. *)
Fixpoint leer_edades (vars : list str) (edades : list Z) : Exc (list Z) :=
  match vars with
  | [] => devolver edades
  | var :: r =>
    sea edad <- int_de_str var;
    if edad <? 1 then lanzar (Excepcion ValueError (u "Edad inválida"))
    else leer_edades r (edades ++ [edad])
  end.

Definition realizar_compra (hoy : date) (entorno : Entorno) (self : t)
    (w : Mundo) : Exc unit * (t * Mundo) :=
  (* Limpiar antes de empezar *)
  let self := text_resultado_delete self in
  match leer_fecha_y_cantidad self with
  | inl e =>
    if es_ValueError e
    then (devolver tt, (text_resultado_insert self msg_datos_invalidos, w))
    else (lanzar e, (self, w))
  | inr (fecha_visita, cantidad) =>
  let tipo := tipo_pase self in
  let forma := forma_pago self in
  match leer_edades (edades_inputs self) [] with
  | inl e =>
    if es_ValueError e
    then (devolver tt, (text_resultado_insert self msg_edades_mayores, w))
    else (lanzar e, (self, w))
  | inr edades =>
  let compra :=
    Compra.__init__ (Some (usuario_logueado self)) fecha_visita cantidad
      edades tipo forma in
  match Compra.procesar hoy compra with
  | (inl e, _) => (lanzar e, (self, w))
  | (inr resultado, _) =>
  if negb (ok resultado) then
    (devolver tt, (text_resultado_insert self (mensaje resultado), w))
  else
  let mensaje_base := mensaje resultado in
  (* Enviar correo *)
  let '(mensaje_final, w) :=
    match enviar_correo_confirmacion entorno
            (Usuario.email (usuario_logueado self)) mensaje_base w with
    | (inr enviado, w) =>
      if enviado then
        (mensaje_base ++ salto ++ salto ++ u "📧 Se envió un recibo a "
           ++ Usuario.email (usuario_logueado self) ++ u ".", w)
      else
        (mensaje_base ++ salto ++ salto
           ++ u "⚠️ No se pudo enviar el email de confirmación.", w)
    | (inl e, w) =>
      (mensaje_base ++ salto ++ salto ++ u "⚠️ Error al enviar el correo: "
         ++ texto e, w)
    end in
  (devolver tt, (text_resultado_insert self mensaje_final, w))
  end
  end
  end.

End Metodos.

End ComprarEntradasUI.

(** ** The machine

    The largest index of the machine, [sys.maxsize], and the lists it
    has the memory for. *)

Class Maquina := {
  maxsize : Z;
  (** whether a list of that many items can be allocated *)
  memoria_alcanza : Z -> bool;
}.

(** [[x] * n] *)
Definition lista_por `{Maquina} {A} (x : A) (n : Z) : Exc (list A) :=
  if (n <? - maxsize - 1) || (maxsize <? n) then
    lanzar (Excepcion (OtraExcepcion (u "OverflowError"))
              (u "cannot fit 'int' into an index-sized integer"))
  else if n <=? 0 then devolver []
  else if negb (memoria_alcanza n) then
    lanzar (Excepcion (OtraExcepcion (u "MemoryError")) [])
  else devolver (replicate (Z.to_nat n) x).

(** ** [ui_comprar_entradas.py]: the form without ages and receipt *)

Module ui_comprar_entradas.
Import ConfiguracionParque.

(** The widgets of [ComprarEntradasUI] that its methods read and
    write. *)
Record t := Build {
  usuario_logueado : Usuario.t;
  anio_var : str;
  mes_var : str;
  dia_var : str;
  cantidad_var : str;
  tipo_pase : str;
  forma_pago : str;
  text_resultado : str;
}.

(** [self.cantidad_var.set(s)] *)
Definition cantidad_var_set (self : t) (s : str) : t :=
  Build (usuario_logueado self) (anio_var self) (mes_var self) (dia_var self)
    s (tipo_pase self) (forma_pago self) (text_resultado self).

Definition set_text_resultado (self : t) (s : str) : t :=
  Build (usuario_logueado self) (anio_var self) (mes_var self) (dia_var self)
    (cantidad_var self) (tipo_pase self) (forma_pago self) s.

(** [self.text_resultado.delete("1.0", "end")] *)
Definition text_resultado_delete (self : t) : t := set_text_resultado self [].

(** [self.text_resultado.insert("end", s)] *)
Definition text_resultado_insert (self : t) (s : str) : t :=
  set_text_resultado self (text_resultado self ++ s).

Section Metodos.
Context `{Unicode} `{Maquina}.

Definition ajustar_cantidad (cambio : Z) (self : t) : t :=
  match int_de_str (cantidad_var self) with
  | inr cantidad_actual =>
    let nueva_cantidad := cantidad_actual + cambio in
    let min_entradas := CANTIDAD_MIN_ENTRADAS in
    let max_entradas := CANTIDAD_MAX_ENTRADAS in
    if (min_entradas <=? nueva_cantidad) && (nueva_cantidad <=? max_entradas)
    then cantidad_var_set self (str_de_int nueva_cantidad)
    else self
  | inl _ => cantidad_var_set self (str_de_int CANTIDAD_MIN_ENTRADAS)
  end.

Definition leer_fecha_y_cantidad (self : t) : Exc (date * Z) :=
  sea anio <- int_de_str (anio_var self);
  sea mes <- int_de_str (mes_var self);
  sea dia <- int_de_str (dia_var self);
  sea fecha_visita <- date_nuevo anio mes dia;
  sea cantidad <- int_de_str (cantidad_var self);
  devolver (fecha_visita, cantidad).

Definition realizar_compra (hoy : date) (self : t) : Exc unit * t :=
  match leer_fecha_y_cantidad self with
  | inl e =>
    if ComprarEntradasUI.es_ValueError e then
      let self := text_resultado_delete self in
      (devolver tt,
       text_resultado_insert self ComprarEntradasUI.msg_datos_invalidos)
    else (lanzar e, self)
  | inr (fecha_visita, cantidad) =>
  (* Esto puede adaptarse si luego pedís edades reales *)
  match lista_por 25 cantidad with
  | inl e => (lanzar e, self)
  | inr edades =>
  let tipo := tipo_pase self in
  let forma := forma_pago self in
  let compra :=
    Compra.__init__ (Some (usuario_logueado self)) fecha_visita cantidad
      edades tipo forma in
  match Compra.procesar hoy compra with
  | (inl e, _) => (lanzar e, self)
  | (inr resultado, _) =>
    let self := text_resultado_delete self in
    (devolver tt, text_resultado_insert self (mensaje resultado))
  end
  end
  end.

End Metodos.

End ui_comprar_entradas.

(** ** The forms, in words *)

(** The value of a run of ASCII digits, most significant first. *)
Definition valor_ascii (s : list N) : Z :=
  fold_left (fun acc c => acc * 10 + (Z.of_N c - 48)) s 0.

(** An integer that fits in the [int] of C. *)
Definition cabe_en_int (z : Z) : bool := (INT_MIN <=? z) && (z <=? INT_MAX).

(** A day of the calendar of [date]: years 1 to 9999. *)
Definition fecha_existe (y m d : Z) : bool :=
  (1 <=? y) && (y <=? 9999) && (1 <=? m) && (m <=? 12)
  && (1 <=? d) && (d <=? _days_in_month y m).

Section EspecificacionFormulario.
Context `{Unicode}.

(** An age field that [realizar_compra] takes: an integer, 1 or more. *)
Definition edad_aceptable (var : str) : Prop :=
  exists edad, int_de_str var = inr edad /\ 1 <= edad.

(** A field left blank. *)
Definition en_blanco (var : str) : Prop :=
  Forall (fun c => es_espacio c = true) var.

(** The date that the year, the month and the day of the form stand
    for, if any. *)
Definition fecha_del_formulario (self : ComprarEntradasUI.t) : option date :=
  match int_de_str (ComprarEntradasUI.anio_var self),
        int_de_str (ComprarEntradasUI.mes_var self),
        int_de_str (ComprarEntradasUI.dia_var self) with
  | inr anio, inr mes, inr dia =>
    match date_nuevo anio mes dia with
    | inr fecha => Some fecha
    | inl _ => None
    end
  | _, _, _ => None
  end.

End EspecificacionFormulario.

(** ** Instances for the examples *)

(** The character tables up to U+00FF as CPython has them; code points
    above are classified as symbols. *)
Definition latin1_alnum (c : N) : bool :=
  (if c <? 128 then ascii_alnum c
   else (c =? 170) || (c =? 178) || (c =? 179) || (c =? 181) || (c =? 185)
        || (c =? 186) || (188 <=? c) && (c <=? 190)
        || (192 <=? c) && (c <=? 255) && negb (c =? 215) && negb (c =? 247))%N.

Definition latin1_digito (c : N) : bool :=
  (if c <? 128 then ascii_digito c
   else (c =? 178) || (c =? 179) || (c =? 185))%N.

Definition latin1_decimal (c : N) : option Z :=
  if ascii_digito c then Some (Z.of_N c - 48) else None.

Definition latin1_espacio (c : N) : bool :=
  (if c <? 128 then ascii_espacio c else (c =? 133) || (c =? 160))%N.

#[export] Instance unicode_latin1 : Unicode := {|
  es_alnum := latin1_alnum;
  es_digito := latin1_digito;
  valor_decimal := latin1_decimal;
  es_espacio := latin1_espacio;
  limite_digitos := Some 4300%nat;
|}.

(** A store held in memory: the set of registered emails.  No call
    fails, and the transport accepts every message. *)
#[export] Instance colaboradores_memoria : Colaboradores := {|
  BD := gset str;
  Fila := str;
  crear_tabla_usuarios := fun b => devolver b;
  buscar_usuario_por_email := fun email b =>
    devolver (if bool_decide (email ∈ b) then Some email else None);
  insertar_o_ignorar_usuario := fun email _ _ b => devolver ({[email]} ∪ b);
  smtp_enviar := fun _ _ _ _ => devolver tt;
|}.

(** A machine of 64 bits with memory for a million items. *)
#[export] Instance maquina_64 : Maquina := {|
  maxsize := 9223372036854775807;
  memoria_alcanza := fun n => n <=? 1000000;
|}.

(** The characters at which [str.splitlines] breaks a line. *)
Definition es_salto_de_linea (c : N) : bool :=
  ((10 <=? c) && (c <=? 13) || (28 <=? c) && (c <=? 30) || (c =? 133)
   || (c =? 8232) || (c =? 8233))%N.

(** [len(s.splitlines()) > 1]: something follows the first line break,
    a carriage return and a line feed being one break. *)
Fixpoint varias_lineas (s : str) : bool :=
  match s with
  | [] => false
  | c :: r =>
    if es_salto_de_linea c then
      match (if (c =? 13)%N
             then match r with
                  | c' :: r' => if (c' =? 10)%N then r' else r
                  | [] => r
                  end
             else r) with
      | [] => false
      | _ :: _ => true
      end
    else varias_lineas r
  end.

(** An email library that refuses the headers of more than one line,
    and nothing else. *)
#[export] Instance mensajes_una_linea : Mensajes := {|
  componer_mensaje := fun asunto de para _ =>
    if varias_lineas asunto || varias_lineas de || varias_lineas para then
      lanzar (Excepcion ValueError
                (u "Header values may not contain linefeed or carriage return characters"))
    else devolver tt;
|}.

(** ** The order validator, as the specification words it *)

Module Especificacion.
Import ConfiguracionParque.

(** Identity: the requester is present and registered. *)
Definition identidad_ok (c : Compra.t) : Prop :=
  exists us, Compra.usuario c = Some us /\ Usuario.registrado us = true.

(** Date: today or later, on a weekday the park opens. *)
Definition fecha_ok (hoy : date) (c : Compra.t) : Prop :=
  date_ge (Compra.fecha_visita c) hoy = true
  /\ weekday (Compra.fecha_visita c) ∈ DIAS_ABIERTOS.

(** Quantity: between the configured bounds, both included. *)
Definition cantidad_ok (c : Compra.t) : Prop :=
  CANTIDAD_MIN_ENTRADAS <= Compra.cantidad c <= CANTIDAD_MAX_ENTRADAS.

(** Ages: one for each ticket, and at least one. *)
Definition edades_ok (c : Compra.t) : Prop :=
  Compra.edades c <> [] /\ len (Compra.edades c) = Compra.cantidad c.

(** Payment method: cash or card. *)
Definition forma_pago_ok (c : Compra.t) : Prop :=
  Compra.forma_pago c = u "efectivo" \/ Compra.forma_pago c = u "tarjeta".

(** The message of each check, in the order of the checks. *)
Definition mensajes_en_orden : list str :=
  [Compra.msg_usuario; Compra.msg_fecha;
   Compra.msg_cantidad CANTIDAD_MIN_ENTRADAS CANTIDAD_MAX_ENTRADAS;
   Compra.msg_edades; Compra.msg_forma_pago].

(** What one check leaves in [errores]: nothing when it passes, its
    message when it fails. *)
Definition aporte (P : Prop) (m : str) (e : list str) : Prop :=
  (P /\ e = []) \/ (~ P /\ e = [m]).

Definition todo_ok (hoy : date) (c : Compra.t) : Prop :=
  identidad_ok c /\ fecha_ok hoy c /\ cantidad_ok c /\ edades_ok c
  /\ forma_pago_ok c.

End Especificacion.

(** The fields of a draft other than [errores]. *)
Definition campos_pedido (c : Compra.t) :=
  (Compra.usuario c, Compra.fecha_visita c, Compra.cantidad c,
   Compra.edades c, Compra.tipo_pase c, Compra.forma_pago c).

(** [self.tipo_pase = tipo] *)
Definition con_tipo_pase (c : Compra.t) (tipo : str) : Compra.t :=
  Compra.Build (Compra.usuario c) (Compra.fecha_visita c) (Compra.cantidad c)
    (Compra.edades c) tipo (Compra.forma_pago c) (Compra.errores c).

(** The public methods of [Compra], as calls on one draft. *)
Inductive llamada :=
| LlamaEsValida
| LlamaCalcularMontoTotal
| LlamaProcesar.

Definition tras_llamada (c : Compra.t) (l : llamada * date) : Compra.t :=
  match l with
  | (LlamaEsValida, hoy) => snd (Compra.es_valida hoy c)
  | (LlamaCalcularMontoTotal, _) => c
  | (LlamaProcesar, hoy) => snd (Compra.procesar hoy c)
  end.

(** The draft after a sequence of calls, each at its own date. *)
Definition tras_llamadas (ls : list (llamada * date)) (c : Compra.t)
    : Compra.t :=
  fold_left tras_llamada ls c.

(** The draft after [es_valida] has run once for each date of [relojes]. *)
Definition tras_validaciones (relojes : list date) (c : Compra.t) : Compra.t :=
  fold_left (fun c hoy => snd (Compra.es_valida hoy c)) relojes c.

(** The confirmation text of [procesar] up to the payment suffix. *)
Definition confirmacion (email : str) (cant : Z) (fecha : date) (total : Z)
    : str :=
  u "Compra confirmada para " ++ email ++ u ": " ++ str_de_int cant
    ++ u " entradas para el " ++ str_de_date fecha ++ u " por $"
    ++ str_de_int total ++ u ".".

(** The suffix [procesar] appends for each payment method. *)
Definition sufijo_tarjeta : str := u " Redirigiendo a Mercado Pago...".
Definition sufijo_efectivo : str := u " Pago en boletería.".

(** ** The session email, as the code and as the specification word it *)

Section EspecificacionUsuario.
Context `{Unicode}.

(** [local@dominio.tld]: [local] and [dominio] are non-empty runs of word
    characters, dots and hyphens, [tld] is a non-empty run of word
    characters.  This is the language of [Usuario.patron_email]. *)
Definition forma_email (email : str) : Prop :=
  exists local dominio tld : str,
    email = local ++ [64%N] ++ dominio ++ [46%N] ++ tld
    /\ local <> [] /\ Forall (fun c => re.palabra_punto_guion c = true) local
    /\ dominio <> []
    /\ Forall (fun c => re.palabra_punto_guion c = true) dominio
    /\ tld <> [] /\ Forall (fun c => re.palabra c = true) tld.

(** [[\w\.]]: word characters and dots. *)
Definition palabra_punto (c : N) : bool := re.palabra c || (c =? 46)%N.

(** The pattern as the specification describes it: word, dot and hyphen
    characters before the [@], word and dot characters after it, a dot
    and a non-empty run of word characters at the end. *)
Definition patron_email_segun_spec : re.patron :=
  re.Sec (re.Mas (re.Clase re.palabra_punto_guion))
    (re.Sec (re.Car 64)
       (re.Sec (re.Mas (re.Clase palabra_punto))
          (re.Sec (re.Car 46) (re.Mas (re.Clase re.palabra))))).

(** [existe = fila is not None] *)
Definition no_es_None {A} (fila : option A) : bool :=
  match fila with Some _ => true | None => false end.

End EspecificacionUsuario.

(** ** The card fields, as the specification words them *)

Section EspecificacionTarjeta.
Context `{Unicode}.
Import VentanaPagoTarjeta.

(** A card-holder name of at least 3 characters. *)
Definition nombre_ok (v : VentanaPagoTarjeta.t) : bool :=
  3 <=? len (entry_nombre v).

(** A card number of 16 digits. *)
Definition tarjeta_ok (v : VentanaPagoTarjeta.t) : bool :=
  isdigit (entry_tarjeta v) && (len (entry_tarjeta v) =? 16).

(** A month/year [mes]/[anio] before the one of [hoy]. *)
Definition vencida (hoy : date) (mes anio : Z) : bool :=
  (anio <? year hoy) || (anio =? year hoy) && (mes <? month hoy).

(** A numeric month between 1 and 12 and a numeric year of 4 digits,
    not before the current month. *)
Definition vencimiento_ok (v : VentanaPagoTarjeta.t) : bool :=
  isdigit (entry_mes v) && isdigit (entry_anio v)
  && (len (entry_anio v) =? 4)
  && match int_de_digitos (entry_mes v), int_de_digitos (entry_anio v) with
     | inr mes, inr anio =>
       (1 <=? mes) && (mes <=? 12) && negb (vencida (today v) mes anio)
     | _, _ => false
     end.

(** A CVV of 3 digits. *)
Definition cvv_ok (v : VentanaPagoTarjeta.t) : bool :=
  isdigit (entry_cvv v) && (len (entry_cvv v) =? 3).

(** What the expiry check reports: [None] when it passes. *)
Definition falla_vencimiento (v : VentanaPagoTarjeta.t) : option str :=
  if negb (isdigit (entry_mes v)) then Some msg_mes_numero
  else
    match int_de_digitos (entry_mes v) with
    | inl _ => Some msg_numericos
    | inr mes =>
      if negb ((1 <=? mes) && (mes <=? 12)) then Some msg_mes_rango
      else if negb (isdigit (entry_anio v))
              || negb (len (entry_anio v) =? 4) then Some msg_anio
      else
        match int_de_digitos (entry_anio v) with
        | inl _ => Some msg_numericos
        | inr anio =>
          if vencida (today v) mes anio then Some msg_vencida else None
        end
    end.

(** The messages of the expiry check. *)
Definition mensajes_vencimiento : list str :=
  [msg_mes_numero; msg_mes_rango; msg_anio; msg_vencida; msg_numericos].

End EspecificacionTarjeta.

(** ** Reading the trace *)

(** The receipts asked of [_enviar_correo_confirmacion] and of
    [enviar_correo_confirmacion]: body and recipient, in order. *)
Fixpoint correos_pedidos (t : list evento) : list (str * str) :=
  match t with
  | [] => []
  | EvEnviarCorreo cuerpo destinatario :: r =>
    (cuerpo, destinatario) :: correos_pedidos r
  | _ :: r => correos_pedidos r
  end.

(** The rows handed to [INSERT OR IGNORE], in order. *)
Fixpoint inserciones (t : list evento) : list (str * str * str) :=
  match t with
  | [] => []
  | EvInsertarUsuario email nombre password_hash :: r =>
    (email, nombre, password_hash) :: inserciones r
  | _ :: r => inserciones r
  end.

(** The recipients for whom the SMTP transport was contacted. *)
Fixpoint contactos_smtp (t : list evento) : list str :=
  match t with
  | [] => []
  | EvSmtp destinatario :: r => destinatario :: contactos_smtp r
  | _ :: r => contactos_smtp r
  end.

(** ** Inputs of the examples *)

Module Ejemplos.

(** Wednesday 4 November 2026, and the Thursday after it. *)
Definition hoy : date := Date 2026 11 4.
Definition jueves : date := Date 2026 11 5.
Definition domingo : date := Date 2026 11 8.

Definition ana : Usuario.t := Usuario.Build (u "ana@example.com") true.

Definition compra_efectivo : Compra.t :=
  Compra.__init__ (Some ana) jueves 2 [30; 40] (u "regular") (u "efectivo").

Definition compra_tarjeta : Compra.t :=
  Compra.__init__ (Some ana) jueves 2 [30; 40] (u "regular") (u "tarjeta").

Definition compra_vip : Compra.t :=
  Compra.__init__ (Some ana) jueves 3 [30; 40; 8] (u "VIP") (u "efectivo").

Definition compra_pase_desconocido : Compra.t :=
  Compra.__init__ (Some ana) jueves 2 [30; 40] (u "premium") (u "efectivo").

(** No requester, a closed day, too many tickets, no ages, no known
    payment method. *)
Definition compra_invalida : Compra.t :=
  Compra.__init__ None domingo 11 [] (u "regular") (u "cheque").

Definition mundo (emails : list str) : Mundo :=
  {| bd := list_to_set emails; traza := [] |}.

Definition sin_credenciales : Entorno :=
  {| EMAIL_EMISOR := None; PASSWORD_EMISOR := None;
     SIMULATE_EMAIL := None |}.

Definition ventana (c : Compra.t) (email_recibo : str)
    : VentanaPagoTarjeta.t :=
  VentanaPagoTarjeta.Build c hoy email_recibo (u "Ana Paz")
    (u "4509953566233704") (u "11") (u "2026") (u "123") [] [] false.

(** The receipt email typed in the window is not the requester's. *)
Definition ventana_otro_email : VentanaPagoTarjeta.t :=
  ventana compra_tarjeta (u " otro@example.com ").

(** The store holds the requester. *)
Definition mundo_ana : Mundo := mundo [u "ana@example.com"].

Definition ventana_vacia : VentanaPagoTarjeta.t :=
  VentanaPagoTarjeta.Build compra_tarjeta hoy [] [] [] [] [] [] [] [] false.

(** A requester that the session did not find in the store. *)
Definition luis : Usuario.t := Usuario.Build (u "luis@example.com") false.

Definition compra_no_registrado : Compra.t :=
  Compra.__init__ (Some luis) jueves 2 [30; 40] (u "regular") (u "tarjeta").

(** The requester's own email typed in the window, with blanks around. *)
Definition ventana_ana : VentanaPagoTarjeta.t :=
  ventana compra_tarjeta (u " ana@example.com ").

(** The form of [parque_aventura.py], filled for two visitors on
    Thursday. *)
Definition formulario : ComprarEntradasUI.t :=
  ComprarEntradasUI.Build ana (u "2026") (u "11") (u "5") []
    {| ComprarEntradasUI.text := []; ComprarEntradasUI.text_color := [] |}
    (u "2") [] [] [u "30"; u "40"] (u "regular") (u "efectivo") [] [].

(** The form of [ui_comprar_entradas.py], filled the same way. *)
Definition formulario_simple : ui_comprar_entradas.t :=
  ui_comprar_entradas.Build ana (u "2026") (u "11") (u "5") (u "2")
    (u "regular") (u "efectivo") [].

End Ejemplos.

Arguments u : simpl never.
Opaque u.

(** * Properties *)

(** ** Substrings *)

Lemma es_prefijo_correcto (p s : str) :
  es_prefijo p s = true <-> exists r, s = p ++ r.
Proof.
  revert s. induction p as [|a p IH]; intros s; simpl.
  - split; [intros _; now exists s | reflexivity].
  - destruct s as [|b s].
    + split; [discriminate | intros [r Hr]; discriminate].
    + rewrite andb_true_iff, N.eqb_eq, IH. split.
      * intros [-> [r ->]]. now exists r.
      * intros [r Hr]. injection Hr as -> ->. split; [reflexivity | now exists r].
Qed.

Lemma contiene_correcto (hay needle : str) :
  contiene hay needle = true <-> exists pre post, hay = pre ++ needle ++ post.
Proof.
  induction hay as [|c hay IH].
  - simpl. rewrite orb_false_r, es_prefijo_correcto. split.
    + intros [r Hr]. now exists [], r.
    + intros (pre & post & Hp). destruct pre; [now exists post|discriminate].
  - cbn [contiene]. rewrite orb_true_iff, es_prefijo_correcto, IH. split.
    + intros [[r Hr] | (pre & post & Hp)].
      * now exists [], r.
      * exists (c :: pre), post. now rewrite Hp.
    + intros (pre & post & Hp). destruct pre as [|c' pre].
      * left. now exists post.
      * right. injection Hp as -> ->. now exists pre, post.
Qed.

Lemma contiene_medio (pre needle post : str) :
  contiene (pre ++ needle ++ post) needle = true.
Proof. apply contiene_correcto. now exists pre, post. Qed.

Lemma contiene_app_l (a b needle : str) :
  contiene a needle = true -> contiene (a ++ b) needle = true.
Proof.
  rewrite !contiene_correcto. intros (pre & post & ->).
  exists pre, (post ++ b). now rewrite <- !app_assoc.
Qed.

Lemma contiene_app_r (a b needle : str) :
  contiene b needle = true -> contiene (a ++ b) needle = true.
Proof.
  rewrite !contiene_correcto. intros (pre & post & ->).
  exists (a ++ pre), post. now rewrite <- !app_assoc.
Qed.

(** ** The validations of [Compra] *)

Section Validaciones.
Import ConfiguracionParque Especificacion.

Lemma identidad_ok_dec c : identidad_ok c \/ ~ identidad_ok c.
Proof.
  unfold identidad_ok. destruct (Compra.usuario c) as [[e [|]]|].
  - left. eauto.
  - right. intros (us & [= <-] & Hr). discriminate.
  - right. intros (us & [=] & _).
Qed.

Lemma _validar_usuario_ok c :
  identidad_ok c -> Compra._validar_usuario c = c.
Proof.
  intros (us & Hu & Hr). unfold Compra._validar_usuario.
  now rewrite Hu, Hr.
Qed.

Lemma _validar_usuario_falla c :
  ~ identidad_ok c ->
  Compra._validar_usuario c = Compra.errores_append c Compra.msg_usuario.
Proof.
  intros Hn. unfold Compra._validar_usuario.
  destruct (Compra.usuario c) as [us|] eqn:Hu; [|reflexivity].
  destruct (Usuario.registrado us) eqn:Hr; [|reflexivity].
  destruct Hn. now exists us.
Qed.

Lemma fecha_ok_bool hoy c :
  fecha_ok hoy c <->
  date_ge (Compra.fecha_visita c) hoy
  && bool_decide (weekday (Compra.fecha_visita c) ∈ DIAS_ABIERTOS) = true.
Proof.
  unfold fecha_ok. now rewrite andb_true_iff, bool_decide_eq_true.
Qed.

Lemma cantidad_ok_bool c :
  cantidad_ok c <->
  (CANTIDAD_MIN_ENTRADAS <=? Compra.cantidad c)
  && (Compra.cantidad c <=? CANTIDAD_MAX_ENTRADAS) = true.
Proof. unfold cantidad_ok. rewrite andb_true_iff. lia. Qed.

Lemma edades_ok_bool c :
  edades_ok c <->
  (match Compra.edades c with [] => true | _ :: _ => false end
   || negb (len (Compra.edades c) =? Compra.cantidad c)) = false.
Proof.
  unfold edades_ok. rewrite orb_false_iff, negb_false_iff, Z.eqb_eq.
  destruct (Compra.edades c); intuition congruence.
Qed.

Lemma forma_pago_ok_bool c :
  forma_pago_ok c <->
  bool_decide (Compra.forma_pago c ∈ [u "efectivo"; u "tarjeta"]) = true.
Proof.
  unfold forma_pago_ok. rewrite bool_decide_eq_true.
  rewrite !elem_of_cons, elem_of_nil. tauto.
Qed.

Lemma aporte_bool (P : Prop) (b : bool) m :
  (P <-> b = true) -> aporte P m (if negb b then [m] else []).
Proof.
  intros H. destruct b; [left | right]; simpl; split; trivial.
  - now apply H.
  - intros HP. apply H in HP. discriminate.
Qed.

Lemma paso_validacion (b : bool) (m : str) c :
  (if b then Compra.errores_append c m else c)
  = Compra.set_errores c (Compra.errores c ++ (if b then [m] else [])).
Proof.
  destruct c, b; unfold Compra.errores_append, Compra.set_errores; simpl;
    rewrite ?app_nil_r; reflexivity.
Qed.

(** [es_valida] empties [errores] and then lets every check add its
    message, in the order of the calls; the other fields stay. *)
Lemma es_valida_forma hoy c :
  exists e1 e2 e3 e4 e5,
    snd (Compra.es_valida hoy c)
    = Compra.set_errores c (e1 ++ e2 ++ e3 ++ e4 ++ e5)
    /\ aporte (identidad_ok c) Compra.msg_usuario e1
    /\ aporte (fecha_ok hoy c) Compra.msg_fecha e2
    /\ aporte (cantidad_ok c)
         (Compra.msg_cantidad CANTIDAD_MIN_ENTRADAS CANTIDAD_MAX_ENTRADAS) e3
    /\ aporte (edades_ok c) Compra.msg_edades e4
    /\ aporte (forma_pago_ok c) Compra.msg_forma_pago e5.
Proof.
  exists (if match Compra.usuario c with
             | None => true
             | Some us => negb (Usuario.registrado us)
             end then [Compra.msg_usuario] else []).
  exists (if negb (date_ge (Compra.fecha_visita c) hoy
                   && bool_decide (weekday (Compra.fecha_visita c)
                                     ∈ DIAS_ABIERTOS))
          then [Compra.msg_fecha] else []).
  exists (if negb ((CANTIDAD_MIN_ENTRADAS <=? Compra.cantidad c)
                   && (Compra.cantidad c <=? CANTIDAD_MAX_ENTRADAS))
          then [Compra.msg_cantidad CANTIDAD_MIN_ENTRADAS
                  CANTIDAD_MAX_ENTRADAS] else []).
  exists (if match Compra.edades c with [] => true | _ :: _ => false end
             || negb (len (Compra.edades c) =? Compra.cantidad c)
          then [Compra.msg_edades] else []).
  exists (if negb (bool_decide (Compra.forma_pago c
                                  ∈ [u "efectivo"; u "tarjeta"]))
          then [Compra.msg_forma_pago] else []).
  split.
  - unfold Compra.es_valida, Compra._validar_forma_pago,
      Compra._validar_edades, Compra._validar_cantidad,
      Compra._validar_fecha, Compra._validar_usuario.
    cbv zeta. rewrite !paso_validacion.
    cbn [Compra.set_errores Compra.usuario Compra.fecha_visita
         Compra.cantidad Compra.edades Compra.tipo_pase Compra.forma_pago
         Compra.errores snd].
    rewrite app_nil_l, <- !app_assoc. reflexivity.
  - repeat split.
    + destruct (identidad_ok_dec c) as [Hi|Hi]; [left|right]; split; trivial.
      * destruct Hi as (us & -> & ->). reflexivity.
      * destruct (Compra.usuario c) as [[e r]|] eqn:Hu; trivial.
        destruct r; trivial.
        destruct Hi. exists (Usuario.Build e true). now split.
    + apply aporte_bool, fecha_ok_bool.
    + apply aporte_bool, cantidad_ok_bool.
    + rewrite <- (negb_involutive (_ || _)). apply aporte_bool.
      rewrite negb_true_iff. apply edades_ok_bool.
    + apply aporte_bool, forma_pago_ok_bool.
Qed.

End Validaciones.

(** ** [es_valida], [calcular_monto_total] and [procesar] *)

Section Pedido.
Import ConfiguracionParque Especificacion.

Lemma mensajes_distintos : NoDup mensajes_en_orden.
Proof. apply (proj1 (bool_decide_eq_true _)). vm_compute. reflexivity. Qed.

Lemma aporte_elem P m e (m' : str) :
  aporte P m e -> (m' ∈ e <-> ~ P /\ m' = m).
Proof.
  intros [[HP ->] | [HP ->]].
  - rewrite elem_of_nil. tauto.
  - rewrite list_elem_of_singleton. tauto.
Qed.

Lemma aporte_sublist P m e (l l' : list str) :
  aporte P m e -> l' `sublist_of` l -> (e ++ l') `sublist_of` (m :: l).
Proof.
  intros [[_ ->] | [_ ->]] Hl; simpl.
  - now apply sublist_cons.
  - now apply sublist_skip.
Qed.

Lemma aporte_nil P m e : aporte P m e -> (e = [] <-> P).
Proof. intros [[HP ->] | [HP ->]]; split; trivial; [discriminate | tauto]. Qed.

Lemma es_valida_fst_errores hoy c :
  fst (Compra.es_valida hoy c) = true
  <-> Compra.errores (snd (Compra.es_valida hoy c)) = [].
Proof.
  unfold Compra.es_valida. cbv zeta. cbn [fst snd].
  destruct (Compra.errores _); split; congruence.
Qed.

Lemma es_valida_ignora_errores hoy c e0 :
  Compra.es_valida hoy (Compra.set_errores c e0) = Compra.es_valida hoy c.
Proof. reflexivity. Qed.

Lemma es_valida_marco hoy c :
  snd (Compra.es_valida hoy c)
  = Compra.set_errores c (Compra.errores (snd (Compra.es_valida hoy c))).
Proof.
  destruct (es_valida_forma hoy c) as (e1 & e2 & e3 & e4 & e5 & -> & _).
  reflexivity.
Qed.

Lemma es_valida_todo_ok hoy c :
  fst (Compra.es_valida hoy c) = true <-> todo_ok hoy c.
Proof.
  rewrite es_valida_fst_errores.
  destruct (es_valida_forma hoy c)
    as (e1 & e2 & e3 & e4 & e5 & -> & H1 & H2 & H3 & H4 & H5).
  cbn [Compra.set_errores Compra.errores]. unfold todo_ok.
  rewrite <- (aporte_nil _ _ _ H1), <- (aporte_nil _ _ _ H2),
    <- (aporte_nil _ _ _ H3), <- (aporte_nil _ _ _ H4),
    <- (aporte_nil _ _ _ H5).
  rewrite !app_nil. tauto.
Qed.

Lemma procesar_snd hoy c :
  snd (Compra.procesar hoy c) = snd (Compra.es_valida hoy c).
Proof.
  unfold Compra.procesar.
  destruct (Compra.es_valida hoy c) as [[|] c']; cbn [negb snd]; trivial.
  now destruct (Compra.usuario c').
Qed.

Lemma campos_set_errores c e :
  campos_pedido (Compra.set_errores c e) = campos_pedido c.
Proof. reflexivity. Qed.

Lemma tras_llamada_campos c l :
  campos_pedido (tras_llamada c l) = campos_pedido c.
Proof.
  destruct l as [[| |] hoy]; cbn [tras_llamada]; trivial.
  - now rewrite es_valida_marco, campos_set_errores.
  - now rewrite procesar_snd, es_valida_marco, campos_set_errores.
Qed.

Lemma aportes_en_orden (m1 m2 m3 m4 m5 : str) (P1 P2 P3 P4 P5 : Prop)
    (e1 e2 e3 e4 e5 : list str) :
  NoDup [m1; m2; m3; m4; m5] ->
  aporte P1 m1 e1 -> aporte P2 m2 e2 -> aporte P3 m3 e3 ->
  aporte P4 m4 e4 -> aporte P5 m5 e5 ->
  let e := e1 ++ e2 ++ e3 ++ e4 ++ e5 in
  e `sublist_of` [m1; m2; m3; m4; m5]
  /\ (m1 ∈ e <-> ~ P1) /\ (m2 ∈ e <-> ~ P2) /\ (m3 ∈ e <-> ~ P3)
  /\ (m4 ∈ e <-> ~ P4) /\ (m5 ∈ e <-> ~ P5).
Proof.
  intros Hnd H1 H2 H3 H4 H5 e. subst e.
  rewrite !NoDup_cons, !not_elem_of_cons in Hnd.
  split.
  - apply (aporte_sublist _ _ _ _ _ H1), (aporte_sublist _ _ _ _ _ H2),
      (aporte_sublist _ _ _ _ _ H3), (aporte_sublist _ _ _ _ _ H4).
    rewrite <- (app_nil_r e5).
    apply (aporte_sublist _ _ _ _ _ H5). constructor.
  - rewrite !elem_of_app.
    rewrite !(aporte_elem _ _ _ _ H1), !(aporte_elem _ _ _ _ H2),
      !(aporte_elem _ _ _ _ H3), !(aporte_elem _ _ _ _ H4),
      !(aporte_elem _ _ _ _ H5).
    intuition congruence.
Qed.

(** C1. [Compra.es_valida] runs the five checks (identity, date,
    quantity, ages, payment method) in that order, whatever the earlier
    ones found: the list it leaves in [errores] is made of the messages
    of the checks, in the order of the checks and each at most once, and
    the message of a check is in the list exactly when the check fails.
    The list depends on the draft's fields and the date only, not on what
    [errores] held before. *)
Theorem es_valida_cinco_chequeos_en_orden (hoy : date) (c : Compra.t) :
  let e := Compra.errores (snd (Compra.es_valida hoy c)) in
  e `sublist_of` mensajes_en_orden
  /\ (Compra.msg_usuario ∈ e <-> ~ identidad_ok c)
  /\ (Compra.msg_fecha ∈ e <-> ~ fecha_ok hoy c)
  /\ (Compra.msg_cantidad CANTIDAD_MIN_ENTRADAS CANTIDAD_MAX_ENTRADAS ∈ e
      <-> ~ cantidad_ok c)
  /\ (Compra.msg_edades ∈ e <-> ~ edades_ok c)
  /\ (Compra.msg_forma_pago ∈ e <-> ~ forma_pago_ok c)
  /\ (forall e0,
        Compra.errores (snd (Compra.es_valida hoy (Compra.set_errores c e0)))
        = e).
Proof.
  cbv zeta.
  destruct (es_valida_forma hoy c)
    as (e1 & e2 & e3 & e4 & e5 & Hs & H1 & H2 & H3 & H4 & H5).
  rewrite Hs. cbn [Compra.set_errores Compra.errores].
  destruct (aportes_en_orden _ _ _ _ _ _ _ _ _ _ _ _ _ _ _
              mensajes_distintos H1 H2 H3 H4 H5)
    as (Hsub & Hm1 & Hm2 & Hm3 & Hm4 & Hm5).
  refine (conj Hsub (conj Hm1 (conj Hm2 (conj Hm3 (conj Hm4 (conj Hm5 _)))))).
  intros e0. rewrite es_valida_ignora_errores, Hs. reflexivity.
Qed.

Lemma tras_validaciones_marco relojes c :
  exists e, tras_validaciones relojes c = Compra.set_errores c e.
Proof.
  revert c. induction relojes as [|h relojes IH]; intros c.
  - exists (Compra.errores c). now destruct c.
  - cbn [tras_validaciones fold_left]. rewrite es_valida_marco.
    destruct (IH (Compra.set_errores c
                    (Compra.errores (snd (Compra.es_valida h c)))))
      as [e He].
    exists e. unfold tras_validaciones in He. rewrite He. reflexivity.
Qed.

(** C5. [errores] is recomputed from scratch by every run of
    [Compra.es_valida]: after any number of runs in succession the field
    holds what a single run (the last one, at its date) leaves in it, and
    [es_valida] answers [True] exactly when that list is empty. *)
Theorem es_valida_recalcula_errores (relojes : list date) (hoy : date)
    (c : Compra.t) :
  Compra.errores (tras_validaciones (relojes ++ [hoy]) c)
  = Compra.errores (snd (Compra.es_valida hoy c))
  /\ fst (Compra.es_valida hoy (tras_validaciones relojes c))
     = fst (Compra.es_valida hoy c)
  /\ (fst (Compra.es_valida hoy c) = true
      <-> Compra.errores (snd (Compra.es_valida hoy c)) = []).
Proof.
  destruct (tras_validaciones_marco relojes c) as [e He].
  unfold tras_validaciones in *. rewrite fold_left_app. cbn [fold_left].
  rewrite He, es_valida_ignora_errores.
  split; [reflexivity | split; [reflexivity | apply es_valida_fst_errores]].
Qed.

(** C10. The calls on a [Compra] ([es_valida], [calcular_monto_total],
    [procesar]) assign to [errores] only: after any sequence of them the
    fields [usuario], [fecha_visita], [cantidad], [edades], [tipo_pase] and
    [forma_pago] are those of the draft the sequence started from. *)
Theorem llamadas_conservan_campos (ls : list (llamada * date))
    (c : Compra.t) :
  Compra.usuario (tras_llamadas ls c) = Compra.usuario c
  /\ Compra.fecha_visita (tras_llamadas ls c) = Compra.fecha_visita c
  /\ Compra.cantidad (tras_llamadas ls c) = Compra.cantidad c
  /\ Compra.edades (tras_llamadas ls c) = Compra.edades c
  /\ Compra.tipo_pase (tras_llamadas ls c) = Compra.tipo_pase c
  /\ Compra.forma_pago (tras_llamadas ls c) = Compra.forma_pago c.
Proof.
  assert (H : campos_pedido (tras_llamadas ls c) = campos_pedido c).
  { revert c. induction ls as [|l ls IH]; intros c; [reflexivity|].
    cbn [tras_llamadas fold_left]. unfold tras_llamadas in IH.
    now rewrite IH, tras_llamada_campos. }
  unfold campos_pedido in H. injection H as -> -> -> -> -> ->.
  repeat split.
Qed.

(** C2. When validation finds an error, [Compra.procesar] returns (it
    does not raise) the dictionary with [ok = False] whose [mensaje] is the
    messages of [errores] joined by one space. *)
Theorem procesar_con_errores (hoy : date) (c : Compra.t)
    (H : Compra.errores (snd (Compra.es_valida hoy c)) <> []) :
  fst (Compra.procesar hoy c)
  = inr {| ok := false;
           mensaje := join (u " ")
                        (Compra.errores (snd (Compra.es_valida hoy c))) |}.
Proof.
  pose proof (es_valida_fst_errores hoy c) as Hv.
  unfold Compra.procesar.
  destruct (Compra.es_valida hoy c) as [[|] c']; cbn [fst snd negb] in *.
  - destruct H. now apply Hv.
  - reflexivity.
Qed.

Lemma procesar_con_errores_testigo :
  Compra.errores (snd (Compra.es_valida Ejemplos.hoy Ejemplos.compra_invalida))
  <> []
  /\ fst (Compra.procesar Ejemplos.hoy Ejemplos.compra_invalida)
     = inr {| ok := false;
              mensaje :=
                u "El usuario no es válido o no está registrado. La fecha no es válida o el parque está cerrado. Cantidad de entradas inválida (debe ser entre 1 y 10). Debe indicar la edad de cada visitante. Debe seleccionar una forma de pago válida." |}.
Proof.
  assert (H : Compra.errores
                (snd (Compra.es_valida Ejemplos.hoy Ejemplos.compra_invalida))
              <> []) by (vm_compute; discriminate).
  split; [exact H|].
  rewrite (procesar_con_errores _ _ H). vm_compute. reflexivity.
Defined.

Lemma efectivo_no_es_tarjeta : u "efectivo" <> u "tarjeta".
Proof. intros H. vm_compute in H. discriminate H. Qed.

Lemma regular_no_es_VIP : u "regular" <> u "VIP".
Proof. intros H. vm_compute in H. discriminate H. Qed.

Lemma confirmacion_contiene email cant fecha total (sufijo : str) :
  let m := confirmacion email cant fecha total ++ sufijo in
  contiene m email = true
  /\ contiene m (str_de_int cant) = true
  /\ contiene m (str_de_date fecha) = true
  /\ contiene m (u " por $" ++ str_de_int total ++ u ".") = true
  /\ contiene m sufijo = true.
Proof.
  cbv zeta. unfold confirmacion. repeat split; apply contiene_correcto.
  - exists (u "Compra confirmada para ").
    eexists. rewrite <- !app_assoc. reflexivity.
  - exists (u "Compra confirmada para " ++ email ++ u ": ").
    eexists. rewrite <- !app_assoc. reflexivity.
  - exists (u "Compra confirmada para " ++ email ++ u ": "
              ++ str_de_int cant ++ u " entradas para el ").
    eexists. rewrite <- !app_assoc. reflexivity.
  - exists (u "Compra confirmada para " ++ email ++ u ": "
              ++ str_de_int cant ++ u " entradas para el "
              ++ str_de_date fecha).
    exists sufijo. rewrite <- !app_assoc. reflexivity.
  - eexists. exists []. rewrite app_nil_r. reflexivity.
Qed.

(** What [procesar] returns for a draft that passes validation. *)
Lemma procesar_valida hoy c :
  fst (Compra.es_valida hoy c) = true ->
  exists us,
    Compra.usuario c = Some us
    /\ fst (Compra.procesar hoy c)
       = inr {| ok := true;
                mensaje :=
                  confirmacion (Usuario.email us) (Compra.cantidad c)
                    (Compra.fecha_visita c) (Compra.calcular_monto_total c)
                  ++ (if bool_decide (Compra.forma_pago c = u "tarjeta")
                      then sufijo_tarjeta else sufijo_efectivo) |}.
Proof.
  intros Hv. pose proof Hv as Hok. apply es_valida_todo_ok in Hok.
  destruct Hok as ((us & Hus & _) & _). exists us. split; [exact Hus|].
  pose proof (es_valida_marco hoy c) as Hm.
  unfold Compra.procesar.
  destruct (Compra.es_valida hoy c) as [v c']. cbn [fst snd] in *.
  subst v. rewrite Hm.
  cbn [negb Compra.set_errores Compra.usuario Compra.cantidad
       Compra.fecha_visita Compra.forma_pago].
  rewrite Hus. cbn [fst].
  unfold confirmacion, Compra.calcular_monto_total, sufijo_tarjeta,
    sufijo_efectivo.
  cbn [Compra.set_errores Compra.tipo_pase Compra.cantidad].
  destruct (bool_decide (Compra.forma_pago c = u "tarjeta")); reflexivity.
Qed.

(** C3. For a draft that passes validation [Compra.procesar] returns
    [ok = True] and the confirmation text: it names the requester's email,
    the quantity, the visit date and the total, and ends with the redirect
    notice for ['tarjeta'] and with the pay-at-counter notice for
    ['efectivo'].  In particular a registered requester, a visit date not
    before today on an open weekday, 2 tickets, ages [30, 40], pass
    ['regular'] and cash give [ok = True] and a text that contains
    [20000] and ['Pago en boletería.']. *)
Theorem procesar_confirma :
  (forall hoy c,
     fst (Compra.es_valida hoy c) = true ->
     exists us sufijo,
       Compra.usuario c = Some us
       /\ fst (Compra.procesar hoy c)
          = inr {| ok := true;
                   mensaje :=
                     confirmacion (Usuario.email us) (Compra.cantidad c)
                       (Compra.fecha_visita c)
                       (Compra.calcular_monto_total c) ++ sufijo |}
       /\ (Compra.forma_pago c = u "tarjeta" -> sufijo = sufijo_tarjeta)
       /\ (Compra.forma_pago c = u "efectivo" -> sufijo = sufijo_efectivo)
       /\ (forall m, fst (Compra.procesar hoy c) = inr m ->
             contiene (mensaje m) (Usuario.email us) = true
             /\ contiene (mensaje m) (str_de_int (Compra.cantidad c)) = true
             /\ contiene (mensaje m) (str_de_date (Compra.fecha_visita c))
                = true
             /\ contiene (mensaje m)
                  (str_de_int (Compra.calcular_monto_total c)) = true
             /\ contiene (mensaje m) sufijo = true))
  /\ (forall hoy fecha email,
        date_ge fecha hoy = true ->
        weekday fecha ∈ DIAS_ABIERTOS ->
        exists m,
          fst (Compra.procesar hoy
                 (Compra.__init__ (Some (Usuario.Build email true)) fecha 2
                    [30; 40] (u "regular") (u "efectivo")))
          = inr {| ok := true; mensaje := m |}
          /\ contiene m (u "20000") = true
          /\ contiene m (u "Pago en boletería.") = true).
Proof.
  split.
  - intros hoy c Hv. destruct (procesar_valida hoy c Hv) as (us & Hus & Hp).
    exists us. eexists. split; [exact Hus|]. split; [exact Hp|].
    split; [|split].
    + intros ->. now rewrite bool_decide_eq_true_2.
    + intros Hf. rewrite bool_decide_eq_false_2; [reflexivity|].
      rewrite Hf. apply efectivo_no_es_tarjeta.
    + intros m Hm. rewrite Hp in Hm. apply (inj inr) in Hm. subst m.
      unfold mensaje at 1 2 3 4 5.
      destruct (confirmacion_contiene (Usuario.email us) (Compra.cantidad c)
                  (Compra.fecha_visita c) (Compra.calcular_monto_total c)
                  (if bool_decide (Compra.forma_pago c = u "tarjeta")
                   then sufijo_tarjeta else sufijo_efectivo))
        as (H1 & H2 & H3 & H4 & H5).
      repeat split; trivial.
      apply contiene_correcto in H4. destruct H4 as (pre & post & H4).
      apply contiene_correcto. exists (pre ++ u " por $"), (u "." ++ post).
      rewrite H4, <- !app_assoc. reflexivity.
  - intros hoy fecha email Hge Hwd.
    set (c := Compra.__init__ (Some (Usuario.Build email true)) fecha 2
                [30; 40] (u "regular") (u "efectivo")).
    assert (Hv : fst (Compra.es_valida hoy c) = true).
    { apply es_valida_todo_ok. repeat split; trivial.
      - exists (Usuario.Build email true). now split.
      - discriminate.
      - discriminate.
      - discriminate.
      - now left. }
    destruct (procesar_valida hoy c Hv) as (us & Hus & Hp).
    eexists. split; [exact Hp|].
    rewrite bool_decide_eq_false_2 by apply efectivo_no_es_tarjeta.
    destruct (confirmacion_contiene (Usuario.email us) (Compra.cantidad c)
                (Compra.fecha_visita c) (Compra.calcular_monto_total c)
                sufijo_efectivo) as (_ & _ & _ & H4 & H5).
    apply contiene_correcto in H4. destruct H4 as (pre & post & H4).
    apply contiene_correcto in H5. destruct H5 as (pre5 & post5 & H5).
    assert (Ht : str_de_int (Compra.calcular_monto_total c) = u "20000")
      by (vm_compute; reflexivity).
    assert (Hs : sufijo_efectivo = u " " ++ u "Pago en boletería.")
      by (vm_compute; reflexivity).
    split; apply contiene_correcto.
    + exists (pre ++ u " por $"), (u "." ++ post).
      rewrite H4, Ht, <- !app_assoc. reflexivity.
    + exists (pre5 ++ u " "), post5.
      rewrite H5, Hs, <- !app_assoc. reflexivity.
Qed.

Lemma procesar_confirma_testigo :
  fst (Compra.es_valida Ejemplos.hoy Ejemplos.compra_tarjeta) = true
  /\ (exists m,
        fst (Compra.procesar Ejemplos.hoy Ejemplos.compra_efectivo)
        = inr {| ok := true; mensaje := m |}
        /\ contiene m (u "20000") = true
        /\ contiene m (u "Pago en boletería.") = true)
  /\ exists m,
       fst (Compra.procesar Ejemplos.hoy Ejemplos.compra_tarjeta) = inr m
       /\ contiene (mensaje m) sufijo_tarjeta = true.
Proof.
  assert (Hv : fst (Compra.es_valida Ejemplos.hoy Ejemplos.compra_tarjeta)
               = true) by (vm_compute; reflexivity).
  split; [exact Hv|]. split.
  - apply (proj2 procesar_confirma Ejemplos.hoy Ejemplos.jueves
             (u "ana@example.com")).
    + vm_compute. reflexivity.
    + apply (proj1 (bool_decide_eq_true _)). vm_compute. reflexivity.
  - destruct (proj1 procesar_confirma _ _ Hv)
      as (us & sufijo & _ & Hp & Ht & _ & Hc).
    eexists. split; [exact Hp|].
    rewrite <- (Ht eq_refl). apply (Hc _ Hp).
Defined.

Lemma PRECIOS_tabla (k : str) (p : Z) :
  PRECIOS !! k = Some p
  <-> (k = u "regular" /\ p = 10000) \/ (k = u "VIP" /\ p = 15000).
Proof.
  unfold PRECIOS. rewrite lookup_insert. case_decide as Hr.
  - subst k. split.
    + intros [= <-]. now left.
    + intros [[_ ->] | [Hk _]]; [reflexivity|].
      now destruct regular_no_es_VIP.
  - rewrite lookup_insert. case_decide as Hv.
    + subst k. split.
      * intros [= <-]. now right.
      * intros [[Hk _] | [_ ->]]; [|reflexivity].
        now destruct regular_no_es_VIP.
    + rewrite lookup_empty. split; [discriminate|].
      intros [[Hk _] | [Hk _]]; now subst k.
Qed.

(** C4. [Compra.calcular_monto_total] is the quantity times the entry
    of [PRECIOS] for the draft's pass type, and the quantity times 0 when
    the pass type is not a key; it is a total function (nothing is
    raised).  The table maps ['regular'] to 10000 and ['VIP'] to 15000
    and has no other key, so a ['VIP'] order of 3 tickets costs 45000. *)
Theorem calcular_monto_total_tabla (c : Compra.t) :
  (forall p, PRECIOS !! Compra.tipo_pase c = Some p ->
     Compra.calcular_monto_total c = Compra.cantidad c * p)
  /\ (PRECIOS !! Compra.tipo_pase c = None ->
      Compra.calcular_monto_total c = Compra.cantidad c * 0)
  /\ (forall k p,
        PRECIOS !! k = Some p
        <-> (k = u "regular" /\ p = 10000) \/ (k = u "VIP" /\ p = 15000))
  /\ (Compra.tipo_pase c = u "regular" ->
      Compra.calcular_monto_total c = Compra.cantidad c * 10000)
  /\ (Compra.tipo_pase c = u "VIP" ->
      Compra.calcular_monto_total c = Compra.cantidad c * 15000)
  /\ (Compra.tipo_pase c = u "VIP" -> Compra.cantidad c = 3 ->
      Compra.calcular_monto_total c = 45000).
Proof.
  unfold Compra.calcular_monto_total, dict_get.
  assert (Hr : forall p, PRECIOS !! Compra.tipo_pase c = Some p ->
                 Compra.cantidad c
                 * match PRECIOS !! Compra.tipo_pase c with
                   | Some v => v
                   | None => 0
                   end = Compra.cantidad c * p)
    by (intros p ->; reflexivity).
  split; [exact Hr|]. split; [now intros ->|].
  split; [exact PRECIOS_tabla|].
  split; [|split].
  - intros Ht. apply Hr, PRECIOS_tabla. now left.
  - intros Ht. apply Hr, PRECIOS_tabla. now right.
  - intros Ht Hq. rewrite (Hr 15000), Hq; [reflexivity|].
    apply PRECIOS_tabla. now right.
Qed.

Lemma calcular_monto_total_tabla_testigo :
  Compra.calcular_monto_total Ejemplos.compra_vip = 45000
  /\ Compra.calcular_monto_total Ejemplos.compra_efectivo = 2 * 10000
  /\ Compra.calcular_monto_total Ejemplos.compra_pase_desconocido = 2 * 0.
Proof.
  split; [|split].
  - apply (proj2 (proj2 (proj2 (proj2 (proj2
             (calcular_monto_total_tabla Ejemplos.compra_vip))))));
      reflexivity.
  - apply (proj1 (proj2 (proj2 (proj2
             (calcular_monto_total_tabla Ejemplos.compra_efectivo)))));
      reflexivity.
  - apply (proj1 (proj2
             (calcular_monto_total_tabla Ejemplos.compra_pase_desconocido))).
    vm_compute. reflexivity.
Defined.

Lemma aporte_unico P m (e e' : list str) :
  aporte P m e -> aporte P m e' -> e = e'.
Proof. intros [[HP ->] | [HP ->]] [[HP' ->] | [HP' ->]]; tauto. Qed.

(** The checks do not read [tipo_pase]. *)
Lemma es_valida_ignora_tipo_pase hoy c tipo :
  fst (Compra.es_valida hoy (con_tipo_pase c tipo))
  = fst (Compra.es_valida hoy c)
  /\ Compra.errores (snd (Compra.es_valida hoy (con_tipo_pase c tipo)))
     = Compra.errores (snd (Compra.es_valida hoy c)).
Proof.
  assert (He : Compra.errores
                 (snd (Compra.es_valida hoy (con_tipo_pase c tipo)))
               = Compra.errores (snd (Compra.es_valida hoy c))).
  { destruct (es_valida_forma hoy c)
      as (e1 & e2 & e3 & e4 & e5 & -> & H1 & H2 & H3 & H4 & H5).
    destruct (es_valida_forma hoy (con_tipo_pase c tipo))
      as (d1 & d2 & d3 & d4 & d5 & -> & G1 & G2 & G3 & G4 & G5).
    cbn [Compra.set_errores Compra.errores].
    now rewrite (aporte_unico _ _ _ _ G1 H1), (aporte_unico _ _ _ _ G2 H2),
      (aporte_unico _ _ _ _ G3 H3), (aporte_unico _ _ _ _ G4 H4),
      (aporte_unico _ _ _ _ G5 H5). }
  split; [|exact He].
  pose proof (es_valida_fst_errores hoy c) as Ha.
  pose proof (es_valida_fst_errores hoy (con_tipo_pase c tipo)) as Hb.
  rewrite He in Hb.
  destruct (fst (Compra.es_valida hoy c)),
    (fst (Compra.es_valida hoy (con_tipo_pase c tipo))); trivial.
  - apply Hb, Ha. reflexivity.
  - symmetry. apply Ha, Hb. reflexivity.
Qed.

(** C9. No check reads the pass type, so a draft that satisfies the
    identity, date, quantity, ages and payment-method checks is valid
    whatever its pass type; when the pass type is not a key of [PRECIOS],
    [Compra.procesar] still returns [ok = True], and the confirmation
    text reports a total of $0. *)
Theorem procesar_pase_desconocido (hoy : date) (c : Compra.t)
    (Hk : PRECIOS !! Compra.tipo_pase c = None) (Hok : todo_ok hoy c) :
  fst (Compra.es_valida hoy c) = true
  /\ (forall tipo,
        fst (Compra.es_valida hoy (con_tipo_pase c tipo)) = true)
  /\ exists us sufijo,
       Compra.usuario c = Some us
       /\ fst (Compra.procesar hoy c)
          = inr {| ok := true;
                   mensaje :=
                     confirmacion (Usuario.email us) (Compra.cantidad c)
                       (Compra.fecha_visita c) 0 ++ sufijo |}
       /\ contiene
            (confirmacion (Usuario.email us) (Compra.cantidad c)
               (Compra.fecha_visita c) 0 ++ sufijo) (u " por $0.") = true.
Proof.
  assert (Hv : fst (Compra.es_valida hoy c) = true)
    by now apply es_valida_todo_ok.
  split; [exact Hv|]. split.
  - intros tipo. now rewrite (proj1 (es_valida_ignora_tipo_pase hoy c tipo)).
  - destruct (procesar_valida hoy c Hv) as (us & Hus & Hp).
    assert (Ht : Compra.calcular_monto_total c = 0).
    { rewrite (proj1 (proj2 (calcular_monto_total_tabla c)) Hk). lia. }
    rewrite Ht in Hp. exists us. eexists.
    split; [exact Hus|]. split; [exact Hp|].
    destruct (confirmacion_contiene (Usuario.email us) (Compra.cantidad c)
                (Compra.fecha_visita c) 0
                (if bool_decide (Compra.forma_pago c = u "tarjeta")
                 then sufijo_tarjeta else sufijo_efectivo))
      as (_ & _ & _ & H4 & _).
    assert (H0 : u " por $" ++ str_de_int 0 ++ u "." = u " por $0.")
      by (vm_compute; reflexivity).
    rewrite H0 in H4. exact H4.
Qed.

Lemma procesar_pase_desconocido_testigo :
  PRECIOS !! Compra.tipo_pase Ejemplos.compra_pase_desconocido = None
  /\ todo_ok Ejemplos.hoy Ejemplos.compra_pase_desconocido
  /\ fst (Compra.es_valida Ejemplos.hoy Ejemplos.compra_pase_desconocido)
     = true.
Proof.
  assert (Hk : PRECIOS !! Compra.tipo_pase Ejemplos.compra_pase_desconocido
               = None) by (vm_compute; reflexivity).
  assert (Hok : todo_ok Ejemplos.hoy Ejemplos.compra_pase_desconocido).
  { apply es_valida_todo_ok. vm_compute. reflexivity. }
  split; [exact Hk|]. split; [exact Hok|].
  exact (proj1 (procesar_pase_desconocido _ _ Hk Hok)).
Defined.

End Pedido.

(** ** The card fields: [_validar_campos] *)

Section CamposTarjeta.
Context `{Unicode}.
Import VentanaPagoTarjeta.

Lemma int_de_digitos_clase (s : str) e :
  int_de_digitos s = inl e -> clase e = ValueError.
Proof.
  unfold int_de_digitos, lanzar, devolver.
  destruct (match limite_digitos with
            | Some n => Nat.ltb n (length s)
            | None => false
            end).
  - now intros [= <-].
  - destruct (valor_digitos 0 s); [discriminate | now intros [= <-]].
Qed.

Lemma nombre_ok_negb (v : VentanaPagoTarjeta.t) :
  match entry_nombre v with [] => true | _ :: _ => false end
  || (len (entry_nombre v) <? 3) = negb (nombre_ok v).
Proof.
  unfold nombre_ok, len. destruct (entry_nombre v) as [|c r].
  - reflexivity.
  - cbn [orb length]. destruct (Z.leb_spec 3 (Z.of_nat (S (length r))));
      cbn [negb]; [apply Z.ltb_ge | apply Z.ltb_lt]; lia.
Qed.

(** [_validar_campos] returns; its answer is that of the first of the
    four checks that fails. *)
Lemma _validar_campos_eq (v : VentanaPagoTarjeta.t) :
  _validar_campos v
  = inr (if negb (nombre_ok v) then (false, msg_nombre)
         else if negb (tarjeta_ok v) then (false, msg_tarjeta)
         else match falla_vencimiento v with
              | Some m => (false, m)
              | None =>
                if negb (cvv_ok v) then (false, msg_cvv) else (true, [])
              end).
Proof.
  unfold _validar_campos, _validar_campos_try. rewrite nombre_ok_negb.
  unfold tarjeta_ok, cvv_ok, falla_vencimiento, vencida, ligar, devolver,
    lanzar.
  destruct (nombre_ok v); cbn [negb]; [|reflexivity].
  destruct (isdigit (entry_tarjeta v)); cbn [negb orb andb]; [|reflexivity].
  destruct (len (entry_tarjeta v) =? 16); cbn [negb]; [|reflexivity].
  destruct (isdigit (entry_mes v)); cbn [negb]; [|reflexivity].
  destruct (int_de_digitos (entry_mes v)) as [e|mes] eqn:Hmes.
  { now rewrite (int_de_digitos_clase _ _ Hmes). }
  destruct ((1 <=? mes) && (mes <=? 12)); cbn [negb]; [|reflexivity].
  destruct (isdigit (entry_anio v)); cbn [negb orb]; [|reflexivity].
  destruct (len (entry_anio v) =? 4); cbn [negb]; [|reflexivity].
  destruct (int_de_digitos (entry_anio v)) as [e|anio] eqn:Hanio.
  { now rewrite (int_de_digitos_clase _ _ Hanio). }
  destruct ((anio <? year (today v))
            || (anio =? year (today v)) && (mes <? month (today v)));
    [reflexivity|].
  destruct (isdigit (entry_cvv v)); cbn [negb orb andb]; [|reflexivity].
  destruct (len (entry_cvv v) =? 3); reflexivity.
Qed.

Lemma falla_vencimiento_None (v : VentanaPagoTarjeta.t) :
  falla_vencimiento v = None <-> vencimiento_ok v = true.
Proof.
  unfold falla_vencimiento, vencimiento_ok.
  destruct (isdigit (entry_mes v)), (isdigit (entry_anio v)),
    (len (entry_anio v) =? 4),
    (int_de_digitos (entry_mes v)) as [e|mes],
    (int_de_digitos (entry_anio v)) as [e'|anio];
    cbn [negb andb orb]; try (split; discriminate);
    destruct (1 <=? mes), (mes <=? 12); cbn [negb andb orb];
    try (split; discriminate);
    destruct (vencida (today v) mes anio); cbn [negb];
    split; intros; (reflexivity || discriminate).
Qed.

Lemma falla_vencimiento_Some (v : VentanaPagoTarjeta.t) m :
  falla_vencimiento v = Some m -> m ∈ mensajes_vencimiento.
Proof.
  unfold falla_vencimiento, mensajes_vencimiento.
  destruct (negb (isdigit (entry_mes v))).
  { intros [= <-]. apply list_elem_of_here. }
  destruct (int_de_digitos (entry_mes v)) as [e|mes].
  { intros [= <-]. do 4 apply list_elem_of_further. apply list_elem_of_here. }
  destruct (negb ((1 <=? mes) && (mes <=? 12))).
  { intros [= <-]. apply list_elem_of_further, list_elem_of_here. }
  destruct (negb (isdigit (entry_anio v)) || negb (len (entry_anio v) =? 4)).
  { intros [= <-]. do 2 apply list_elem_of_further. apply list_elem_of_here. }
  destruct (int_de_digitos (entry_anio v)) as [e|anio].
  { intros [= <-]. do 4 apply list_elem_of_further. apply list_elem_of_here. }
  destruct (vencida (today v) mes anio); [|discriminate].
  intros [= <-]. do 3 apply list_elem_of_further. apply list_elem_of_here.
Qed.

Lemma mensajes_tarjeta_no_vacios :
  msg_nombre <> [] /\ msg_tarjeta <> [] /\ msg_cvv <> []
  /\ forall m, m ∈ mensajes_vencimiento -> m <> [].
Proof.
  split; [|split; [|split]]; try (vm_compute; discriminate).
  intros m Hm ->. revert Hm.
  apply (proj1 (bool_decide_eq_false _)). vm_compute. reflexivity.
Qed.

Lemma primera_falla_abstracta (n t c vok : bool) (fv : option str)
    (m1 m2 m4 : str) (ms : list str) :
  (fv = None <-> vok = true) ->
  (forall m, fv = Some m -> m ∈ ms) ->
  m1 <> [] -> m2 <> [] -> m4 <> [] -> (forall m, m ∈ ms -> m <> []) ->
  exists valido mensaje_error,
    (if negb n then (false, m1)
     else if negb t then (false, m2)
     else match fv with
          | Some m => (false, m)
          | None => if negb c then (false, m4) else (true, [])
          end) = (valido, mensaje_error)
    /\ valido = n && t && vok && c
    /\ (valido = true <-> mensaje_error = [])
    /\ (n = false -> mensaje_error = m1)
    /\ (n = true -> t = false -> mensaje_error = m2)
    /\ (n = true -> t = true -> vok = false -> mensaje_error ∈ ms)
    /\ (n = true -> t = true -> vok = true -> c = false ->
        mensaje_error = m4).
Proof.
  intros HN HS Hn1 Hn2 Hn4 Hms.
  destruct n; cbn [negb andb].
  2:{ exists false, m1. repeat split; intros; try discriminate; trivial.
      contradiction. }
  destruct t; cbn [negb andb].
  2:{ exists false, m2. repeat split; intros; try discriminate; trivial.
      contradiction. }
  destruct fv as [m|].
  - assert (Hv : vok = false).
    { destruct vok; trivial.
      assert (Hc : Some m = None) by now apply HN. discriminate Hc. }
    subst vok. cbn [andb]. exists false, m.
    repeat split; intros; try discriminate; trivial.
    + subst m. destruct (Hms [] (HS [] eq_refl) eq_refl).
    + now apply HS.
  - assert (Hv : vok = true) by now apply HN.
    subst vok. cbn [andb]. destruct c; cbn [negb].
    + exists true, []. repeat split; intros; try discriminate; trivial.
    + exists false, m4. repeat split; intros; try discriminate; trivial.
      contradiction.
Qed.

(** C7. [_validar_campos] checks, in this order, the card-holder name
    (3 characters or more), the card number (16 digits), the expiry
    (numeric month from 1 to 12, numeric year of 4 digits, month/year not
    before the current one) and the CVV (3 digits).  It returns, never
    raising, the answer of the first check that fails, with that check's
    message alone, and [(True, "")] exactly when the four checks pass. *)
Theorem _validar_campos_primera_falla (v : VentanaPagoTarjeta.t) :
  exists valido mensaje_error,
    _validar_campos v = inr (valido, mensaje_error)
    /\ valido = nombre_ok v && tarjeta_ok v && vencimiento_ok v && cvv_ok v
    /\ (valido = true <-> mensaje_error = [])
    /\ (nombre_ok v = false -> mensaje_error = msg_nombre)
    /\ (nombre_ok v = true -> tarjeta_ok v = false ->
        mensaje_error = msg_tarjeta)
    /\ (nombre_ok v = true -> tarjeta_ok v = true ->
        vencimiento_ok v = false -> mensaje_error ∈ mensajes_vencimiento)
    /\ (nombre_ok v = true -> tarjeta_ok v = true ->
        vencimiento_ok v = true -> cvv_ok v = false ->
        mensaje_error = msg_cvv).
Proof.
  rewrite _validar_campos_eq.
  destruct mensajes_tarjeta_no_vacios as (Hn1 & Hn2 & Hn3 & Hn4).
  destruct (primera_falla_abstracta (nombre_ok v) (tarjeta_ok v) (cvv_ok v)
              (vencimiento_ok v) (falla_vencimiento v) msg_nombre
              msg_tarjeta msg_cvv mensajes_vencimiento
              (falla_vencimiento_None v) (falla_vencimiento_Some v)
              Hn1 Hn2 Hn3 Hn4) as (valido & mensaje_error & Heq & Hresto).
  exists valido, mensaje_error. rewrite Heq. exact (conj eq_refl Hresto).
Qed.

End CamposTarjeta.

Lemma _validar_campos_primera_falla_testigo :
  nombre_ok Ejemplos.ventana_vacia = false
  /\ VentanaPagoTarjeta._validar_campos Ejemplos.ventana_vacia
     = inr (false, VentanaPagoTarjeta.msg_nombre)
  /\ VentanaPagoTarjeta._validar_campos
       (Ejemplos.ventana Ejemplos.compra_tarjeta (u "ana@example.com"))
     = inr (true, []).
Proof.
  assert (Hn : nombre_ok Ejemplos.ventana_vacia = false)
    by (vm_compute; reflexivity).
  split; [exact Hn|]. split.
  - destruct (_validar_campos_primera_falla Ejemplos.ventana_vacia)
      as (valido & mensaje_error & -> & -> & _ & Hm & _).
    rewrite (Hm Hn), Hn. vm_compute. reflexivity.
  - destruct (_validar_campos_primera_falla
                (Ejemplos.ventana Ejemplos.compra_tarjeta
                   (u "ana@example.com")))
      as (valido & mensaje_error & -> & -> & Hv & _).
    assert (Hok : nombre_ok (Ejemplos.ventana Ejemplos.compra_tarjeta
                               (u "ana@example.com"))
                  && tarjeta_ok (Ejemplos.ventana Ejemplos.compra_tarjeta
                                   (u "ana@example.com"))
                  && vencimiento_ok (Ejemplos.ventana Ejemplos.compra_tarjeta
                                       (u "ana@example.com"))
                  && cvv_ok (Ejemplos.ventana Ejemplos.compra_tarjeta
                               (u "ana@example.com")) = true)
      by (vm_compute; reflexivity).
    rewrite Hok in *. rewrite (proj1 Hv eq_refl). reflexivity.
Defined.

(** ** The card payment: [_procesar_pago] *)

Section PagoTarjeta.
Context `{Unicode} `{Colaboradores} `{Mensajes}.
Import VentanaPagoTarjeta.

Lemma procesar_ok_valida hoy c r :
  fst (Compra.procesar hoy c) = inr r -> ok r = true ->
  fst (Compra.es_valida hoy c) = true.
Proof.
  unfold Compra.procesar.
  destruct (Compra.es_valida hoy c) as [[|] c']; cbn [negb fst]; trivial.
  intros Hr Hok. apply (inj inr) in Hr. subst r. discriminate Hok.
Qed.

Lemma procesar_ok_registrado hoy c r us :
  fst (Compra.procesar hoy c) = inr r -> ok r = true ->
  Compra.usuario c = Some us -> Usuario.registrado us = true.
Proof.
  intros Hr Hok Hus. apply (procesar_ok_valida _ _ _ Hr) in Hok.
  apply es_valida_todo_ok in Hok. destruct Hok as ((us' & Hus' & Hreg) & _).
  rewrite Hus in Hus'. apply (inj Some) in Hus'. now subst us'.
Qed.

Lemma procesar_usuario hoy c :
  Compra.usuario (snd (Compra.procesar hoy c)) = Compra.usuario c.
Proof. now rewrite procesar_snd, es_valida_marco. Qed.

Lemma error_verificar_prefijo :
  u "❌ Error al verificar/registrar email: "
  = u "❌ " ++ u "Error al verificar/registrar email: ".
Proof. vm_compute. reflexivity. Qed.

Lemma msg_no_coincide_prefijo (a b : str) :
  msg_no_coincide a b
  = u "❌ " ++ u "El email ingresado (" ++ a
      ++ u ") no coincide con el usuario registrado (" ++ b ++ u ")."
      ++ salto ++ u "No se puede enviar el recibo.".
Proof.
  unfold msg_no_coincide.
  assert (Hp : u "❌ El email ingresado (" = u "❌ " ++ u "El email ingresado (")
    by (vm_compute; reflexivity).
  rewrite Hp, <- !app_assoc. reflexivity.
Qed.

(** [_procesar_pago] once the fields validate and the order is
    processed with [ok = True]: what is left is the store check. *)
Lemma _procesar_pago_valido hoy entorno self w r c' :
  _validar_campos self = inr (true, []) ->
  Compra.procesar hoy (compra_original self) = (inr r, c') ->
  ok r = true ->
  _procesar_pago hoy entorno self w
  = match _procesar_pago_try entorno r (strip (email_var self))
            (text_resultado_delete
               (set_compra_original (label_error_pago_configure self []) c'))
            w with
    | (inr Retorno, (self, w)) => (devolver tt, (self, w))
    | (inr (MensajeFinal mensaje_final), (self, w)) =>
      (devolver tt, (destroy (text_resultado_insert self mensaje_final), w))
    | (inl e, (self, w)) =>
      (devolver tt,
       (destroy
          (text_resultado_insert self
             (u "❌ Error al verificar/registrar email: " ++ texto e)), w))
    end.
Proof.
  intros Hcampos Hp Hok. unfold _procesar_pago. rewrite Hcampos.
  cbn [negb]. 
  change (compra_original (label_error_pago_configure self []))
    with (compra_original self).
  rewrite Hp, Hok. reflexivity.
Qed.

Lemma _procesar_pago_try_sin_tabla entorno r entered self w e :
  crear_tabla_usuarios (bd w) = inl e ->
  _procesar_pago_try entorno r entered self w
  = (inl e, (self, anotar EvCrearTabla w)).
Proof.
  intros Hc. unfold _procesar_pago_try.
  change (bd (anotar EvCrearTabla w)) with (bd w). now rewrite Hc.
Qed.

Lemma _procesar_pago_try_sin_busqueda entorno r entered self w b us e :
  crear_tabla_usuarios (bd w) = inr b ->
  Compra.usuario (compra_original self) = Some us ->
  buscar_usuario_por_email (Usuario.email us) b = inl e ->
  _procesar_pago_try entorno r entered self w
  = (inl e,
     (self,
      anotar (EvBuscarUsuario (Usuario.email us))
        (con_bd b (anotar EvCrearTabla w)))).
Proof.
  intros Hc Hus Hb. unfold _procesar_pago_try.
  change (bd (anotar EvCrearTabla w)) with (bd w). rewrite Hc, Hus.
  change (bd (anotar (EvBuscarUsuario (Usuario.email us))
                (con_bd b (anotar EvCrearTabla w)))) with b.
  now rewrite Hb.
Qed.

Lemma _procesar_pago_try_no_coincide entorno r entered self w b us fila :
  crear_tabla_usuarios (bd w) = inr b ->
  Compra.usuario (compra_original self) = Some us ->
  buscar_usuario_por_email (Usuario.email us) b = inr (Some fila) ->
  Usuario.registrado us = true ->
  entered <> Usuario.email us ->
  _procesar_pago_try entorno r entered self w
  = (inr Retorno,
     (destroy
        (text_resultado_insert self
           (msg_no_coincide entered (Usuario.email us))),
      anotar (EvBuscarUsuario (Usuario.email us))
        (con_bd b (anotar EvCrearTabla w)))).
Proof.
  intros Hc Hus Hb Hreg Hdif. unfold _procesar_pago_try.
  change (bd (anotar EvCrearTabla w)) with (bd w). rewrite Hc, Hus.
  change (bd (anotar (EvBuscarUsuario (Usuario.email us))
                (con_bd b (anotar EvCrearTabla w)))) with b.
  rewrite Hb, Hreg. cbn [andb].
  rewrite bool_decide_eq_false_2 by exact Hdif. reflexivity.
Qed.

Lemma text_resultado_tras_insertar self (m : str) :
  text_resultado (destroy (text_resultado_insert (text_resultado_delete self) m))
  = m.
Proof. reflexivity. Qed.

(** C8, amended.  In the card flow, once the card fields validate and
    the order is processed with [ok = True], a receipt email other than
    the email of the requester ends the payment with a failure text
    provided that the store still holds the requester when the payment
    is made, that is, the lookup of the payment does not answer [None]:
    the receipt is never sent ([_enviar_correo_confirmacion] is not
    called), nothing is inserted in the store and the requester of the
    draft is left as it was. *)
Theorem _procesar_pago_email_distinto (hoy : date) (entorno : Entorno)
    (self : VentanaPagoTarjeta.t) (w : Mundo) (us : Usuario.t)
    (r : Resultado)
    (Hcampos : _validar_campos self = inr (true, []))
    (Hproc : fst (Compra.procesar hoy (compra_original self)) = inr r)
    (Hok : ok r = true)
    (Hus : Compra.usuario (compra_original self) = Some us)
    (Hfila : forall b, crear_tabla_usuarios (bd w) = inr b ->
                buscar_usuario_por_email (Usuario.email us) b <> inr None)
    (Hdif : strip (email_var self) <> Usuario.email us) :
  let fin := _procesar_pago hoy entorno self w in
  let self' := fst (snd fin) in
  let w' := snd (snd fin) in
  fst fin = inr tt
  /\ destruida self' = true
  /\ (exists detalle, text_resultado self' = u "❌ " ++ detalle)
  /\ (forall b fila,
        crear_tabla_usuarios (bd w) = inr b ->
        buscar_usuario_por_email (Usuario.email us) b = inr (Some fila) ->
        text_resultado self'
        = msg_no_coincide (strip (email_var self)) (Usuario.email us))
  /\ (traza w' = traza w ++ [EvCrearTabla]
      \/ traza w'
         = traza w ++ [EvCrearTabla; EvBuscarUsuario (Usuario.email us)])
  /\ (bd w' = bd w \/ crear_tabla_usuarios (bd w) = inr (bd w'))
  /\ Compra.usuario (compra_original self') = Some us.
Proof.
  intros fin self' w'.
  pose proof (procesar_ok_registrado _ _ _ _ Hproc Hok Hus) as Hreg.
  pose proof (procesar_usuario hoy (compra_original self)) as Hu'.
  destruct (Compra.procesar hoy (compra_original self)) as [res c'] eqn:Hp.
  cbn [fst snd] in Hproc, Hu'. subst res. rewrite Hus in Hu'.
  pose proof (_procesar_pago_valido hoy entorno self w r c' Hcampos Hp Hok)
    as Hfin.
  assert (Hu1 : Compra.usuario
                  (compra_original
                     (text_resultado_delete
                        (set_compra_original
                           (label_error_pago_configure self []) c')))
                = Some us) by exact Hu'.
  destruct (crear_tabla_usuarios (bd w)) as [e|b] eqn:Hcrear.
  - rewrite (_procesar_pago_try_sin_tabla _ _ _ _ _ _ Hcrear) in Hfin.
    unfold self', w', fin. rewrite Hfin. cbn [fst snd].
    rewrite text_resultado_tras_insertar, error_verificar_prefijo,
      <- app_assoc.
    split; [reflexivity|]. split; [reflexivity|].
    split; [eexists; reflexivity|].
    split; [intros b fila Hb; discriminate Hb|].
    split; [left; reflexivity|]. split; [left; reflexivity | exact Hu'].
  - destruct (buscar_usuario_por_email (Usuario.email us) b)
      as [e|[fila|]] eqn:Hbuscar.
    + rewrite (_procesar_pago_try_sin_busqueda _ _ _ _ _ _ _ _
                 Hcrear Hu1 Hbuscar) in Hfin.
      unfold self', w', fin. rewrite Hfin. cbn [fst snd].
      rewrite text_resultado_tras_insertar, error_verificar_prefijo,
        <- app_assoc.
      split; [reflexivity|]. split; [reflexivity|].
      split; [eexists; reflexivity|].
      split.
      { intros b' fila' Hb'. apply (inj inr) in Hb'. subst b'.
        rewrite Hbuscar. intros Hx. discriminate Hx. }
      split; [right; cbn [anotar traza con_bd]; now rewrite <- app_assoc|].
      split; [right; reflexivity | exact Hu'].
    + rewrite (_procesar_pago_try_no_coincide _ _ _ _ _ _ _ _
                 Hcrear Hu1 Hbuscar Hreg Hdif) in Hfin.
      unfold self', w', fin. rewrite Hfin. cbn [fst snd].
      rewrite text_resultado_tras_insertar.
      split; [reflexivity|]. split; [reflexivity|].
      split; [rewrite msg_no_coincide_prefijo; eexists; reflexivity|].
      split; [intros; reflexivity|].
      split; [right; cbn [anotar traza con_bd]; now rewrite <- app_assoc|].
      split; [right; reflexivity | exact Hu'].
    + destruct (Hfila b eq_refl Hbuscar).
Qed.

End PagoTarjeta.

Lemma _procesar_pago_email_distinto_testigo :
  VentanaPagoTarjeta._validar_campos Ejemplos.ventana_otro_email
  = inr (true, [])
  /\ strip (VentanaPagoTarjeta.email_var Ejemplos.ventana_otro_email)
     <> Usuario.email Ejemplos.ana
  /\ VentanaPagoTarjeta.destruida
       (fst (snd (VentanaPagoTarjeta._procesar_pago Ejemplos.hoy
                    Ejemplos.sin_credenciales Ejemplos.ventana_otro_email
                    Ejemplos.mundo_ana))) = true
  /\ VentanaPagoTarjeta.text_resultado
       (fst (snd (VentanaPagoTarjeta._procesar_pago Ejemplos.hoy
                    Ejemplos.sin_credenciales Ejemplos.ventana_otro_email
                    Ejemplos.mundo_ana)))
     = VentanaPagoTarjeta.msg_no_coincide
         (strip (VentanaPagoTarjeta.email_var Ejemplos.ventana_otro_email))
         (Usuario.email Ejemplos.ana).
Proof.
  assert (Hcampos : VentanaPagoTarjeta._validar_campos
                      Ejemplos.ventana_otro_email = inr (true, []))
    by (vm_compute; reflexivity).
  assert (Hdif : strip (VentanaPagoTarjeta.email_var
                          Ejemplos.ventana_otro_email)
                 <> Usuario.email Ejemplos.ana)
    by (intros Hx; vm_compute in Hx; discriminate Hx).
  assert (Hproc : exists r,
             fst (Compra.procesar Ejemplos.hoy
                    (VentanaPagoTarjeta.compra_original
                       Ejemplos.ventana_otro_email)) = inr r
             /\ ok r = true)
    by (eexists; split; [vm_compute; reflexivity | reflexivity]).
  destruct Hproc as (r & Hproc & Hok).
  assert (Hfila : forall b,
             crear_tabla_usuarios (bd Ejemplos.mundo_ana) = inr b ->
             buscar_usuario_por_email (Usuario.email Ejemplos.ana) b
             <> inr None).
  { intros b Hb. apply (inj inr) in Hb. subst b.
    intros Hx. vm_compute in Hx. discriminate Hx. }
  destruct (_procesar_pago_email_distinto Ejemplos.hoy
              Ejemplos.sin_credenciales Ejemplos.ventana_otro_email
              Ejemplos.mundo_ana Ejemplos.ana r Hcampos Hproc Hok eq_refl
              Hfila Hdif) as (_ & Hdes & _ & Htxt & _).
  split; [exact Hcampos|]. split; [exact Hdif|]. split; [exact Hdes|].
  apply (Htxt (bd Ejemplos.mundo_ana) (u "ana@example.com")).
  - reflexivity.
  - vm_compute. reflexivity.
Defined.

(** C8, as the claim words it, fails.  The requester is registered for
    the session, the card fields validate and the order is processed
    with [ok = True], and the receipt email is not the requester's; but
    the store no longer holds the requester when the payment is made.
    The payment then inserts the other email, makes it the email of the
    requester and asks for the receipt to be sent to it. *)
Lemma _procesar_pago_email_distinto_contraejemplo :
  VentanaPagoTarjeta._validar_campos Ejemplos.ventana_otro_email
  = inr (true, [])
  /\ Compra.usuario
       (VentanaPagoTarjeta.compra_original Ejemplos.ventana_otro_email)
     = Some (Usuario.Build (u "ana@example.com") true)
  /\ match fst (Compra.procesar Ejemplos.hoy
                  (VentanaPagoTarjeta.compra_original
                     Ejemplos.ventana_otro_email)) with
     | inr r => ok r
     | inl _ => false
     end = true
  /\ bool_decide
       (strip (VentanaPagoTarjeta.email_var Ejemplos.ventana_otro_email)
        = u "ana@example.com") = false
  /\ map snd
       (correos_pedidos
          (traza (snd (snd (VentanaPagoTarjeta._procesar_pago Ejemplos.hoy
                              Ejemplos.sin_credenciales
                              Ejemplos.ventana_otro_email
                              (Ejemplos.mundo []))))))
     = [u "otro@example.com"]
  /\ inserciones
       (traza (snd (snd (VentanaPagoTarjeta._procesar_pago Ejemplos.hoy
                           Ejemplos.sin_credenciales
                           Ejemplos.ventana_otro_email
                           (Ejemplos.mundo [])))))
     = [(u "otro@example.com", u "RegistroAutomático", [])]
  /\ Compra.usuario
       (VentanaPagoTarjeta.compra_original
          (fst (snd (VentanaPagoTarjeta._procesar_pago Ejemplos.hoy
                       Ejemplos.sin_credenciales
                       Ejemplos.ventana_otro_email (Ejemplos.mundo [])))))
     = Some (Usuario.Build (u "otro@example.com") true).
Proof. vm_compute. repeat split. Qed.


(** ** The pattern matcher *)

Section Patrones.
Import re.

Lemma en_lenguaje_sec a b s :
  en_lenguaje (Sec a b) s
  <-> exists s1 s2, s = s1 ++ s2 /\ en_lenguaje a s1 /\ en_lenguaje b s2.
Proof.
  split.
  - intros HL. inversion HL; subst. eauto.
  - intros (s1 & s2 & -> & H1 & H2). now constructor.
Qed.

Lemma en_lenguaje_clase p s :
  en_lenguaje (Clase p) s <-> exists c, s = [c] /\ p c = true.
Proof.
  split.
  - intros HL. inversion HL; subst. eauto.
  - intros (c & -> & Hc). now constructor.
Qed.

Lemma anulable_correcto r : anulable r = true <-> en_lenguaje r [].
Proof.
  induction r as [| |p|a IHa b IHb|a IHa b IHb|a IHa]; cbn [anulable].
  - split; [discriminate | intros HL; inversion HL].
  - split; [constructor | reflexivity].
  - split; [discriminate | intros HL; inversion HL].
  - rewrite andb_true_iff, IHa, IHb, en_lenguaje_sec. split.
    + intros [Ha Hb]. now exists [], [].
    + intros (s1 & s2 & Hs & Ha & Hb). symmetry in Hs.
      apply app_eq_nil in Hs. destruct Hs as [-> ->]. now split.
  - rewrite orb_true_iff, IHa, IHb. split.
    + intros [Ha | Hb]; [now apply L_alt_izq | now apply L_alt_der].
    + intros HL. inversion HL; subst; [now left | now right].
  - split; [constructor | reflexivity].
Qed.

Lemma derivada_completa r s' :
  en_lenguaje r s' -> forall c s, s' = c :: s -> en_lenguaje (derivada c r) s.
Proof.
  induction 1 as [|p c0 Hp|a b s1 s2 H1 IH1 H2 IH2|a b s0 H1 IH1
                  |a b s0 H1 IH1| a |a s1 s2 H1 IH1 H2 IH2];
    intros c s Hs; cbn [derivada].
  - discriminate.
  - injection Hs as -> <-. rewrite Hp. constructor.
  - destruct s1 as [|c1 s1].
    + apply anulable_correcto in H1. rewrite H1.
      apply L_alt_der. now apply IH2.
    + injection Hs as -> <-.
      destruct (anulable a); [apply L_alt_izq|]; constructor; auto.
  - apply L_alt_izq. now apply IH1.
  - apply L_alt_der. now apply IH1.
  - discriminate.
  - destruct s1 as [|c1 s1].
    + now apply IH2.
    + injection Hs as -> <-. constructor; auto.
Qed.

Lemma derivada_correcta c r s :
  en_lenguaje (derivada c r) s <-> en_lenguaje r (c :: s).
Proof.
  split; [|intros HL; now apply (derivada_completa _ _ HL)].
  revert s.
  induction r as [| |p|a IHa b IHb|a IHa b IHb|a IHa]; intros s;
    cbn [derivada].
  - intros HL. inversion HL.
  - intros HL. inversion HL.
  - destruct (p c) eqn:Hp; intros HL; inversion HL; subst. now constructor.
  - destruct (anulable a) eqn:Hn.
    + intros HL. inversion HL as [| | | ? ? ? HL1 | ? ? ? HL1 | |]; subst.
      * apply en_lenguaje_sec in HL1. destruct HL1 as (s1 & s2 & -> & Ha & Hb).
        apply (L_sec a b (c :: s1) s2); auto.
      * apply anulable_correcto in Hn.
        apply (L_sec a b [] (c :: s)); auto.
    + intros HL. apply en_lenguaje_sec in HL.
      destruct HL as (s1 & s2 & -> & Ha & Hb).
      apply (L_sec a b (c :: s1) s2); auto.
  - intros HL. inversion HL; subst;
      [apply L_alt_izq | apply L_alt_der]; auto.
  - intros HL. apply en_lenguaje_sec in HL.
    destruct HL as (s1 & s2 & -> & Ha & Hb).
    apply (L_estrella_mas a (c :: s1) s2); auto.
Qed.

(** The matcher decides membership in the language of the pattern. *)
Lemma coincide_correcto r s : coincide r s = true <-> en_lenguaje r s.
Proof.
  revert r. induction s as [|c s IH]; intros r; cbn [coincide].
  - apply anulable_correcto.
  - rewrite IH. apply derivada_correcta.
Qed.

Lemma en_lenguaje_estrella_clase p s :
  en_lenguaje (Estrella (Clase p)) s <-> Forall (fun c => p c = true) s.
Proof.
  split.
  - intros HL. remember (Estrella (Clase p)) as r eqn:Hr.
    induction HL as [| | | | | a |a s1 s2 H1 _ H2 IH2]; try discriminate Hr.
    + constructor.
    + injection Hr as ->. apply en_lenguaje_clase in H1.
      destruct H1 as (c & -> & Hc). constructor; auto.
  - induction 1 as [|c s Hc _ IH]; [constructor|].
    apply (L_estrella_mas (Clase p) [c] s); [now constructor | exact IH].
Qed.

Lemma en_lenguaje_mas_clase p s :
  en_lenguaje (Mas (Clase p)) s
  <-> s <> [] /\ Forall (fun c => p c = true) s.
Proof.
  unfold Mas. rewrite en_lenguaje_sec. split.
  - intros (s1 & s2 & -> & H1 & H2). apply en_lenguaje_clase in H1.
    destruct H1 as (c & -> & Hc). apply en_lenguaje_estrella_clase in H2.
    split; [discriminate | constructor; auto].
  - intros [Hne HF]. destruct HF as [|c s Hc HF]; [now destruct Hne|].
    exists [c], s. split; [reflexivity|]. split; [now constructor|].
    now apply en_lenguaje_estrella_clase.
Qed.

Lemma en_lenguaje_car c s : en_lenguaje (Car c) s <-> s = [c].
Proof.
  unfold Car. rewrite en_lenguaje_clase. split.
  - intros (c' & -> & Hc). apply N.eqb_eq in Hc. now subst.
  - intros ->. exists c. split; [reflexivity | apply N.eqb_refl].
Qed.

Lemma sin_salto_final_correcto s s' :
  sin_salto_final s = Some s' <-> s = s' ++ [10%N].
Proof.
  revert s'. induction s as [|c s IH]; intros s'.
  - cbn. split; [discriminate | intros Hs; now destruct s'].
  - cbn [sin_salto_final]. destruct s as [|c2 s].
    + destruct (N.eqb_spec c 10) as [->|Hc].
      * split; [intros [= <-]; reflexivity|].
        intros Hs. destruct s' as [|? [|]]; try discriminate Hs. reflexivity.
      * split; [discriminate|].
        intros Hs. destruct s' as [|? [|]]; try discriminate Hs.
        injection Hs as ->. now destruct Hc.
    + destruct (sin_salto_final (c2 :: s)) as [t|] eqn:Ht; cbn [option_map].
      * pose proof (proj1 (IH t) eq_refl) as Hs0. rewrite Hs0. split.
        -- intros [= <-]. reflexivity.
        -- intros Hs. destruct s' as [|c' s'].
           ++ destruct t; discriminate Hs.
           ++ injection Hs as -> Hs. apply app_inv_tail in Hs. now subst.
      * split; [discriminate|]. intros Hs. destruct s' as [|c' s'].
        -- discriminate Hs.
        -- injection Hs as -> Hs. pose proof (proj2 (IH s') Hs) as Hx.
           discriminate Hx.
Qed.

End Patrones.

(** ** The session user: [Usuario.desde_la_sesion] *)

Section Sesion.
Context `{Unicode} `{Colaboradores}.

Lemma patron_email_forma (email : str) :
  re.coincide Usuario.patron_email email = true <-> forma_email email.
Proof.
  rewrite coincide_correcto. unfold Usuario.patron_email, forma_email.
  rewrite en_lenguaje_sec. split.
  - intros (local & r1 & -> & Hl & H1).
    apply en_lenguaje_sec in H1. destruct H1 as (a & r2 & -> & Ha & H2).
    apply en_lenguaje_sec in H2. destruct H2 as (dominio & r3 & -> & Hd & H3).
    apply en_lenguaje_sec in H3. destruct H3 as (p & tld & -> & Hp & Ht).
    apply en_lenguaje_car in Ha, Hp. subst a p.
    apply en_lenguaje_mas_clase in Hl, Hd, Ht.
    exists local, dominio, tld. tauto.
  - intros (local & dominio & tld & -> & Hl1 & Hl2 & Hd1 & Hd2 & Ht1 & Ht2).
    exists local, ([64%N] ++ dominio ++ [46%N] ++ tld).
    split; [reflexivity|]. split; [now apply en_lenguaje_mas_clase|].
    apply en_lenguaje_sec. exists [64%N], (dominio ++ [46%N] ++ tld).
    split; [reflexivity|]. split; [now apply en_lenguaje_car|].
    apply en_lenguaje_sec. exists dominio, ([46%N] ++ tld).
    split; [reflexivity|]. split; [now apply en_lenguaje_mas_clase|].
    apply en_lenguaje_sec. exists [46%N], tld.
    split; [reflexivity|]. split; [now apply en_lenguaje_car|].
    now apply en_lenguaje_mas_clase.
Qed.

(** What [re.match] answers for the pattern of the code. *)
Lemma match_patron_email (email : str) :
  re.match_anclado Usuario.patron_email email = true
  <-> forma_email email
      \/ exists s, email = s ++ [10%N] /\ forma_email s.
Proof.
  unfold re.match_anclado. rewrite orb_true_iff, patron_email_forma.
  split; (intros [Hf | Hs]; [now left | right]).
  - destruct (re.sin_salto_final email) as [s|] eqn:Hsin; [|discriminate].
    exists s. split; [now apply sin_salto_final_correcto|].
    now apply patron_email_forma.
  - destruct Hs as (s & Hs & Hf). apply sin_salto_final_correcto in Hs.
    rewrite Hs. now apply patron_email_forma.
Qed.

Lemma forma_email_no_vacia (email : str) : forma_email email -> email <> [].
Proof.
  intros (local & dominio & tld & -> & Hl & _) Hn.
  apply app_eq_nil in Hn. now destruct Hn.
Qed.

(** [desde_la_sesion], case by case. *)
Lemma desde_la_sesion_eq (email : str) (w : Mundo) :
  Usuario.desde_la_sesion email w
  = if match email with [] => true | _ :: _ => false end
       || negb (re.match_anclado Usuario.patron_email email)
    then (inr (Usuario.Build email false), w)
    else (match buscar_usuario_por_email email (bd w) with
          | inl e => inl e
          | inr fila => inr (Usuario.Build email (no_es_None fila))
          end, anotar (EvBuscarUsuario email) w).
Proof.
  unfold Usuario.desde_la_sesion.
  destruct (match email with [] => true | _ :: _ => false end
            || negb (re.match_anclado Usuario.patron_email email));
    [reflexivity|].
  change (bd (anotar (EvBuscarUsuario email) w)) with (bd w).
  now destruct (buscar_usuario_por_email email (bd w)).
Qed.

(** C6 (amended). [Usuario.desde_la_sesion] raises nothing of its own.
    An email that is empty, or that neither has the form
    [local@dominio.tld] (word, dot and hyphen characters on both sides of
    the [@], then a dot and a non-empty run of word characters) nor has it
    once a final line feed is dropped, gives an unregistered user without
    any call to the store.  An email of that form is looked up once, by
    that email: the user is registered exactly when the lookup answers
    with a row, and a failure of the lookup is passed on. *)
Theorem desde_la_sesion_patron (email : str) (w : Mundo) :
  (email = []
   \/ (~ forma_email email
       /\ forall s, email = s ++ [10%N] -> ~ forma_email s) ->
   Usuario.desde_la_sesion email w = (inr (Usuario.Build email false), w))
  /\ (forma_email email ->
      Usuario.desde_la_sesion email w
      = (match buscar_usuario_por_email email (bd w) with
         | inl e => inl e
         | inr fila => inr (Usuario.Build email (no_es_None fila))
         end, anotar (EvBuscarUsuario email) w)).
Proof.
  rewrite desde_la_sesion_eq. split.
  - intros [-> | [Hn1 Hn2]]; [reflexivity|].
    destruct (re.match_anclado Usuario.patron_email email) eqn:Hm.
    + apply match_patron_email in Hm.
      destruct Hm as [Hf | (s & Hs & Hf)];
        [now destruct Hn1 | now destruct (Hn2 s Hs)].
    + now rewrite orb_true_r.
  - intros Hf. pose proof (forma_email_no_vacia _ Hf) as Hne.
    assert (Hm : re.match_anclado Usuario.patron_email email = true)
      by (apply match_patron_email; now left).
    rewrite Hm. destruct email; [now destruct Hne | reflexivity].
Qed.

End Sesion.

Lemma desde_la_sesion_patron_testigo :
  forma_email (u "ana@example.com")
  /\ Usuario.desde_la_sesion (u "ana@example.com") Ejemplos.mundo_ana
     = (inr (Usuario.Build (u "ana@example.com") true),
        anotar (EvBuscarUsuario (u "ana@example.com")) Ejemplos.mundo_ana)
  /\ Usuario.desde_la_sesion (u "ana.example.com") Ejemplos.mundo_ana
     = (inr (Usuario.Build (u "ana.example.com") false), Ejemplos.mundo_ana).
Proof.
  assert (Hf : forma_email (u "ana@example.com")).
  { apply patron_email_forma. vm_compute. reflexivity. }
  assert (Hn : ~ forma_email (u "ana.example.com")
               /\ forall s, u "ana.example.com" = s ++ [10%N] ->
                            ~ forma_email s).
  { assert (Hm : re.match_anclado Usuario.patron_email (u "ana.example.com")
                 = false) by (vm_compute; reflexivity).
    split.
    - intros Hx. assert (Ht : re.match_anclado Usuario.patron_email
                                (u "ana.example.com") = true)
        by (apply match_patron_email; now left).
      rewrite Hm in Ht. discriminate Ht.
    - intros s Hs Hx.
      assert (Ht : re.match_anclado Usuario.patron_email
                     (u "ana.example.com") = true)
        by (apply match_patron_email; right; now exists s).
      rewrite Hm in Ht. discriminate Ht. }
  split; [exact Hf|]. split.
  - rewrite (proj2 (desde_la_sesion_patron (u "ana@example.com")
                      Ejemplos.mundo_ana) Hf).
    vm_compute. reflexivity.
  - apply (proj1 (desde_la_sesion_patron (u "ana.example.com")
                    Ejemplos.mundo_ana)).
    right. exact Hn.
Defined.

(** C6, as the claim words the pattern, fails: the hyphen is a character
    of the domain for the code, so [a@b-c.de], which is not a word of the
    pattern of the claim, is looked up in the store and comes back
    registered when the store holds it. *)
Lemma desde_la_sesion_contraejemplo :
  re.coincide patron_email_segun_spec (u "a@b-c.de") = false
  /\ fst (Usuario.desde_la_sesion (u "a@b-c.de")
            (Ejemplos.mundo [u "a@b-c.de"]))
     = inr (Usuario.Build (u "a@b-c.de") true)
  /\ traza (snd (Usuario.desde_la_sesion (u "a@b-c.de")
                   (Ejemplos.mundo [u "a@b-c.de"])))
     = [EvBuscarUsuario (u "a@b-c.de")].
Proof. vm_compute. repeat split. Qed.

(** ** More on [Compra]: what [procesar] tells the caller *)

Section PedidoResultado.
Import ConfiguracionParque Especificacion.

Lemma contiene_refl (s : str) : contiene s s = true.
Proof. apply contiene_correcto. exists [], []. now rewrite app_nil_r. Qed.

Lemma contiene_join (sep : str) (l : list str) (m : str) :
  m ∈ l -> contiene (join sep l) m = true.
Proof.
  induction l as [|x r IH]; intros Hm.
  - now apply elem_of_nil in Hm.
  - apply elem_of_cons in Hm. destruct r as [|y r].
    + destruct Hm as [-> | Hm]; [apply contiene_refl|].
      now apply elem_of_nil in Hm.
    + change (join sep (x :: y :: r)) with (x ++ sep ++ join sep (y :: r)).
      destruct Hm as [-> | Hm].
      * apply contiene_app_l, contiene_refl.
      * apply contiene_app_r, contiene_app_r. now apply IH.
Qed.

(** [procesar] always returns, and its dictionary tells the caller
    which checks failed: [ok] is [True] exactly when the five checks
    pass, and the text of every check that fails is part of [mensaje]. *)
Theorem procesar_informa_fallas (hoy : date) (c : Compra.t) :
  exists r,
    fst (Compra.procesar hoy c) = inr r
    /\ (ok r = true <-> todo_ok hoy c)
    /\ (~ identidad_ok c -> contiene (mensaje r) Compra.msg_usuario = true)
    /\ (~ fecha_ok hoy c -> contiene (mensaje r) Compra.msg_fecha = true)
    /\ (~ cantidad_ok c ->
        contiene (mensaje r)
          (Compra.msg_cantidad CANTIDAD_MIN_ENTRADAS CANTIDAD_MAX_ENTRADAS)
        = true)
    /\ (~ edades_ok c -> contiene (mensaje r) Compra.msg_edades = true)
    /\ (~ forma_pago_ok c ->
        contiene (mensaje r) Compra.msg_forma_pago = true).
Proof.
  destruct (fst (Compra.es_valida hoy c)) eqn:Hv.
  - destruct (procesar_valida hoy c Hv) as (us & _ & Hp).
    pose proof (proj1 (es_valida_todo_ok hoy c) Hv) as Hok.
    destruct Hok as (H1 & H2 & H3 & H4 & H5).
    eexists. split; [exact Hp|].
    split; [split; intros _; [exact (conj H1 (conj H2 (conj H3 (conj H4 H5))))
                             | reflexivity]|].
    split; [intros Hn; destruct (Hn H1)|].
    split; [intros Hn; destruct (Hn H2)|].
    split; [intros Hn; destruct (Hn H3)|].
    split; [intros Hn; destruct (Hn H4)|].
    intros Hn; destruct (Hn H5).
  - assert (Hne : Compra.errores (snd (Compra.es_valida hoy c)) <> []).
    { intros He. apply es_valida_fst_errores in He. rewrite He in Hv.
      discriminate Hv. }
    pose proof (procesar_con_errores hoy c Hne) as Hp.
    destruct (es_valida_cinco_chequeos_en_orden hoy c)
      as (_ & M1 & M2 & M3 & M4 & M5 & _).
    eexists. split; [exact Hp|]. unfold ok, mensaje.
    split.
    { split; [intros Hx; discriminate Hx|].
      intros Hok. apply es_valida_todo_ok in Hok. rewrite Hok in Hv.
      discriminate Hv. }
    split; [intros Hn; apply contiene_join, M1, Hn|].
    split; [intros Hn; apply contiene_join, M2, Hn|].
    split; [intros Hn; apply contiene_join, M3, Hn|].
    split; [intros Hn; apply contiene_join, M4, Hn|].
    intros Hn; apply contiene_join, M5, Hn.
Qed.

Lemma campos_determinan c c' :
  campos_pedido c' = campos_pedido c ->
  c' = Compra.set_errores c (Compra.errores c').
Proof.
  destruct c, c'. unfold campos_pedido, Compra.set_errores.
  cbn [Compra.usuario Compra.fecha_visita Compra.cantidad Compra.edades
       Compra.tipo_pase Compra.forma_pago Compra.errores].
  intros [= -> -> -> -> -> ->]. reflexivity.
Qed.

Lemma tras_llamadas_campos ls c :
  campos_pedido (tras_llamadas ls c) = campos_pedido c.
Proof.
  revert c. induction ls as [|l ls IH]; intros c; [reflexivity|].
  cbn [tras_llamadas fold_left]. unfold tras_llamadas in IH.
  now rewrite IH, tras_llamada_campos.
Qed.

Lemma procesar_ignora_errores hoy c e :
  Compra.procesar hoy (Compra.set_errores c e) = Compra.procesar hoy c.
Proof. reflexivity. Qed.

(** [procesar] does not depend on the calls made before on the same
    draft: whatever [es_valida], [calcular_monto_total] and [procesar]
    calls came first, at whatever dates, processing at [hoy] gives the
    result and leaves the draft that processing the fresh draft at [hoy]
    gives.  In particular processing twice on the same day returns the
    same dictionary twice. *)
Theorem procesar_sin_memoria (ls : list (llamada * date)) (hoy : date)
    (c : Compra.t) :
  Compra.procesar hoy (tras_llamadas ls c) = Compra.procesar hoy c
  /\ fst (Compra.procesar hoy (snd (Compra.procesar hoy c)))
     = fst (Compra.procesar hoy c).
Proof.
  split.
  - rewrite (campos_determinan _ _ (tras_llamadas_campos ls c)).
    apply procesar_ignora_errores.
  - rewrite procesar_snd, es_valida_marco. now rewrite procesar_ignora_errores.
Qed.

(** A draft that passes validation has from 1 to 10 tickets, one age for
    each, and a total from 0 to 150000 that is 0 only for a pass type
    that has no price. *)
Theorem compra_valida_cotas (hoy : date) (c : Compra.t)
    (Hv : fst (Compra.es_valida hoy c) = true) :
  1 <= Compra.cantidad c <= 10
  /\ len (Compra.edades c) = Compra.cantidad c
  /\ 0 <= Compra.calcular_monto_total c <= 150000
  /\ (Compra.calcular_monto_total c = 0
      <-> PRECIOS !! Compra.tipo_pase c = None).
Proof.
  apply es_valida_todo_ok in Hv. destruct Hv as (_ & _ & Hq & [_ He] & _).
  unfold cantidad_ok, CANTIDAD_MIN_ENTRADAS, CANTIDAD_MAX_ENTRADAS in Hq.
  split; [exact Hq|]. split; [exact He|].
  destruct (calcular_monto_total_tabla c) as (Hs & Hn & Ht & _).
  destruct (PRECIOS !! Compra.tipo_pase c) as [p|] eqn:Hp.
  - rewrite (Hs p eq_refl). apply Ht in Hp.
    split; [destruct Hp as [[_ ->] | [_ ->]]; lia|].
    split; [|discriminate].
    intros H0. destruct Hp as [[_ ->] | [_ ->]]; lia.
  - rewrite (Hn eq_refl). split; [lia|]. split; [reflexivity | lia].
Qed.

Lemma compra_valida_cotas_testigo :
  fst (Compra.es_valida Ejemplos.hoy Ejemplos.compra_vip) = true
  /\ 0 <= Compra.calcular_monto_total Ejemplos.compra_vip <= 150000.
Proof.
  assert (Hv : fst (Compra.es_valida Ejemplos.hoy Ejemplos.compra_vip) = true)
    by (vm_compute; reflexivity).
  split; [exact Hv|].
  exact (proj1 (proj2 (proj2 (compra_valida_cotas _ _ Hv)))).
Defined.

End PedidoResultado.

(** ** More on [Usuario.desde_la_sesion] *)

Section SesionBordes.
Context `{Unicode} `{Colaboradores}.

(** [$] also holds before a line feed that ends the string: an email of
    the form [local@dominio.tld] followed by one line feed passes the
    pattern, and the store is asked for the raw string, line feed
    included. *)
Theorem desde_la_sesion_salto_final (s : str) (w : Mundo)
    (Hf : forma_email s) :
  Usuario.desde_la_sesion (s ++ [10%N]) w
  = (match buscar_usuario_por_email (s ++ [10%N]) (bd w) with
     | inl e => inl e
     | inr fila => inr (Usuario.Build (s ++ [10%N]) (no_es_None fila))
     end, anotar (EvBuscarUsuario (s ++ [10%N])) w).
Proof.
  rewrite desde_la_sesion_eq.
  assert (Hm : re.match_anclado Usuario.patron_email (s ++ [10%N]) = true).
  { apply match_patron_email. right. now exists s. }
  rewrite Hm. destruct s; reflexivity.
Qed.

Lemma palabra_punto_guion_ascii (c : N) :
  conforme_ascii -> (c < 128)%N ->
  re.palabra_punto_guion c
  = ascii_alnum c || (c =? 95)%N || (c =? 46)%N || (c =? 45)%N.
Proof.
  intros Hc Hlt. unfold re.palabra_punto_guion, re.palabra.
  now rewrite (proj1 (Hc c Hlt)).
Qed.

Lemma Forall_clase_no_contiene (p : N -> bool) (l : str) (c : N) :
  p c = false -> Forall (fun x => p x = true) l -> c ∉ l.
Proof.
  intros Hp HF Hin. rewrite Forall_forall in HF.
  rewrite (HF c Hin) in Hp. discriminate Hp.
Qed.

Lemma forma_email_una_arroba (email : str) :
  conforme_ascii -> forma_email email ->
  exists local resto,
    email = local ++ [64%N] ++ resto /\ local <> []
    /\ (64%N ∉ local) /\ (64%N ∉ resto) /\ (46%N ∈ resto)
    /\ (32%N ∉ email) /\ (10%N ∉ email).
Proof.
  intros Hc (local & dominio & tld & -> & Hl1 & Hl2 & Hd1 & Hd2 & Ht1 & Ht2).
  assert (Hp64 : re.palabra_punto_guion 64 = false)
    by (rewrite (palabra_punto_guion_ascii 64 Hc); reflexivity).
  assert (Hp32 : re.palabra_punto_guion 32 = false)
    by (rewrite (palabra_punto_guion_ascii 32 Hc); reflexivity).
  assert (Hp10 : re.palabra_punto_guion 10 = false)
    by (rewrite (palabra_punto_guion_ascii 10 Hc); reflexivity).
  assert (Ht3 : Forall (fun c => re.palabra_punto_guion c = true) tld).
  { eapply Forall_impl; [exact Ht2|]. intros c Hw. cbn beta in *.
    unfold re.palabra_punto_guion. now rewrite Hw. }
  exists local, (dominio ++ [46%N] ++ tld).
  split; [reflexivity|]. split; [exact Hl1|].
  split; [now apply (Forall_clase_no_contiene _ _ _ Hp64)|].
  split.
  { rewrite !not_elem_of_app. split; [|split].
    - now apply (Forall_clase_no_contiene _ _ _ Hp64).
    - intros Hx. apply list_elem_of_singleton in Hx. discriminate Hx.
    - now apply (Forall_clase_no_contiene _ _ _ Hp64). }
  split.
  { rewrite !elem_of_app. right. left. now apply list_elem_of_singleton. }
  split.
  - rewrite !not_elem_of_app. repeat split;
      try (now apply (Forall_clase_no_contiene _ _ _ Hp32));
      intros Hx; apply list_elem_of_singleton in Hx; discriminate Hx.
  - rewrite !not_elem_of_app. repeat split;
      try (now apply (Forall_clase_no_contiene _ _ _ Hp10));
      intros Hx; apply list_elem_of_singleton in Hx; discriminate Hx.
Qed.

Lemma count_occ_no_esta (l : str) (c : N) :
  c ∉ l -> count_occ N.eq_dec l c = 0%nat.
Proof. intros Hn. apply count_occ_not_In. now rewrite <- list_elem_of_In. Qed.

(** Every email that reaches the store has one [@], not in first place,
    a dot after it and no space. *)
Lemma match_patron_email_partes (email : str) :
  conforme_ascii ->
  re.match_anclado Usuario.patron_email email = true ->
  exists local resto,
    email = local ++ [64%N] ++ resto /\ local <> []
    /\ count_occ N.eq_dec email 64%N = 1%nat
    /\ (46%N ∈ resto) /\ (32%N ∉ email).
Proof.
  intros Hc Hm. apply match_patron_email in Hm.
  destruct Hm as [Hf | (s & -> & Hf)];
    destruct (forma_email_una_arroba _ Hc Hf)
      as (local & resto & -> & Hl & H1 & H2 & H3 & H4 & H5).
  - exists local, resto. split; [reflexivity|]. split; [exact Hl|].
    split; [|split; [exact H3 | exact H4]].
    rewrite !count_occ_app, (count_occ_no_esta _ _ H1),
      (count_occ_no_esta _ _ H2). reflexivity.
  - exists local, (resto ++ [10%N]).
    split; [now rewrite <- !app_assoc|]. split; [exact Hl|].
    split; [|split].
    + rewrite !count_occ_app, (count_occ_no_esta _ _ H1),
        (count_occ_no_esta _ _ H2). reflexivity.
    + apply elem_of_app. now left.
    + rewrite not_elem_of_app. split; [exact H4|].
      intros Hx. apply list_elem_of_singleton in Hx. discriminate Hx.
Qed.

(** An email with a space, without [@] or with more than one, or
    without a dot after the [@], never reaches the store: the user comes
    back unregistered and no lookup is made. *)
Theorem desde_la_sesion_rechaza_mal_formados (email : str) (w : Mundo)
    (Hc : conforme_ascii)
    (Hmal : (32%N ∈ email)
            \/ count_occ N.eq_dec email 64%N <> 1%nat
            \/ (forall a b, email = a ++ [64%N] ++ b -> 46%N ∉ b)) :
  Usuario.desde_la_sesion email w = (inr (Usuario.Build email false), w).
Proof.
  rewrite desde_la_sesion_eq.
  destruct (re.match_anclado Usuario.patron_email email) eqn:Hm;
    [|now rewrite orb_true_r].
  destruct (match_patron_email_partes _ Hc Hm)
    as (local & resto & He & _ & H1 & H2 & H3).
  destruct Hmal as [Hs | [Hn | Hd]].
  - destruct (H3 Hs).
  - destruct (Hn H1).
  - destruct (Hd local resto He H2).
Qed.

End SesionBordes.

Lemma unicode_latin1_conforme : @conforme_ascii unicode_latin1.
Proof.
  intros c Hc. apply N.ltb_lt in Hc.
  unfold es_alnum, es_digito, valor_decimal, es_espacio, unicode_latin1,
    latin1_alnum, latin1_digito, latin1_decimal, latin1_espacio.
  rewrite Hc. repeat split.
Qed.

Lemma desde_la_sesion_salto_final_testigo :
  forma_email (u "ana@example.com")
  /\ traza (snd (Usuario.desde_la_sesion (u "ana@example.com" ++ [10%N])
                   Ejemplos.mundo_ana))
     = [EvBuscarUsuario (u "ana@example.com" ++ [10%N])].
Proof.
  assert (Hf : forma_email (u "ana@example.com"))
    by (apply patron_email_forma; vm_compute; reflexivity).
  split; [exact Hf|].
  rewrite (desde_la_sesion_salto_final _ Ejemplos.mundo_ana Hf).
  reflexivity.
Defined.

Lemma desde_la_sesion_rechaza_mal_formados_testigo :
  (32%N ∈ u "ana maria@example.com")
  /\ Usuario.desde_la_sesion (u "ana maria@example.com") Ejemplos.mundo_ana
     = (inr (Usuario.Build (u "ana maria@example.com") false),
        Ejemplos.mundo_ana).
Proof.
  assert (Hs : 32%N ∈ u "ana maria@example.com")
    by (apply (proj1 (bool_decide_eq_true _)); vm_compute; reflexivity).
  split; [exact Hs|].
  apply (desde_la_sesion_rechaza_mal_formados _ _ unicode_latin1_conforme).
  left. exact Hs.
Defined.

(** ** More on the card payment *)

Section PagoTarjetaCaminos.
Context `{Unicode} `{Colaboradores} `{Mensajes}.
Import VentanaPagoTarjeta.

Lemma correos_pedidos_app t1 t2 :
  correos_pedidos (t1 ++ t2) = correos_pedidos t1 ++ correos_pedidos t2.
Proof.
  induction t1 as [|e t1 IH]; [reflexivity|].
  destruct e; cbn [app correos_pedidos]; now rewrite IH.
Qed.

Lemma inserciones_app t1 t2 :
  inserciones (t1 ++ t2) = inserciones t1 ++ inserciones t2.
Proof.
  induction t1 as [|e t1 IH]; [reflexivity|].
  destruct e; cbn [app inserciones]; now rewrite IH.
Qed.

(** [_enviar_correo_confirmacion] returns [True] or raises; the call is
    noted once, and neither the store nor the rows inserted change. *)
Lemma _enviar_correo_confirmacion_efectos entorno cuerpo dest (w : Mundo) :
  fst (_enviar_correo_confirmacion entorno cuerpo dest w) <> inr false
  /\ bd (snd (_enviar_correo_confirmacion entorno cuerpo dest w)) = bd w
  /\ correos_pedidos
       (traza (snd (_enviar_correo_confirmacion entorno cuerpo dest w)))
     = correos_pedidos (traza w) ++ [(cuerpo, dest)]
  /\ inserciones
       (traza (snd (_enviar_correo_confirmacion entorno cuerpo dest w)))
     = inserciones (traza w).
Proof.
  unfold _enviar_correo_confirmacion.
  destruct (componer_mensaje _ _ _ _).
  { cbn [fst snd anotar bd traza].
    rewrite ?correos_pedidos_app, ?inserciones_app, ?app_nil_r.
    split; [discriminate|]. repeat split. }
  destruct (negb (no_vacio (EMAIL_EMISOR entorno))
            || negb (no_vacio (PASSWORD_EMISOR entorno))).
  - destruct (bool_decide _); cbn [fst snd anotar bd traza];
      rewrite ?correos_pedidos_app, ?inserciones_app, ?app_nil_r;
      (split; [discriminate|]); repeat split.
  - destruct (smtp_enviar _ _ _ _); cbn [fst snd anotar bd traza];
      rewrite ?correos_pedidos_app, ?inserciones_app, ?app_nil_r;
      (split; [discriminate|]); repeat split.
Qed.

(** The two texts the inner [try] can leave. *)
Lemma _procesar_pago_envio_efectos entorno r entered (w : Mundo) :
  (fst (_procesar_pago_envio entorno r entered w)
   = u "✅ ¡Pago con tarjeta procesado con éxito!" ++ salto ++ salto
       ++ mensaje r ++ salto ++ salto
       ++ u "📧 Se envió un recibo a " ++ entered ++ u "."
   \/ exists e,
        fst (_procesar_pago_envio entorno r entered w)
        = u "✅ Pago procesado, pero fallo el envío del email: " ++ texto e)
  /\ bd (snd (_procesar_pago_envio entorno r entered w)) = bd w
  /\ correos_pedidos (traza (snd (_procesar_pago_envio entorno r entered w)))
     = correos_pedidos (traza w) ++ [(mensaje r, entered)]
  /\ inserciones (traza (snd (_procesar_pago_envio entorno r entered w)))
     = inserciones (traza w).
Proof.
  unfold _procesar_pago_envio.
  destruct (_enviar_correo_confirmacion_efectos entorno (mensaje r) entered w)
    as (Hf & Hb & Hc & Hi).
  destruct (_enviar_correo_confirmacion entorno (mensaje r) entered w)
    as [[e|[|]] w2]; cbn [fst snd] in *.
  - split; [right; exists e; reflexivity|]. exact (conj Hb (conj Hc Hi)).
  - split; [left; reflexivity|]. exact (conj Hb (conj Hc Hi)).
  - destruct Hf. reflexivity.
Qed.

Lemma _procesar_pago_try_sin_usuario entorno r entered self w b :
  crear_tabla_usuarios (bd w) = inr b ->
  Compra.usuario (compra_original self) = None ->
  _procesar_pago_try entorno r entered self w
  = (inl (Excepcion AttributeError
            (u "'NoneType' object has no attribute 'email'")),
     (self, con_bd b (anotar EvCrearTabla w))).
Proof.
  intros Hc Hus. unfold _procesar_pago_try.
  change (bd (anotar EvCrearTabla w)) with (bd w). rewrite Hc, Hus.
  reflexivity.
Qed.

Lemma _procesar_pago_try_coincide entorno r entered self w b us fila :
  crear_tabla_usuarios (bd w) = inr b ->
  Compra.usuario (compra_original self) = Some us ->
  buscar_usuario_por_email (Usuario.email us) b = inr (Some fila) ->
  Usuario.registrado us = true ->
  entered = Usuario.email us ->
  _procesar_pago_try entorno r entered self w
  = (inr (MensajeFinal
            (fst (_procesar_pago_envio entorno r entered
                    (anotar (EvBuscarUsuario (Usuario.email us))
                       (con_bd b (anotar EvCrearTabla w)))))),
     (self,
      snd (_procesar_pago_envio entorno r entered
             (anotar (EvBuscarUsuario (Usuario.email us))
                (con_bd b (anotar EvCrearTabla w)))))).
Proof.
  intros Hc Hus Hb Hreg Heq. unfold _procesar_pago_try.
  change (bd (anotar EvCrearTabla w)) with (bd w). rewrite Hc, Hus.
  change (bd (anotar (EvBuscarUsuario (Usuario.email us))
                (con_bd b (anotar EvCrearTabla w)))) with b.
  rewrite Hb, Hreg. cbn [andb].
  rewrite bool_decide_eq_true_2 by exact Heq. cbn [negb].
  destruct (_procesar_pago_envio _ _ _ _) as [m w2]. reflexivity.
Qed.

Lemma _procesar_pago_try_insertar_falla entorno r entered self w b us
    db_row e :
  crear_tabla_usuarios (bd w) = inr b ->
  Compra.usuario (compra_original self) = Some us ->
  buscar_usuario_por_email (Usuario.email us) b = inr db_row ->
  Usuario.registrado us
  && match db_row with Some _ => true | None => false end = false ->
  insertar_o_ignorar_usuario entered (u "RegistroAutomático") [] b = inl e ->
  _procesar_pago_try entorno r entered self w
  = (inl e,
     (self,
      anotar (EvInsertarUsuario entered (u "RegistroAutomático") [])
        (anotar (EvBuscarUsuario (Usuario.email us))
           (con_bd b (anotar EvCrearTabla w))))).
Proof.
  intros Hc Hus Hb Hcond Hi. unfold _procesar_pago_try.
  change (bd (anotar EvCrearTabla w)) with (bd w). rewrite Hc, Hus.
  change (bd (anotar (EvBuscarUsuario (Usuario.email us))
                (con_bd b (anotar EvCrearTabla w)))) with b.
  rewrite Hb, Hcond.
  change (bd (anotar (EvInsertarUsuario entered (u "RegistroAutomático") [])
                (anotar (EvBuscarUsuario (Usuario.email us))
                   (con_bd b (anotar EvCrearTabla w))))) with b.
  rewrite Hi. reflexivity.
Qed.

Lemma _procesar_pago_try_insertar entorno r entered self w b us db_row b2 :
  crear_tabla_usuarios (bd w) = inr b ->
  Compra.usuario (compra_original self) = Some us ->
  buscar_usuario_por_email (Usuario.email us) b = inr db_row ->
  Usuario.registrado us
  && match db_row with Some _ => true | None => false end = false ->
  insertar_o_ignorar_usuario entered (u "RegistroAutomático") [] b
  = inr b2 ->
  _procesar_pago_try entorno r entered self w
  = (inr (MensajeFinal
            (fst (_procesar_pago_envio entorno r entered
                    (con_bd b2
                       (anotar (EvInsertarUsuario entered
                                  (u "RegistroAutomático") [])
                          (anotar (EvBuscarUsuario (Usuario.email us))
                             (con_bd b (anotar EvCrearTabla w)))))))),
     (set_compra_original self
        (Compra.set_usuario (compra_original self)
           (Some (Usuario.Build entered true))),
      snd (_procesar_pago_envio entorno r entered
             (con_bd b2
                (anotar (EvInsertarUsuario entered
                           (u "RegistroAutomático") [])
                   (anotar (EvBuscarUsuario (Usuario.email us))
                      (con_bd b (anotar EvCrearTabla w)))))))).
Proof.
  intros Hc Hus Hb Hcond Hi. unfold _procesar_pago_try.
  change (bd (anotar EvCrearTabla w)) with (bd w). rewrite Hc, Hus.
  change (bd (anotar (EvBuscarUsuario (Usuario.email us))
                (con_bd b (anotar EvCrearTabla w)))) with b.
  rewrite Hb, Hcond.
  change (bd (anotar (EvInsertarUsuario entered (u "RegistroAutomático") [])
                (anotar (EvBuscarUsuario (Usuario.email us))
                   (con_bd b (anotar EvCrearTabla w))))) with b.
  rewrite Hi.
  destruct (_procesar_pago_envio _ _ _ _) as [m w2]. reflexivity.
Qed.

(** What one run of the outer [try] asks of the collaborators: at most
    one row, for the entered email, and at most one receipt, for the
    entered email, which is then the email of the requester. *)
Lemma _procesar_pago_try_resumen entorno r entered self (w : Mundo) :
  (correos_pedidos
     (traza (snd (snd (_procesar_pago_try entorno r entered self w))))
   = correos_pedidos (traza w)
   \/ correos_pedidos
        (traza (snd (snd (_procesar_pago_try entorno r entered self w))))
      = correos_pedidos (traza w) ++ [(mensaje r, entered)]
      /\ Compra.usuario
           (compra_original
              (fst (snd (_procesar_pago_try entorno r entered self w))))
         = Some (Usuario.Build entered true))
  /\ (inserciones
        (traza (snd (snd (_procesar_pago_try entorno r entered self w))))
      = inserciones (traza w)
      \/ inserciones
           (traza (snd (snd (_procesar_pago_try entorno r entered self w))))
         = inserciones (traza w)
             ++ [(entered, u "RegistroAutomático", [])]).
Proof.
  destruct (crear_tabla_usuarios (bd w)) as [e|b] eqn:Hc.
  { rewrite (_procesar_pago_try_sin_tabla _ _ _ _ _ _ Hc). cbn [fst snd].
    cbn [anotar traza].
    rewrite correos_pedidos_app, inserciones_app. cbn [correos_pedidos inserciones].
    rewrite !app_nil_r. split; left; reflexivity. }
  destruct (Compra.usuario (compra_original self)) as [us|] eqn:Hus.
  2:{ rewrite (_procesar_pago_try_sin_usuario _ _ _ _ _ _ Hc Hus).
      cbn [fst snd anotar con_bd traza].
      rewrite correos_pedidos_app, inserciones_app.
      cbn [correos_pedidos inserciones].
      rewrite !app_nil_r. split; left; reflexivity. }
  destruct (buscar_usuario_por_email (Usuario.email us) b) as [e|db_row]
    eqn:Hb.
  { rewrite (_procesar_pago_try_sin_busqueda _ _ _ _ _ _ _ _ Hc Hus Hb).
    cbn [fst snd anotar con_bd traza].
    rewrite !correos_pedidos_app, !inserciones_app.
    cbn [correos_pedidos inserciones].
    rewrite !app_nil_r. split; left; reflexivity. }
  destruct (Usuario.registrado us
            && match db_row with Some _ => true | None => false end)
    eqn:Hcond.
  - apply andb_true_iff in Hcond. destruct Hcond as [Hreg Hrow].
    destruct db_row as [fila|]; [|discriminate Hrow].
    destruct (decide (entered = Usuario.email us)) as [Heq|Hdif].
    + rewrite (_procesar_pago_try_coincide _ _ _ _ _ _ _ _
                 Hc Hus Hb Hreg Heq).
      cbn [fst snd].
      destruct (_procesar_pago_envio_efectos entorno r entered
                  (anotar (EvBuscarUsuario (Usuario.email us))
                     (con_bd b (anotar EvCrearTabla w))))
        as (_ & _ & Hco & Hin).
      rewrite Hco, Hin. cbn [anotar con_bd traza].
      rewrite !correos_pedidos_app, !inserciones_app.
      cbn [correos_pedidos inserciones]. rewrite !app_nil_r.
      split; [right | left; reflexivity].
      split; [reflexivity|]. rewrite Hus, Heq.
      destruct us as [em re]. cbn [Usuario.registrado] in Hreg.
      rewrite Hreg. reflexivity.
    + rewrite (_procesar_pago_try_no_coincide _ _ _ _ _ _ _ _
                 Hc Hus Hb Hreg Hdif).
      cbn [fst snd anotar con_bd traza].
      rewrite !correos_pedidos_app, !inserciones_app.
      cbn [correos_pedidos inserciones].
      rewrite !app_nil_r. split; left; reflexivity.
  - destruct (insertar_o_ignorar_usuario entered (u "RegistroAutomático")
                [] b) as [e|b2] eqn:Hi.
    + rewrite (_procesar_pago_try_insertar_falla _ _ _ _ _ _ _ _ _
                 Hc Hus Hb Hcond Hi).
      cbn [fst snd anotar con_bd traza].
      rewrite !correos_pedidos_app, !inserciones_app.
      cbn [correos_pedidos inserciones].
      rewrite !app_nil_r. split; [left | right]; reflexivity.
    + rewrite (_procesar_pago_try_insertar _ _ _ _ _ _ _ _ _
                 Hc Hus Hb Hcond Hi).
      cbn [fst snd].
      destruct (_procesar_pago_envio_efectos entorno r entered
                  (con_bd b2
                     (anotar (EvInsertarUsuario entered
                                (u "RegistroAutomático") [])
                        (anotar (EvBuscarUsuario (Usuario.email us))
                           (con_bd b (anotar EvCrearTabla w))))))
        as (_ & _ & Hco & Hin).
      rewrite Hco, Hin. cbn [anotar con_bd traza].
      rewrite !correos_pedidos_app, !inserciones_app.
      cbn [correos_pedidos inserciones]. rewrite !app_nil_r.
      split; [right | right; reflexivity].
      split; reflexivity.
Qed.

Lemma _validar_campos_casos (self : VentanaPagoTarjeta.t) :
  (exists m, _validar_campos self = inr (false, m))
  \/ _validar_campos self = inr (true, []).
Proof.
  rewrite _validar_campos_eq.
  destruct (negb (nombre_ok self)); [left; eexists; reflexivity|].
  destruct (negb (tarjeta_ok self)); [left; eexists; reflexivity|].
  destruct (falla_vencimiento self); [left; eexists; reflexivity|].
  destruct (negb (cvv_ok self)); [left; eexists; reflexivity|].
  right; reflexivity.
Qed.

Lemma _procesar_pago_campos_invalidos_eq hoy entorno self (w : Mundo) m :
  _validar_campos self = inr (false, m) ->
  _procesar_pago hoy entorno self w
  = (inr tt, (label_error_pago_configure self (u "⚠️ " ++ m), w)).
Proof. intros Hv. unfold _procesar_pago. rewrite Hv. reflexivity. Qed.

(** [procesar] returns: with [ok] as [es_valida] answers, leaving the
    draft that [es_valida] leaves. *)
Lemma procesar_casos hoy c :
  exists r,
    Compra.procesar hoy c = (inr r, snd (Compra.es_valida hoy c))
    /\ ok r = fst (Compra.es_valida hoy c)
    /\ (ok r = false ->
        mensaje r
        = join (u " ") (Compra.errores (snd (Compra.es_valida hoy c)))).
Proof.
  destruct (fst (Compra.es_valida hoy c)) eqn:Hv.
  - destruct (procesar_valida hoy c Hv) as (us & Hus & Hp).
    rewrite <- procesar_snd.
    destruct (Compra.procesar hoy c) as [res c']. cbn [fst snd] in *.
    subst res. eexists. split; [reflexivity|].
    split; [reflexivity | intros Hx; discriminate Hx].
  - exists {| ok := false;
              mensaje := join (u " ")
                           (Compra.errores (snd (Compra.es_valida hoy c))) |}.
    split; [|split; [reflexivity | intros _; reflexivity]].
    unfold Compra.procesar.
    destruct (Compra.es_valida hoy c) as [v c']. cbn [fst snd] in *.
    subst v. reflexivity.
Qed.

Lemma _procesar_pago_pedido_invalido_eq hoy entorno self (w : Mundo) r c' :
  _validar_campos self = inr (true, []) ->
  Compra.procesar hoy (compra_original self) = (inr r, c') ->
  ok r = false ->
  _procesar_pago hoy entorno self w
  = (inr tt,
     (destroy
        (text_resultado_insert
           (text_resultado_delete
              (set_compra_original (label_error_pago_configure self []) c'))
           (mensaje r)), w)).
Proof.
  intros Hcampos Hp Hok. unfold _procesar_pago. rewrite Hcampos.
  cbn [negb].
  change (compra_original (label_error_pago_configure self []))
    with (compra_original self).
  rewrite Hp, Hok. reflexivity.
Qed.

(** Whatever the window holds and whatever the collaborators answer,
    [_procesar_pago] returns without raising, asks for at most one
    receipt and inserts at most one row.  A receipt is asked only for
    an order that [procesar] accepts; it carries the confirmation text
    and goes to the stripped email of the window, which is then the
    email of the order's requester, registered.  The row, if any, is
    that email with the name [RegistroAutomático] and an empty hash. *)
Theorem _procesar_pago_un_recibo (hoy : date) (entorno : Entorno)
    (self : VentanaPagoTarjeta.t) (w : Mundo) :
  let fin := _procesar_pago hoy entorno self w in
  let self' := fst (snd fin) in
  let w' := snd (snd fin) in
  fst fin = inr tt
  /\ (correos_pedidos (traza w') = correos_pedidos (traza w)
      \/ exists r,
           fst (Compra.procesar hoy (compra_original self)) = inr r
           /\ ok r = true
           /\ correos_pedidos (traza w')
              = correos_pedidos (traza w)
                  ++ [(mensaje r, strip (email_var self))]
           /\ Compra.usuario (compra_original self')
              = Some (Usuario.Build (strip (email_var self)) true))
  /\ (inserciones (traza w') = inserciones (traza w)
      \/ inserciones (traza w')
         = inserciones (traza w)
             ++ [(strip (email_var self), u "RegistroAutomático", [])]).
Proof.
  intros fin self' w'. unfold self', w', fin. clear fin self' w'.
  destruct (_validar_campos_casos self) as [[m Hv]|Hv].
  { rewrite (_procesar_pago_campos_invalidos_eq hoy entorno self w m Hv).
    cbn [fst snd]. split; [reflexivity|]. split; left; reflexivity. }
  destruct (procesar_casos hoy (compra_original self)) as (r & Hp & Hok & _).
  destruct (ok r) eqn:Hokr.
  2:{ rewrite (_procesar_pago_pedido_invalido_eq hoy entorno self w r _
                 Hv Hp Hokr).
      cbn [fst snd]. split; [reflexivity|]. split; left; reflexivity. }
  rewrite (_procesar_pago_valido hoy entorno self w r _ Hv Hp Hokr).
  pose proof (_procesar_pago_try_resumen entorno r (strip (email_var self))
                (text_resultado_delete
                   (set_compra_original (label_error_pago_configure self [])
                      (snd (Compra.es_valida hoy (compra_original self)))))
                w) as (Hco & Hin).
  destruct (_procesar_pago_try entorno r (strip (email_var self))
              (text_resultado_delete
                 (set_compra_original (label_error_pago_configure self [])
                    (snd (Compra.es_valida hoy (compra_original self)))))
              w) as [[e|[|mf]] [s2 w2]]; cbn [fst snd] in *.
  - split; [reflexivity|]. split; [|exact Hin].
    destruct Hco as [Hco|[Hco Hu]]; [left; exact Hco|].
    right. exists r. rewrite Hp. cbn [fst].
    split; [reflexivity|]. split; [exact Hokr|]. exact (conj Hco Hu).
  - split; [reflexivity|]. split; [|exact Hin].
    destruct Hco as [Hco|[Hco Hu]]; [left; exact Hco|].
    right. exists r. rewrite Hp. cbn [fst].
    split; [reflexivity|]. split; [exact Hokr|]. exact (conj Hco Hu).
  - split; [reflexivity|]. split; [|exact Hin].
    destruct Hco as [Hco|[Hco Hu]]; [left; exact Hco|].
    right. exists r. rewrite Hp. cbn [fst].
    split; [reflexivity|]. split; [exact Hokr|]. exact (conj Hco Hu).
Qed.

(** Card fields that do not validate stop [_procesar_pago] at once:
    the label shows the warning sign and the message of
    [_validar_campos], and nothing else changes, in the window or
    outside.  Card fields that validate clear the label and always end
    with the window destroyed. *)
Theorem _procesar_pago_campos (hoy : date) (entorno : Entorno)
    (self : VentanaPagoTarjeta.t) (w : Mundo) :
  (exists m,
     _validar_campos self = inr (false, m)
     /\ _procesar_pago hoy entorno self w
        = (inr tt, (label_error_pago_configure self (u "⚠️ " ++ m), w)))
  \/ (_validar_campos self = inr (true, [])
      /\ destruida (fst (snd (_procesar_pago hoy entorno self w))) = true
      /\ label_error_pago (fst (snd (_procesar_pago hoy entorno self w)))
         = []).
Proof.
  destruct (_validar_campos_casos self) as [[m Hv]|Hv].
  { left. exists m. split; [exact Hv|].
    exact (_procesar_pago_campos_invalidos_eq hoy entorno self w m Hv). }
  right. split; [exact Hv|].
  destruct (procesar_casos hoy (compra_original self)) as (r & Hp & Hok & _).
  destruct (ok r) eqn:Hokr.
  2:{ rewrite (_procesar_pago_pedido_invalido_eq hoy entorno self w r _
                 Hv Hp Hokr).
      split; reflexivity. }
  rewrite (_procesar_pago_valido hoy entorno self w r _ Hv Hp Hokr).
  destruct (crear_tabla_usuarios (bd w)) as [e|b] eqn:Hc.
  { rewrite (_procesar_pago_try_sin_tabla _ _ _ _ _ _ Hc).
    split; reflexivity. }
  destruct (Compra.usuario
              (compra_original
                 (text_resultado_delete
                    (set_compra_original (label_error_pago_configure self [])
                       (snd (Compra.es_valida hoy (compra_original self)))))))
    as [us|] eqn:Hus.
  2:{ rewrite (_procesar_pago_try_sin_usuario _ _ _ _ _ _ Hc Hus).
      split; reflexivity. }
  destruct (buscar_usuario_por_email (Usuario.email us) b) as [e|db_row]
    eqn:Hb.
  { rewrite (_procesar_pago_try_sin_busqueda _ _ _ _ _ _ _ _ Hc Hus Hb).
    split; reflexivity. }
  destruct (Usuario.registrado us
            && match db_row with Some _ => true | None => false end)
    eqn:Hcond.
  - apply andb_true_iff in Hcond. destruct Hcond as [Hreg Hrow].
    destruct db_row as [fila|]; [|discriminate Hrow].
    destruct (decide (strip (email_var self) = Usuario.email us))
      as [Heq|Hdif].
    + rewrite (_procesar_pago_try_coincide _ _ _ _ _ _ _ _
                 Hc Hus Hb Hreg Heq).
      split; reflexivity.
    + rewrite (_procesar_pago_try_no_coincide _ _ _ _ _ _ _ _
                 Hc Hus Hb Hreg Hdif).
      split; reflexivity.
  - destruct (insertar_o_ignorar_usuario (strip (email_var self))
                (u "RegistroAutomático") [] b) as [e|b2] eqn:Hi.
    + rewrite (_procesar_pago_try_insertar_falla _ _ _ _ _ _ _ _ _
                 Hc Hus Hb Hcond Hi).
      split; reflexivity.
    + rewrite (_procesar_pago_try_insertar _ _ _ _ _ _ _ _ _
                 Hc Hus Hb Hcond Hi).
      split; reflexivity.
Qed.

(** With card fields that validate and an order that [es_valida]
    rejects, [_procesar_pago] replaces the text of the main window by
    the error messages, joined by a space, and destroys the window: no
    collaborator is called (no table, no lookup, no row, no receipt). *)
Theorem _procesar_pago_pedido_invalido (hoy : date) (entorno : Entorno)
    (self : VentanaPagoTarjeta.t) (w : Mundo)
    (Hcampos : _validar_campos self = inr (true, []))
    (Hinv : fst (Compra.es_valida hoy (compra_original self)) = false) :
  let fin := _procesar_pago hoy entorno self w in
  let self' := fst (snd fin) in
  fst fin = inr tt
  /\ snd (snd fin) = w
  /\ text_resultado self'
     = join (u " ")
         (Compra.errores (snd (Compra.es_valida hoy (compra_original self))))
  /\ compra_original self' = snd (Compra.es_valida hoy (compra_original self))
  /\ destruida self' = true.
Proof.
  intros fin self'. unfold self', fin. clear fin self'.
  destruct (procesar_casos hoy (compra_original self)) as (r & Hp & Hok & Hm).
  rewrite Hinv in Hok.
  rewrite (_procesar_pago_pedido_invalido_eq hoy entorno self w r _
             Hcampos Hp Hok).
  cbn [fst snd]. rewrite text_resultado_tras_insertar, (Hm Hok).
  split; [reflexivity|]. split; [reflexivity|]. split; [reflexivity|].
  split; reflexivity.
Qed.

(** A requester who is absent or not registered never reaches the
    store: whatever the window holds, [_procesar_pago] calls no
    collaborator, so the branch that inserts a row never serves an
    unregistered requester, and the requester of the draft is left as
    it was. *)
Theorem _procesar_pago_no_registrado (hoy : date) (entorno : Entorno)
    (self : VentanaPagoTarjeta.t) (w : Mundo)
    (Hno : forall us, Compra.usuario (compra_original self) = Some us ->
                      Usuario.registrado us = false) :
  snd (snd (_procesar_pago hoy entorno self w)) = w
  /\ Compra.usuario
       (compra_original (fst (snd (_procesar_pago hoy entorno self w))))
     = Compra.usuario (compra_original self).
Proof.
  destruct (_validar_campos_casos self) as [[m Hv]|Hv].
  { rewrite (_procesar_pago_campos_invalidos_eq hoy entorno self w m Hv).
    split; reflexivity. }
  destruct (procesar_casos hoy (compra_original self)) as (r & Hp & Hok & _).
  assert (Hinv : fst (Compra.es_valida hoy (compra_original self)) = false).
  { destruct (fst (Compra.es_valida hoy (compra_original self))) eqn:Hval;
      [|reflexivity].
    apply es_valida_todo_ok in Hval.
    destruct Hval as ((us & Hus & Hreg) & _).
    rewrite (Hno us Hus) in Hreg. discriminate Hreg. }
  rewrite Hinv in Hok.
  rewrite (_procesar_pago_pedido_invalido_eq hoy entorno self w r _
             Hv Hp Hok).
  cbn [fst snd]. split; [reflexivity|].
  change (Compra.usuario (snd (Compra.es_valida hoy (compra_original self)))
          = Compra.usuario (compra_original self)).
  now rewrite es_valida_marco.
Qed.

(** The receipt.  With card fields that validate, an order that
    [es_valida] accepts, a store that still holds the requester and the
    requester's own email typed in the window, [_procesar_pago] asks
    for one receipt, with the confirmation text of [procesar], for that
    email; it inserts no row, leaves the store as [crear_tabla_usuarios]
    left it and the requester as it was, and ends with the window
    destroyed and one of two texts: the success text, or the text that
    reports the exception of the mailer. *)
Theorem _procesar_pago_recibo (hoy : date) (entorno : Entorno)
    (self : VentanaPagoTarjeta.t) (w : Mundo) (us : Usuario.t) (b : BD)
    (fila : Fila)
    (Hcampos : _validar_campos self = inr (true, []))
    (Hval : fst (Compra.es_valida hoy (compra_original self)) = true)
    (Hus : Compra.usuario (compra_original self) = Some us)
    (Hcrear : crear_tabla_usuarios (bd w) = inr b)
    (Hfila : buscar_usuario_por_email (Usuario.email us) b
             = inr (Some fila))
    (Heq : strip (email_var self) = Usuario.email us) :
  let fin := _procesar_pago hoy entorno self w in
  let self' := fst (snd fin) in
  let w' := snd (snd fin) in
  exists r,
    fst (Compra.procesar hoy (compra_original self)) = inr r
    /\ correos_pedidos (traza w')
       = correos_pedidos (traza w) ++ [(mensaje r, Usuario.email us)]
    /\ inserciones (traza w') = inserciones (traza w)
    /\ bd w' = b
    /\ Compra.usuario (compra_original self') = Some us
    /\ destruida self' = true
    /\ (text_resultado self'
        = u "✅ ¡Pago con tarjeta procesado con éxito!" ++ salto ++ salto
            ++ mensaje r ++ salto ++ salto
            ++ u "📧 Se envió un recibo a " ++ Usuario.email us ++ u "."
        \/ exists e,
             text_resultado self'
             = u "✅ Pago procesado, pero fallo el envío del email: "
                 ++ texto e).
Proof.
  intros fin self' w'. unfold self', w', fin. clear fin self' w'.
  destruct (procesar_casos hoy (compra_original self)) as (r & Hp & Hok & _).
  rewrite Hval in Hok. exists r. rewrite Hp at 1. cbn [fst].
  split; [reflexivity|].
  rewrite (_procesar_pago_valido hoy entorno self w r _ Hcampos Hp Hok).
  assert (Hreg : Usuario.registrado us = true).
  { apply (procesar_ok_registrado hoy (compra_original self) r us);
      [rewrite Hp; reflexivity | exact Hok | exact Hus]. }
  assert (Hu1 : Compra.usuario
                  (compra_original
                     (text_resultado_delete
                        (set_compra_original
                           (label_error_pago_configure self [])
                           (snd (Compra.es_valida hoy
                                   (compra_original self))))))
                = Some us).
  { change (Compra.usuario
              (snd (Compra.es_valida hoy (compra_original self)))
            = Some us).
    rewrite es_valida_marco. exact Hus. }
  rewrite (_procesar_pago_try_coincide _ _ _ _ _ _ _ _
             Hcrear Hu1 Hfila Hreg Heq).
  cbn [fst snd]. rewrite Heq.
  destruct (_procesar_pago_envio_efectos entorno r (Usuario.email us)
              (anotar (EvBuscarUsuario (Usuario.email us))
                 (con_bd b (anotar EvCrearTabla w))))
    as (Htxt & Hbd & Hco & Hin).
  rewrite Hco, Hin, Hbd, text_resultado_tras_insertar.
  cbn [anotar con_bd traza bd].
  rewrite !correos_pedidos_app, !inserciones_app.
  cbn [correos_pedidos inserciones]. rewrite !app_nil_r.
  split; [reflexivity|]. split; [reflexivity|].
  split; [reflexivity|]. split; [exact Hu1|]. split; [reflexivity|].
  exact Htxt.
Qed.

(** The automatic registration.  With card fields that validate and an
    order that [es_valida] accepts, a store that no longer holds the
    requester makes [_procesar_pago] insert the stripped email of the
    window, whatever it is, under the name [RegistroAutomático] with an
    empty hash.  When the insertion returns, the requester of the draft
    becomes that email, registered, and one receipt is asked for it;
    when it raises, the requester is left as it was, no receipt is
    asked and the text reports the exception. *)
Theorem _procesar_pago_registro_automatico (hoy : date) (entorno : Entorno)
    (self : VentanaPagoTarjeta.t) (w : Mundo) (us : Usuario.t) (b : BD)
    (Hcampos : _validar_campos self = inr (true, []))
    (Hval : fst (Compra.es_valida hoy (compra_original self)) = true)
    (Hus : Compra.usuario (compra_original self) = Some us)
    (Hcrear : crear_tabla_usuarios (bd w) = inr b)
    (Hnone : buscar_usuario_por_email (Usuario.email us) b = inr None) :
  let fin := _procesar_pago hoy entorno self w in
  let self' := fst (snd fin) in
  let w' := snd (snd fin) in
  inserciones (traza w')
  = inserciones (traza w)
      ++ [(strip (email_var self), u "RegistroAutomático", [])]
  /\ destruida self' = true
  /\ match insertar_o_ignorar_usuario (strip (email_var self))
             (u "RegistroAutomático") [] b with
     | inr b2 =>
       bd w' = b2
       /\ Compra.usuario (compra_original self')
          = Some (Usuario.Build (strip (email_var self)) true)
       /\ exists r,
            fst (Compra.procesar hoy (compra_original self)) = inr r
            /\ correos_pedidos (traza w')
               = correos_pedidos (traza w)
                   ++ [(mensaje r, strip (email_var self))]
     | inl e =>
       bd w' = b
       /\ Compra.usuario (compra_original self') = Some us
       /\ correos_pedidos (traza w') = correos_pedidos (traza w)
       /\ text_resultado self'
          = u "❌ Error al verificar/registrar email: " ++ texto e
     end.
Proof.
  intros fin self' w'. unfold self', w', fin. clear fin self' w'.
  destruct (procesar_casos hoy (compra_original self)) as (r & Hp & Hok & _).
  rewrite Hval in Hok.
  rewrite (_procesar_pago_valido hoy entorno self w r _ Hcampos Hp Hok).
  assert (Hu1 : Compra.usuario
                  (compra_original
                     (text_resultado_delete
                        (set_compra_original
                           (label_error_pago_configure self [])
                           (snd (Compra.es_valida hoy
                                   (compra_original self))))))
                = Some us).
  { change (Compra.usuario
              (snd (Compra.es_valida hoy (compra_original self)))
            = Some us).
    rewrite es_valida_marco. exact Hus. }
  assert (Hcond : Usuario.registrado us
                  && match @None Fila with
                     | Some _ => true
                     | None => false
                     end = false) by apply andb_false_r.
  destruct (insertar_o_ignorar_usuario (strip (email_var self))
              (u "RegistroAutomático") [] b) as [e|b2] eqn:Hi.
  - rewrite (_procesar_pago_try_insertar_falla _ _ _ _ _ _ _ _ _
               Hcrear Hu1 Hnone Hcond Hi).
    cbn [fst snd]. rewrite text_resultado_tras_insertar.
    cbn [anotar con_bd traza bd].
    rewrite !correos_pedidos_app, !inserciones_app.
    cbn [correos_pedidos inserciones]. rewrite !app_nil_r.
    split; [reflexivity|]. split; [reflexivity|]. split; [reflexivity|].
    split; [exact Hu1|]. split; reflexivity.
  - rewrite (_procesar_pago_try_insertar _ _ _ _ _ _ _ _ _
               Hcrear Hu1 Hnone Hcond Hi).
    cbn [fst snd].
    destruct (_procesar_pago_envio_efectos entorno r
                (strip (email_var self))
                (con_bd b2
                   (anotar (EvInsertarUsuario (strip (email_var self))
                              (u "RegistroAutomático") [])
                      (anotar (EvBuscarUsuario (Usuario.email us))
                         (con_bd b (anotar EvCrearTabla w))))))
      as (_ & Hbd & Hco & Hin).
    rewrite Hco, Hin, Hbd. cbn [anotar con_bd traza bd].
    rewrite !correos_pedidos_app, !inserciones_app.
    cbn [correos_pedidos inserciones]. rewrite !app_nil_r.
    split; [reflexivity|]. split; [reflexivity|]. split; [reflexivity|].
    split; [reflexivity|]. exists r. rewrite Hp.
    split; reflexivity.
Qed.

Lemma contactos_smtp_app t1 t2 :
  contactos_smtp (t1 ++ t2) = contactos_smtp t1 ++ contactos_smtp t2.
Proof.
  induction t1 as [|e t1 IH]; [reflexivity|].
  destruct e; cbn [app contactos_smtp]; now rewrite IH.
Qed.

(** [_enviar_correo_confirmacion] returns [True] or raises, never
    [False], and leaves the store alone.  Unless both credentials are
    set and not empty the transport is not contacted; once they are,
    [SIMULATE_EMAIL] is not looked at, so simulation cannot be asked for
    with the credentials in place. *)
Theorem _enviar_correo_confirmacion_credenciales (entorno : Entorno)
    (cuerpo_mensaje destinatario_email : str) (w : Mundo) :
  let fin :=
    _enviar_correo_confirmacion entorno cuerpo_mensaje destinatario_email w
  in
  fst fin <> inr false
  /\ bd (snd fin) = bd w
  /\ (no_vacio (EMAIL_EMISOR entorno) && no_vacio (PASSWORD_EMISOR entorno)
      = false ->
      contactos_smtp (traza (snd fin)) = contactos_smtp (traza w))
  /\ (no_vacio (EMAIL_EMISOR entorno) && no_vacio (PASSWORD_EMISOR entorno)
      = true ->
      forall simulate_email,
        _enviar_correo_confirmacion
          {| EMAIL_EMISOR := EMAIL_EMISOR entorno;
             PASSWORD_EMISOR := PASSWORD_EMISOR entorno;
             SIMULATE_EMAIL := simulate_email |}
          cuerpo_mensaje destinatario_email w
        = fin).
Proof.
  intros fin. unfold fin. clear fin.
  destruct (_enviar_correo_confirmacion_efectos entorno cuerpo_mensaje
              destinatario_email w) as (Hf & Hb & _).
  split; [exact Hf|]. split; [exact Hb|].
  unfold _enviar_correo_confirmacion.
  cbn [EMAIL_EMISOR PASSWORD_EMISOR SIMULATE_EMAIL].
  destruct (componer_mensaje _ _ _ _).
  { cbn [snd anotar traza]. rewrite !contactos_smtp_app.
    cbn [contactos_smtp]. rewrite !app_nil_r.
    split; [intros _; reflexivity | intros _ s; reflexivity]. }
  destruct (no_vacio (EMAIL_EMISOR entorno)),
    (no_vacio (PASSWORD_EMISOR entorno)); cbn [negb orb andb].
  - split; [intros Hx; discriminate Hx | intros _ s; reflexivity].
  - split; [intros _ | intros Hx; discriminate Hx].
    destruct (bool_decide _); cbn [snd anotar traza];
      rewrite !contactos_smtp_app; cbn [contactos_smtp];
      rewrite !app_nil_r; reflexivity.
  - split; [intros _ | intros Hx; discriminate Hx].
    destruct (bool_decide _); cbn [snd anotar traza];
      rewrite !contactos_smtp_app; cbn [contactos_smtp];
      rewrite !app_nil_r; reflexivity.
  - split; [intros _ | intros Hx; discriminate Hx].
    destruct (bool_decide _); cbn [snd anotar traza];
      rewrite !contactos_smtp_app; cbn [contactos_smtp];
      rewrite !app_nil_r; reflexivity.
Qed.

End PagoTarjetaCaminos.

Lemma _procesar_pago_pedido_invalido_testigo :
  VentanaPagoTarjeta._validar_campos
    (Ejemplos.ventana Ejemplos.compra_invalida (u "ana@example.com"))
  = inr (true, [])
  /\ fst (Compra.es_valida Ejemplos.hoy Ejemplos.compra_invalida) = false
  /\ snd (snd (VentanaPagoTarjeta._procesar_pago Ejemplos.hoy
                 Ejemplos.sin_credenciales
                 (Ejemplos.ventana Ejemplos.compra_invalida
                    (u "ana@example.com"))
                 Ejemplos.mundo_ana))
     = Ejemplos.mundo_ana.
Proof.
  assert (Hcampos : VentanaPagoTarjeta._validar_campos
                      (Ejemplos.ventana Ejemplos.compra_invalida
                         (u "ana@example.com")) = inr (true, []))
    by (vm_compute; reflexivity).
  assert (Hinv : fst (Compra.es_valida Ejemplos.hoy Ejemplos.compra_invalida)
                 = false)
    by (vm_compute; reflexivity).
  split; [exact Hcampos|]. split; [exact Hinv|].
  exact (proj1 (proj2 (_procesar_pago_pedido_invalido Ejemplos.hoy
                         Ejemplos.sin_credenciales
                         (Ejemplos.ventana Ejemplos.compra_invalida
                            (u "ana@example.com"))
                         Ejemplos.mundo_ana Hcampos Hinv))).
Defined.

Lemma _procesar_pago_no_registrado_testigo :
  snd (snd (VentanaPagoTarjeta._procesar_pago Ejemplos.hoy
              Ejemplos.sin_credenciales
              (Ejemplos.ventana Ejemplos.compra_no_registrado
                 (u "luis@example.com"))
              (Ejemplos.mundo [])))
  = Ejemplos.mundo []
  /\ Compra.usuario
       (VentanaPagoTarjeta.compra_original
          (fst (snd (VentanaPagoTarjeta._procesar_pago Ejemplos.hoy
                       Ejemplos.sin_credenciales
                       (Ejemplos.ventana Ejemplos.compra_no_registrado
                          (u "luis@example.com"))
                       (Ejemplos.mundo [])))))
     = Some Ejemplos.luis.
Proof.
  apply (_procesar_pago_no_registrado Ejemplos.hoy Ejemplos.sin_credenciales
           (Ejemplos.ventana Ejemplos.compra_no_registrado
              (u "luis@example.com"))
           (Ejemplos.mundo [])).
  intros us Hus.
  change (Some Ejemplos.luis = Some us) in Hus.
  apply (inj Some) in Hus. subst us. reflexivity.
Defined.

Lemma _procesar_pago_recibo_testigo :
  VentanaPagoTarjeta._validar_campos Ejemplos.ventana_ana = inr (true, [])
  /\ strip (VentanaPagoTarjeta.email_var Ejemplos.ventana_ana)
     = Usuario.email Ejemplos.ana
  /\ exists r,
       fst (Compra.procesar Ejemplos.hoy Ejemplos.compra_tarjeta) = inr r
       /\ correos_pedidos
            (traza (snd (snd (VentanaPagoTarjeta._procesar_pago Ejemplos.hoy
                                Ejemplos.sin_credenciales
                                Ejemplos.ventana_ana Ejemplos.mundo_ana))))
          = [(mensaje r, Usuario.email Ejemplos.ana)]
       /\ inserciones
            (traza (snd (snd (VentanaPagoTarjeta._procesar_pago Ejemplos.hoy
                                Ejemplos.sin_credenciales
                                Ejemplos.ventana_ana Ejemplos.mundo_ana))))
          = [].
Proof.
  assert (Hcampos : VentanaPagoTarjeta._validar_campos Ejemplos.ventana_ana
                    = inr (true, []))
    by (vm_compute; reflexivity).
  assert (Hval : fst (Compra.es_valida Ejemplos.hoy
                        (VentanaPagoTarjeta.compra_original
                           Ejemplos.ventana_ana)) = true)
    by (vm_compute; reflexivity).
  assert (Hfila : buscar_usuario_por_email (Usuario.email Ejemplos.ana)
                    (bd Ejemplos.mundo_ana)
                  = inr (Some (u "ana@example.com")))
    by (vm_compute; reflexivity).
  assert (Heq : strip (VentanaPagoTarjeta.email_var Ejemplos.ventana_ana)
                = Usuario.email Ejemplos.ana)
    by (vm_compute; reflexivity).
  split; [exact Hcampos|]. split; [exact Heq|].
  destruct (_procesar_pago_recibo Ejemplos.hoy Ejemplos.sin_credenciales
              Ejemplos.ventana_ana Ejemplos.mundo_ana Ejemplos.ana
              (bd Ejemplos.mundo_ana) (u "ana@example.com")
              Hcampos Hval eq_refl eq_refl Hfila Heq)
    as (r & Hr & Hco & Hin & _).
  exists r. split; [exact Hr|]. split; [exact Hco | exact Hin].
Defined.

Lemma _procesar_pago_registro_automatico_testigo :
  VentanaPagoTarjeta._validar_campos Ejemplos.ventana_ana = inr (true, [])
  /\ buscar_usuario_por_email (Usuario.email Ejemplos.ana)
       (bd (Ejemplos.mundo []))
     = inr None
  /\ inserciones
       (traza (snd (snd (VentanaPagoTarjeta._procesar_pago Ejemplos.hoy
                           Ejemplos.sin_credenciales Ejemplos.ventana_ana
                           (Ejemplos.mundo [])))))
     = [(strip (VentanaPagoTarjeta.email_var Ejemplos.ventana_ana),
         u "RegistroAutomático", [])].
Proof.
  assert (Hcampos : VentanaPagoTarjeta._validar_campos Ejemplos.ventana_ana
                    = inr (true, []))
    by (vm_compute; reflexivity).
  assert (Hval : fst (Compra.es_valida Ejemplos.hoy
                        (VentanaPagoTarjeta.compra_original
                           Ejemplos.ventana_ana)) = true)
    by (vm_compute; reflexivity).
  assert (Hnone : buscar_usuario_por_email (Usuario.email Ejemplos.ana)
                    (bd (Ejemplos.mundo []))
                  = inr None)
    by (vm_compute; reflexivity).
  split; [exact Hcampos|]. split; [exact Hnone|].
  exact (proj1 (_procesar_pago_registro_automatico Ejemplos.hoy
                  Ejemplos.sin_credenciales Ejemplos.ventana_ana
                  (Ejemplos.mundo []) Ejemplos.ana (bd (Ejemplos.mundo []))
                  Hcampos Hval eq_refl eq_refl Hnone)).
Defined.

(** ** The forms *)

Section Enteros.
Context `{Unicode}.

Lemma int_de_ascii_ValueError (b : list N) e :
  int_de_ascii b = inl e -> clase e = ValueError.
Proof.
  unfold int_de_ascii, lanzar, devolver, literal_invalido.
  destruct (leer_signo (quitar_mientras espacio_c b)) as [signo b'].
  destruct (match b' with c :: _ => (c =? 95)%N | [] => false end).
  { intros Hx. apply (inj inl) in Hx. subst e. reflexivity. }
  destruct (leer_digitos false 0 0 b') as [[[z digitos] resto]|].
  2:{ intros Hx. apply (inj inl) in Hx. subst e. reflexivity. }
  destruct (match limite_digitos with
            | Some n => Nat.ltb n digitos
            | None => false
            end).
  { intros Hx. apply (inj inl) in Hx. subst e. reflexivity. }
  destruct digitos.
  { intros Hx. apply (inj inl) in Hx. subst e. reflexivity. }
  destruct (quitar_mientras espacio_c resto).
  - intros Hx. discriminate Hx.
  - intros Hx. apply (inj inl) in Hx. subst e. reflexivity.
Qed.

Lemma int_de_str_ValueError (s : str) e :
  int_de_str s = inl e -> clase e = ValueError.
Proof. apply int_de_ascii_ValueError. Qed.

Lemma leer_digitos_ascii (s : list N) (acc : Z) (n : nat) :
  forallb ascii_digito s = true ->
  leer_digitos false acc n s
  = Some (fold_left (fun acc c => acc * 10 + (Z.of_N c - 48)) s acc,
          (n + length s)%nat, []).
Proof.
  revert acc n. induction s as [|c r IH]; intros acc n Hd.
  - cbn [leer_digitos fold_left length]. now rewrite Nat.add_0_r.
  - cbn [forallb] in Hd. apply andb_true_iff in Hd. destruct Hd as [Hc Hr].
    cbn [leer_digitos fold_left length]. unfold digito_c. rewrite Hc.
    assert (H95 : (c =? 95)%N = false).
    { unfold ascii_digito in Hc. apply N.eqb_neq. intros ->.
      vm_compute in Hc. discriminate Hc. }
    rewrite H95, (IH _ _ Hr). f_equal. f_equal. f_equal. lia.
Qed.

(** [int] on a run of ASCII digits. *)
Lemma int_de_str_digitos (Hlim : limite_conforme) (s : str) :
  s <> [] -> forallb ascii_digito s = true -> (length s <= 640)%nat ->
  int_de_str s = inr (valor_ascii s).
Proof.
  intros Hne Hd Hlen. unfold int_de_str, transformar.
  assert (Hascii : forallb (fun c => (c <? 128)%N) s = true).
  { apply forallb_forall. intros c Hc.
    pose proof (proj1 (forallb_forall _ _) Hd c Hc) as Hx.
    unfold ascii_digito in Hx. apply andb_true_iff in Hx.
    destruct Hx as [_ Hx]. apply N.leb_le in Hx. apply N.ltb_lt. lia. }
  rewrite Hascii. unfold int_de_ascii.
  destruct s as [|c r]; [now destruct Hne|].
  pose proof Hd as Hd'. cbn [forallb] in Hd'.
  apply andb_true_iff in Hd'. destruct Hd' as [Hc _].
  assert (Hrango : (48 <= c <= 57)%N).
  { unfold ascii_digito in Hc. apply andb_true_iff in Hc.
    destruct Hc as [Ha Hb]. apply N.leb_le in Ha, Hb. lia. }
  assert (He : espacio_c c = false).
  { unfold espacio_c.
    destruct (N.leb_spec 9 c), (N.leb_spec c 13), (N.eqb_spec c 32);
      cbn [andb orb]; trivial; lia. }
  cbn [quitar_mientras]. rewrite He. unfold leer_signo.
  destruct (N.eqb_spec c 43); [lia|]. destruct (N.eqb_spec c 45); [lia|].
  destruct (N.eqb_spec c 95); [lia|].
  rewrite (leer_digitos_ascii _ _ _ Hd).
  assert (Hl : match limite_digitos with
               | Some n => Nat.ltb n (0 + length (c :: r))
               | None => false
               end = false).
  { unfold limite_conforme in Hlim. destruct limite_digitos as [lim|]; trivial.
    apply Nat.ltb_ge. cbn [Nat.add]. lia. }
  rewrite Hl. cbn [Nat.add length quitar_mientras].
  unfold valor_ascii, devolver. f_equal. lia.
Qed.

Lemma str_de_int_digitos (n : Z) :
  0 <= n <= 99 ->
  str_de_int n <> []
  /\ forallb ascii_digito (str_de_int n) = true
  /\ (length (str_de_int n) <= 640)%nat
  /\ valor_ascii (str_de_int n) = n.
Proof.
  intros Hn.
  assert (Hall : forallb
                   (fun k =>
                      let s := str_de_int (Z.of_nat k) in
                      negb (Nat.eqb (length s) 0) && forallb ascii_digito s
                      && Nat.leb (length s) 2
                      && (valor_ascii s =? Z.of_nat k))
                   (seq 0 100) = true)
    by (vm_compute; reflexivity).
  pose proof (proj1 (forallb_forall _ _) Hall (Z.to_nat n)) as Hk.
  cbv beta zeta in Hk. rewrite Z2Nat.id in Hk by lia.
  assert (Hin : In (Z.to_nat n) (seq 0 100)) by (apply in_seq; lia).
  apply Hk in Hin. clear Hk Hall.
  apply andb_true_iff in Hin. destruct Hin as [Hin Hv].
  apply andb_true_iff in Hin. destruct Hin as [Hin Hl].
  apply andb_true_iff in Hin. destruct Hin as [Hne Hd].
  apply Nat.leb_le in Hl. apply Z.eqb_eq in Hv.
  split; [|split; [exact Hd | split; [lia | exact Hv]]].
  intros Hx. rewrite Hx in Hne. discriminate Hne.
Qed.

(** [int(str(n))] is [n], here for the numbers that the forms write. *)
Lemma int_de_str_de_int (Hlim : limite_conforme) (n : Z) :
  0 <= n <= 99 -> int_de_str (str_de_int n) = inr n.
Proof.
  intros Hn. destruct (str_de_int_digitos n Hn) as (Hne & Hd & Hl & Hv).
  rewrite (int_de_str_digitos Hlim _ Hne Hd Hl). now rewrite Hv.
Qed.

(** Short texts are not refused. *)
Lemma str_con_limite_corto (z : Z) :
  Nat.leb (length (str_de_int z)) 640 = true ->
  str_con_limite z = inr (str_de_int z).
Proof.
  intros Hl. unfold str_con_limite.
  assert (Hn : Nat.ltb 640 (length (str_de_int z)) = false).
  { apply Nat.ltb_ge. now apply Nat.leb_le. }
  rewrite Hn. reflexivity.
Qed.

Lemma quitar_mientras_Forall {A} (p : A -> bool) (P : A -> Prop) l :
  Forall P l -> Forall P (quitar_mientras p l).
Proof.
  induction 1 as [|x l Hx Hl IH]; cbn [quitar_mientras].
  - constructor.
  - destruct (p x); [exact IH | now constructor].
Qed.

Lemma quitar_mientras_nil {A} (p : A -> bool) l :
  quitar_mientras p l = [] <-> Forall (fun x => p x = true) l.
Proof.
  induction l as [|x l IH]; cbn [quitar_mientras].
  - split; [constructor | reflexivity].
  - destruct (p x) eqn:Hp.
    + rewrite IH. split; [now constructor | now inversion 1].
    + split; [discriminate|]. inversion 1; subst. congruence.
Qed.

Lemma quitar_mientras_cabeza {A} (p : A -> bool) l x r :
  quitar_mientras p l = x :: r -> p x = false.
Proof.
  induction l as [|y l IH]; cbn [quitar_mientras]; [discriminate|].
  destruct (p y) eqn:Hp; [exact IH|]. now intros [= <- _].
Qed.

Lemma strip_nil (var : str) : strip var = [] <-> en_blanco var.
Proof.
  unfold strip, lstrip, en_blanco. split.
  - intros Hs. apply (f_equal (@rev N)) in Hs. rewrite rev_involutive in Hs.
    cbn [rev] in Hs. apply quitar_mientras_nil in Hs.
    apply Forall_rev in Hs. rewrite rev_involutive in Hs.
    destruct (quitar_mientras es_espacio var) as [|c r] eqn:Hq.
    + now apply quitar_mientras_nil in Hq.
    + apply quitar_mientras_cabeza in Hq. inversion Hs; subst. congruence.
  - intros Hb. rewrite (proj2 (quitar_mientras_nil _ _) Hb). reflexivity.
Qed.

Lemma ascii_espacio_cotas (c : N) :
  ascii_espacio c = true -> (9 <= c <= 32)%N.
Proof.
  unfold ascii_espacio. intros Hc. apply orb_true_iff in Hc.
  destruct Hc as [Hc|Hc]; apply andb_true_iff in Hc; destruct Hc as [Ha Hb];
    apply N.leb_le in Ha, Hb; lia.
Qed.

Lemma int_de_ascii_blancos (b : list N) :
  Forall (fun c => ascii_espacio c = true) b ->
  exists e, int_de_ascii b = inl e.
Proof.
  intros Hb. unfold int_de_ascii.
  apply (quitar_mientras_Forall espacio_c) in Hb.
  destruct (quitar_mientras espacio_c b) as [|c r].
  - cbn [leer_signo leer_digitos].
    destruct limite_digitos as [lim|]; cbn [Nat.ltb Nat.leb];
      eexists; reflexivity.
  - inversion Hb as [|? ? Hc _]; subst.
    apply ascii_espacio_cotas in Hc. unfold leer_signo.
    destruct (N.eqb_spec c 43); [lia|]. destruct (N.eqb_spec c 45); [lia|].
    destruct (N.eqb_spec c 95) as [|H95]; [lia|].
    cbn [leer_digitos]. destruct (N.eqb_spec c 95); [lia|].
    assert (Hd : digito_c c = None).
    { unfold digito_c, ascii_digito.
      destruct (N.leb_spec 48 c); [lia | reflexivity]. }
    rewrite Hd.
    destruct limite_digitos as [lim|]; cbn [Nat.ltb Nat.leb];
      eexists; reflexivity.
Qed.

Lemma transformar_blancos (Hascii : conforme_ascii) (var : str) :
  en_blanco var -> Forall (fun c => ascii_espacio c = true) (transformar var).
Proof.
  unfold en_blanco, transformar. intros Hb.
  destruct (forallb (fun c => (c <? 128)%N) var) eqn:Ha.
  - apply List.Forall_forall. intros c Hc.
    pose proof (proj1 (forallb_forall _ _) Ha c Hc) as Hlt.
    apply N.ltb_lt in Hlt.
    destruct (Hascii c Hlt) as (_ & _ & _ & He). rewrite <- He.
    exact (proj1 (List.Forall_forall _ _) Hb c Hc).
  - clear Ha. induction Hb as [|c r Hc Hr IH]; cbn [a_ascii].
    + constructor.
    + destruct (N.ltb_spec c 127) as [Hlt|Hge].
      * constructor; [|exact IH].
        assert (Hlt' : (c < 128)%N) by lia.
        destruct (Hascii c Hlt') as (_ & _ & _ & He). now rewrite <- He.
      * rewrite Hc. constructor; [reflexivity | exact IH].
Qed.

Lemma int_de_str_en_blanco (Hascii : conforme_ascii) (var : str) :
  en_blanco var -> exists e, int_de_str var = inl e.
Proof.
  intros Hb. apply int_de_ascii_blancos, (transformar_blancos Hascii), Hb.
Qed.

End Enteros.

Section FormularioCompra.
Import ConfiguracionParque.
Import Especificacion.
Context `{Unicode} `{Colaboradores} `{Mensajes}.
Import ComprarEntradasUI.

Lemma leer_edades_ValueError (vars : list str) (acc : list Z) e :
  leer_edades vars acc = inl e -> clase e = ValueError.
Proof.
  revert acc. induction vars as [|var r IH]; intros acc; cbn [leer_edades].
  - intros Hx. discriminate Hx.
  - unfold ligar. destruct (int_de_str var) as [e'|edad] eqn:Hi.
    + intros Hx. apply (inj inl) in Hx. subst e'.
      exact (int_de_str_ValueError _ _ Hi).
    + destruct (edad <? 1).
      * intros Hx. apply (inj inl) in Hx. subst e. reflexivity.
      * apply IH.
Qed.

Lemma leer_edades_aceptables (vars : list str) (acc : list Z) :
  (exists edades, leer_edades vars acc = inr edades)
  <-> Forall edad_aceptable vars.
Proof.
  revert acc. induction vars as [|var r IH]; intros acc; cbn [leer_edades].
  - split; [constructor | intros _; eexists; reflexivity].
  - unfold ligar, edad_aceptable.
    destruct (int_de_str var) as [e'|edad] eqn:Hi.
    + split.
      * intros [edades Hx]. discriminate Hx.
      * intros Hf. apply List.Forall_inv in Hf. destruct Hf as [z [Hz _]].
        rewrite Hi in Hz. discriminate Hz.
    + destruct (Z.ltb_spec edad 1) as [Hlt|Hge].
      * split.
        -- intros [edades Hx]. discriminate Hx.
        -- intros Hf. apply List.Forall_inv in Hf.
           destruct Hf as [z [Hz Hz1]]. rewrite Hi in Hz.
           apply (inj inr) in Hz. lia.
      * rewrite IH. split.
        -- intros Hr. constructor; [|exact Hr]. exists edad. split; trivial.
        -- apply List.Forall_inv_tail.
Qed.

Lemma leer_edades_resultado (vars : list str) (acc edades : list Z) :
  leer_edades vars acc = inr edades ->
  exists nuevas,
    edades = acc ++ nuevas
    /\ length nuevas = length vars
    /\ Forall (fun edad => 1 <= edad) nuevas.
Proof.
  revert acc. induction vars as [|var r IH]; intros acc; cbn [leer_edades].
  - intros Hx. apply (inj inr) in Hx. subst edades. exists [].
    split; [now rewrite app_nil_r | split; [reflexivity | constructor]].
  - unfold ligar. destruct (int_de_str var) as [e'|edad]; [discriminate|].
    destruct (Z.ltb_spec edad 1) as [Hlt|Hge]; [discriminate|].
    intros Hr. destruct (IH _ Hr) as (nuevas & -> & Hlen & Hall).
    exists (edad :: nuevas). rewrite <- app_assoc.
    split; [reflexivity|]. split; [cbn [length]; now rewrite Hlen|].
    now constructor.
Qed.

Lemma msg_edad_no_vacios : msg_edad_minima <> [] /\ msg_edad_no_valida <> [].
Proof. split; intros Hx; vm_compute in Hx; discriminate Hx. Qed.

(** The age fields.  The label of a row stays empty, as
    [validar_edad] leaves it, exactly when the field is blank or holds
    an integer that is 1 or more; [realizar_compra] reads the ages
    through exactly when every field holds an integer that is 1 or
    more.  A blank field is not one of these: it shows no warning in
    its row and still stops the purchase. *)
Theorem validar_edad_y_leer_edades (Hascii : conforme_ascii) :
  (forall var, validar_edad var = [] <-> en_blanco var \/ edad_aceptable var)
  /\ (forall var, en_blanco var -> ~ edad_aceptable var)
  /\ (forall vars,
        (exists edades, leer_edades vars [] = inr edades)
        <-> Forall edad_aceptable vars).
Proof.
  assert (Hblanco : forall var, en_blanco var -> ~ edad_aceptable var).
  { intros var Hb [z [Hz _]].
    destruct (int_de_str_en_blanco Hascii var Hb) as [e He].
    rewrite He in Hz. discriminate Hz. }
  destruct msg_edad_no_vacios as [Hm1 Hm2].
  split; [|split; [exact Hblanco | intros vars; apply leer_edades_aceptables]].
  intros var. unfold validar_edad.
  destruct (int_de_str var) as [e|valor] eqn:Hi.
  - destruct (bool_decide (strip var = [])) eqn:Hs; cbn [negb].
    + apply bool_decide_eq_true in Hs. apply strip_nil in Hs.
      split; [intros _; left; exact Hs | reflexivity].
    + apply bool_decide_eq_false in Hs. split.
      * intros Hx. destruct (Hm2 Hx).
      * intros [Hb|[z [Hz _]]].
        -- destruct Hs. now apply strip_nil.
        -- rewrite Hi in Hz. discriminate Hz.
  - destruct (Z.ltb_spec valor 1) as [Hlt|Hge].
    + split.
      * intros Hx. destruct (Hm1 Hx).
      * intros [Hb|[z [Hz Hz1]]].
        -- destruct (int_de_str_en_blanco Hascii var Hb) as [e He].
           rewrite He in Hi. discriminate Hi.
        -- rewrite Hi in Hz. apply (inj inr) in Hz. lia.
    + split; [|reflexivity]. intros _. right. exists valor. split; trivial.
Qed.

Lemma a_int_c_casos (z : Z) :
  if cabe_en_int z then a_int_c z = inr z
  else exists e,
         a_int_c z = inl e /\ clase e = OtraExcepcion (u "OverflowError").
Proof.
  unfold cabe_en_int, a_int_c.
  destruct (Z.ltb_spec z INT_MIN) as [Hlt|Hge].
  - destruct (Z.leb_spec INT_MIN z); [lia|]. cbn [andb].
    eexists. split; reflexivity.
  - destruct (Z.leb_spec INT_MIN z); [|lia]. cbn [andb].
    destruct (Z.ltb_spec INT_MAX z) as [Hlt|Hge'].
    + destruct (Z.leb_spec z INT_MAX); [lia|].
      eexists. split; reflexivity.
    + destruct (Z.leb_spec z INT_MAX); [|lia]. reflexivity.
Qed.

(** [date(y, m, d)]: an argument that does not fit in the [int] of C
    raises [OverflowError]; arguments that fit give the date when the
    day is in the calendar, and raise [ValueError] when it is not. *)
Lemma date_nuevo_casos (y m d : Z) :
  if negb (cabe_en_int y && cabe_en_int m && cabe_en_int d) then
    exists e,
      date_nuevo y m d = inl e /\ clase e = OtraExcepcion (u "OverflowError")
  else if fecha_existe y m d then date_nuevo y m d = inr (Date y m d)
  else exists e, date_nuevo y m d = inl e /\ clase e = ValueError.
Proof.
  unfold date_nuevo, ligar.
  pose proof (a_int_c_casos y) as Hy. pose proof (a_int_c_casos m) as Hm.
  pose proof (a_int_c_casos d) as Hd.
  destruct (cabe_en_int y); cbn [andb negb].
  2:{ destruct Hy as (e & -> & He). exists e. split; [reflexivity|exact He]. }
  rewrite Hy.
  destruct (cabe_en_int m); cbn [andb negb].
  2:{ destruct Hm as (e & -> & He). exists e. split; [reflexivity|exact He]. }
  rewrite Hm.
  destruct (cabe_en_int d); cbn [andb negb].
  2:{ destruct Hd as (e & -> & He). exists e. split; [reflexivity|exact He]. }
  rewrite Hd. unfold fecha_existe.
  destruct ((1 <=? y) && (y <=? 9999)); cbn [andb negb].
  2:{ eexists. split; reflexivity. }
  destruct (1 <=? m); cbn [andb negb].
  2:{ eexists. split; reflexivity. }
  destruct (m <=? 12); cbn [andb negb].
  2:{ eexists. split; reflexivity. }
  destruct (1 <=? d); cbn [andb negb].
  2:{ eexists. split; reflexivity. }
  destruct (d <=? _days_in_month y m); cbn [andb negb].
  2:{ eexists. split; reflexivity. }
  reflexivity.
Qed.

Lemma set_text_resultado_insert self (m : str) :
  text_resultado_insert (text_resultado_delete self) m
  = set_text_resultado self m.
Proof. reflexivity. Qed.

Lemma realizar_compra_sin_datos hoy entorno self (w : Mundo) e :
  leer_fecha_y_cantidad self = inl e ->
  realizar_compra hoy entorno self w
  = if es_ValueError e
    then (inr tt, (set_text_resultado self msg_datos_invalidos, w))
    else (inl e, (set_text_resultado self [], w)).
Proof.
  intros He. unfold realizar_compra.
  change (leer_fecha_y_cantidad (text_resultado_delete self))
    with (leer_fecha_y_cantidad self).
  rewrite He. destruct (es_ValueError e); reflexivity.
Qed.

Lemma realizar_compra_sin_edades hoy entorno self (w : Mundo) fecha cantidad
    e :
  leer_fecha_y_cantidad self = inr (fecha, cantidad) ->
  leer_edades (edades_inputs self) [] = inl e ->
  realizar_compra hoy entorno self w
  = (inr tt, (set_text_resultado self msg_edades_mayores, w)).
Proof.
  intros Hf He. unfold realizar_compra.
  change (leer_fecha_y_cantidad (text_resultado_delete self))
    with (leer_fecha_y_cantidad self).
  rewrite Hf.
  change (edades_inputs (text_resultado_delete self))
    with (edades_inputs self).
  rewrite He. unfold es_ValueError.
  rewrite (leer_edades_ValueError _ _ _ He). reflexivity.
Qed.

Lemma realizar_compra_rechazada hoy entorno self (w : Mundo) fecha cantidad
    edades r c' :
  leer_fecha_y_cantidad self = inr (fecha, cantidad) ->
  leer_edades (edades_inputs self) [] = inr edades ->
  Compra.procesar hoy
    (Compra.__init__ (Some (usuario_logueado self)) fecha cantidad edades
       (tipo_pase self) (forma_pago self)) = (inr r, c') ->
  ok r = false ->
  realizar_compra hoy entorno self w
  = (inr tt, (set_text_resultado self (mensaje r), w)).
Proof.
  intros Hf He Hp Hok. unfold realizar_compra.
  change (leer_fecha_y_cantidad (text_resultado_delete self))
    with (leer_fecha_y_cantidad self).
  rewrite Hf.
  change (edades_inputs (text_resultado_delete self))
    with (edades_inputs self).
  rewrite He.
  change (usuario_logueado (text_resultado_delete self))
    with (usuario_logueado self).
  change (tipo_pase (text_resultado_delete self)) with (tipo_pase self).
  change (forma_pago (text_resultado_delete self)) with (forma_pago self).
  rewrite Hp, Hok. reflexivity.
Qed.

Lemma realizar_compra_aceptada hoy entorno self (w : Mundo) fecha cantidad
    edades r c' :
  leer_fecha_y_cantidad self = inr (fecha, cantidad) ->
  leer_edades (edades_inputs self) [] = inr edades ->
  Compra.procesar hoy
    (Compra.__init__ (Some (usuario_logueado self)) fecha cantidad edades
       (tipo_pase self) (forma_pago self)) = (inr r, c') ->
  ok r = true ->
  realizar_compra hoy entorno self w
  = (inr tt,
     (set_text_resultado self
        (mensaje r ++ salto ++ salto
           ++ match fst (enviar_correo_confirmacion entorno
                           (Usuario.email (usuario_logueado self))
                           (mensaje r) w) with
              | inr true =>
                u "📧 Se envió un recibo a "
                  ++ Usuario.email (usuario_logueado self) ++ u "."
              | inr false =>
                u "⚠️ No se pudo enviar el email de confirmación."
              | inl e => u "⚠️ Error al enviar el correo: " ++ texto e
              end),
      snd (enviar_correo_confirmacion entorno
             (Usuario.email (usuario_logueado self)) (mensaje r) w))).
Proof.
  intros Hf He Hp Hok. unfold realizar_compra.
  change (leer_fecha_y_cantidad (text_resultado_delete self))
    with (leer_fecha_y_cantidad self).
  rewrite Hf.
  change (edades_inputs (text_resultado_delete self))
    with (edades_inputs self).
  rewrite He.
  change (usuario_logueado (text_resultado_delete self))
    with (usuario_logueado self).
  change (tipo_pase (text_resultado_delete self)) with (tipo_pase self).
  change (forma_pago (text_resultado_delete self)) with (forma_pago self).
  rewrite Hp, Hok. cbn [negb].
  destruct (enviar_correo_confirmacion entorno
              (Usuario.email (usuario_logueado self)) (mensaje r) w)
    as [[e|[|]] w2]; cbn [fst snd];
    rewrite set_text_resultado_insert; reflexivity.
Qed.

Lemma enviar_correo_confirmacion_efectos entorno dest cuerpo (w : Mundo) :
  fst (enviar_correo_confirmacion entorno dest cuerpo w) <> inr false
  /\ bd (snd (enviar_correo_confirmacion entorno dest cuerpo w)) = bd w
  /\ correos_pedidos
       (traza (snd (enviar_correo_confirmacion entorno dest cuerpo w)))
     = correos_pedidos (traza w) ++ [(cuerpo, dest)]
  /\ inserciones
       (traza (snd (enviar_correo_confirmacion entorno dest cuerpo w)))
     = inserciones (traza w).
Proof.
  unfold enviar_correo_confirmacion.
  destruct (componer_mensaje _ _ _ _).
  { cbn [fst snd anotar bd traza].
    rewrite ?correos_pedidos_app, ?inserciones_app, ?app_nil_r.
    split; [discriminate|]. repeat split. }
  destruct (negb (VentanaPagoTarjeta.no_vacio (EMAIL_EMISOR entorno))
            || negb (VentanaPagoTarjeta.no_vacio (PASSWORD_EMISOR entorno))).
  - destruct (bool_decide _); cbn [fst snd anotar bd traza];
      rewrite ?correos_pedidos_app, ?inserciones_app, ?app_nil_r;
      (split; [discriminate|]); repeat split.
  - destruct (smtp_enviar _ _ _ _); cbn [fst snd anotar bd traza];
      rewrite ?correos_pedidos_app, ?inserciones_app, ?app_nil_r;
      (split; [discriminate|]); repeat split.
Qed.

Lemma es_ValueError_clase e : clase e = ValueError -> es_ValueError e = true.
Proof. unfold es_ValueError. now intros ->. Qed.

Lemma es_ValueError_desborde e :
  clase e = OtraExcepcion (u "OverflowError") -> es_ValueError e = false.
Proof. unfold es_ValueError. now intros ->. Qed.

(** The receipts of [realizar_compra].  Whatever the form holds and
    whatever the email library and the transport answer,
    [realizar_compra] changes nothing of the form but the result box,
    never writes to the store, and asks for at most one receipt.  A
    receipt is asked only when the date, the quantity and every age
    were read and [procesar] accepted the order built from them; it
    carries the confirmation text and goes to the email of the session
    user, and the result box then starts with the confirmation text,
    whether the receipt could be sent or not. *)
Theorem realizar_compra_un_recibo (hoy : date) (entorno : Entorno)
    (self : ComprarEntradasUI.t) (w : Mundo) :
  let fin := realizar_compra hoy entorno self w in
  let self' := fst (snd fin) in
  let w' := snd (snd fin) in
  bd w' = bd w
  /\ inserciones (traza w') = inserciones (traza w)
  /\ set_text_resultado self' [] = set_text_resultado self []
  /\ (correos_pedidos (traza w') = correos_pedidos (traza w)
      \/ exists fecha cantidad edades r,
           leer_fecha_y_cantidad self = inr (fecha, cantidad)
           /\ leer_edades (edades_inputs self) [] = inr edades
           /\ fst (Compra.procesar hoy
                     (Compra.__init__ (Some (usuario_logueado self)) fecha
                        cantidad edades (tipo_pase self) (forma_pago self)))
              = inr r
           /\ ok r = true
           /\ correos_pedidos (traza w')
              = correos_pedidos (traza w)
                  ++ [(mensaje r, Usuario.email (usuario_logueado self))]
           /\ fst fin = inr tt
           /\ exists resto,
                text_resultado self' = mensaje r ++ salto ++ salto ++ resto).
Proof.
  intros fin self' w'. unfold self', w', fin. clear fin self' w'.
  destruct (leer_fecha_y_cantidad self) as [e|[fecha cantidad]] eqn:Hf.
  { rewrite (realizar_compra_sin_datos hoy entorno self w e Hf).
    destruct (es_ValueError e); cbn [fst snd];
      (split; [reflexivity|]); (split; [reflexivity|]);
      (split; [reflexivity|]); left; reflexivity. }
  destruct (leer_edades (edades_inputs self) []) as [e|edades] eqn:He.
  { rewrite (realizar_compra_sin_edades hoy entorno self w _ _ e Hf He).
    cbn [fst snd]. split; [reflexivity|]. split; [reflexivity|].
    split; [reflexivity|]. left; reflexivity. }
  destruct (procesar_casos hoy
              (Compra.__init__ (Some (usuario_logueado self)) fecha cantidad
                 edades (tipo_pase self) (forma_pago self)))
    as (r & Hp & _ & _).
  destruct (ok r) eqn:Hok.
  2:{ rewrite (realizar_compra_rechazada hoy entorno self w _ _ _ r _
                 Hf He Hp Hok).
      cbn [fst snd]. split; [reflexivity|]. split; [reflexivity|].
      split; [reflexivity|]. left; reflexivity. }
  rewrite (realizar_compra_aceptada hoy entorno self w _ _ _ r _
             Hf He Hp Hok).
  cbn [fst snd].
  destruct (enviar_correo_confirmacion_efectos entorno
              (Usuario.email (usuario_logueado self)) (mensaje r) w)
    as (_ & Hbd & Hco & Hin).
  split; [exact Hbd|]. split; [exact Hin|]. split; [reflexivity|].
  right. exists fecha, cantidad, edades, r.
  split; [reflexivity|]. split; [reflexivity|].
  split; [rewrite Hp; reflexivity|]. split; [exact Hok|].
  split; [exact Hco|]. split; [reflexivity|].
  eexists. reflexivity.
Qed.

Lemma leer_fecha_y_cantidad_eq self :
  leer_fecha_y_cantidad self
  = match int_de_str (anio_var self) with
    | inl e => inl e
    | inr anio =>
      match int_de_str (mes_var self) with
      | inl e => inl e
      | inr mes =>
        match int_de_str (dia_var self) with
        | inl e => inl e
        | inr dia =>
          match date_nuevo anio mes dia with
          | inl e => inl e
          | inr fecha_visita =>
            match int_de_str (cantidad_var self) with
            | inl e => inl e
            | inr cantidad => inr (fecha_visita, cantidad)
            end
          end
        end
      end
    end.
Proof. reflexivity. Qed.

(** What [realizar_compra] makes of the year, the month, the day and
    the quantity.  A text that [int] refuses, or a day that is not in
    the calendar, leaves the warning of invalid data in the result box
    and nothing else happens.  Three integers of which one does not fit
    in the [int] of C escape from [realizar_compra] as an
    [OverflowError], which its [except ValueError] does not catch, with
    the result box emptied and whatever the quantity is. *)
Theorem realizar_compra_fecha_y_cantidad (hoy : date) (entorno : Entorno)
    (self : ComprarEntradasUI.t) (w : Mundo) :
  match int_de_str (anio_var self), int_de_str (mes_var self),
        int_de_str (dia_var self) with
  | inr anio, inr mes, inr dia =>
    if negb (cabe_en_int anio && cabe_en_int mes && cabe_en_int dia) then
      exists e,
        clase e = OtraExcepcion (u "OverflowError")
        /\ realizar_compra hoy entorno self w
           = (inl e, (set_text_resultado self [], w))
    else if fecha_existe anio mes dia then
      match int_de_str (cantidad_var self) with
      | inr cantidad =>
        leer_fecha_y_cantidad self = inr (Date anio mes dia, cantidad)
      | inl _ =>
        realizar_compra hoy entorno self w
        = (inr tt, (set_text_resultado self msg_datos_invalidos, w))
      end
    else
      realizar_compra hoy entorno self w
      = (inr tt, (set_text_resultado self msg_datos_invalidos, w))
  | _, _, _ =>
    realizar_compra hoy entorno self w
    = (inr tt, (set_text_resultado self msg_datos_invalidos, w))
  end.
Proof.
  pose proof (leer_fecha_y_cantidad_eq self) as Hl.
  destruct (int_de_str (anio_var self)) as [e|anio] eqn:Ha.
  { rewrite (realizar_compra_sin_datos hoy entorno self w e Hl).
    now rewrite (es_ValueError_clase e (int_de_str_ValueError _ _ Ha)). }
  destruct (int_de_str (mes_var self)) as [e|mes] eqn:Hm.
  { rewrite (realizar_compra_sin_datos hoy entorno self w e Hl).
    now rewrite (es_ValueError_clase e (int_de_str_ValueError _ _ Hm)). }
  destruct (int_de_str (dia_var self)) as [e|dia] eqn:Hd.
  { rewrite (realizar_compra_sin_datos hoy entorno self w e Hl).
    now rewrite (es_ValueError_clase e (int_de_str_ValueError _ _ Hd)). }
  pose proof (date_nuevo_casos anio mes dia) as Hdate.
  destruct (negb (cabe_en_int anio && cabe_en_int mes && cabe_en_int dia)).
  { destruct Hdate as (e & Hdate & He). rewrite Hdate in Hl.
    exists e. split; [exact He|].
    rewrite (realizar_compra_sin_datos hoy entorno self w e Hl).
    now rewrite (es_ValueError_desborde e He). }
  destruct (fecha_existe anio mes dia).
  2:{ destruct Hdate as (e & Hdate & He). rewrite Hdate in Hl.
      rewrite (realizar_compra_sin_datos hoy entorno self w e Hl).
      now rewrite (es_ValueError_clase e He). }
  rewrite Hdate in Hl.
  destruct (int_de_str (cantidad_var self)) as [e|cantidad] eqn:Hc.
  - rewrite (realizar_compra_sin_datos hoy entorno self w e Hl).
    now rewrite (es_ValueError_clase e (int_de_str_ValueError _ _ Hc)).
  - exact Hl.
Qed.

Lemma actualizar_total_eq self :
  actualizar_total self
  = label_total_configure self
      match int_de_str (cantidad_var self) with
      | inr cantidad =>
        match str_con_limite
                (cantidad * dict_get PRECIOS (tipo_pase self) 0) with
        | inr texto => u "Total: $" ++ texto
        | inl _ => u "Total: -"
        end
      | inl _ => u "Total: -"
      end.
Proof.
  unfold actualizar_total, actualizar_total_try, ligar.
  destruct (int_de_str _); [reflexivity|].
  destruct (str_con_limite _); reflexivity.
Qed.

(** The totals of the quantities between the bounds are short. *)
Lemma total_corto (cantidad : Z) (tipo : str) :
  1 <= cantidad <= 10 ->
  Nat.leb (length (str_de_int (cantidad * dict_get PRECIOS tipo 0))) 640
  = true.
Proof.
  intros Hc.
  assert (Hp : dict_get PRECIOS tipo 0 = 0 \/ dict_get PRECIOS tipo 0 = 10000
               \/ dict_get PRECIOS tipo 0 = 15000).
  { unfold dict_get. destruct (PRECIOS !! tipo) as [p|] eqn:Hp.
    - apply PRECIOS_tabla in Hp. destruct Hp as [[_ ->]|[_ ->]]; auto.
    - now left. }
  assert (Hn : cantidad = 1 \/ cantidad = 2 \/ cantidad = 3 \/ cantidad = 4
               \/ cantidad = 5 \/ cantidad = 6 \/ cantidad = 7
               \/ cantidad = 8 \/ cantidad = 9 \/ cantidad = 10) by lia.
  destruct Hp as [-> | [-> | ->]];
    repeat (destruct Hn as [->|Hn]; [vm_compute; reflexivity|]);
    subst cantidad; vm_compute; reflexivity.
Qed.

Lemma actualizar_total_corto self (cantidad : Z) :
  int_de_str (cantidad_var self) = inr cantidad ->
  1 <= cantidad <= 10 ->
  label_total (actualizar_total self)
  = u "Total: $"
      ++ str_de_int (cantidad * dict_get PRECIOS (tipo_pase self) 0).
Proof.
  intros Hn Hc. rewrite actualizar_total_eq, Hn.
  rewrite (str_con_limite_corto _ (total_corto cantidad (tipo_pase self) Hc)).
  reflexivity.
Qed.

(** A form that is filled well is confirmed.  When the date, the
    quantity and every age are read and the order built from them
    passes the five checks, [realizar_compra] returns, asks for the
    receipt of the session user and shows the confirmation text of
    [procesar] followed by a line on the receipt, whatever the email
    library and the transport do.  The total of that text is the total
    that [actualizar_total] shows for the same form. *)
Theorem realizar_compra_confirmada (hoy : date) (entorno : Entorno)
    (self : ComprarEntradasUI.t) (w : Mundo) (fecha : date) (cantidad : Z)
    (edades : list Z)
    (Hfecha : leer_fecha_y_cantidad self = inr (fecha, cantidad))
    (Hedades : leer_edades (edades_inputs self) [] = inr edades)
    (Hok : todo_ok hoy
             (Compra.__init__ (Some (usuario_logueado self)) fecha cantidad
                edades (tipo_pase self) (forma_pago self))) :
  let fin := realizar_compra hoy entorno self w in
  let total :=
    Compra.calcular_monto_total
      (Compra.__init__ (Some (usuario_logueado self)) fecha cantidad edades
         (tipo_pase self) (forma_pago self)) in
  let texto_base :=
    confirmacion (Usuario.email (usuario_logueado self)) cantidad fecha total
      ++ (if bool_decide (forma_pago self = u "tarjeta")
          then sufijo_tarjeta else sufijo_efectivo) in
  fst fin = inr tt
  /\ correos_pedidos (traza (snd (snd fin)))
     = correos_pedidos (traza w)
         ++ [(texto_base, Usuario.email (usuario_logueado self))]
  /\ (exists resto,
        text_resultado (fst (snd fin))
        = texto_base ++ salto ++ salto ++ resto)
  /\ label_total (actualizar_total self) = u "Total: $" ++ str_de_int total.
Proof.
  intros fin total texto_base. unfold fin. clear fin.
  assert (Htotal : label_total (actualizar_total self)
                   = u "Total: $" ++ str_de_int total).
  { assert (Hc : int_de_str (cantidad_var self) = inr cantidad).
    { rewrite leer_fecha_y_cantidad_eq in Hfecha.
      destruct (int_de_str (anio_var self)); [discriminate Hfecha|].
      destruct (int_de_str (mes_var self)); [discriminate Hfecha|].
      destruct (int_de_str (dia_var self)); [discriminate Hfecha|].
      destruct (date_nuevo _ _ _); [discriminate Hfecha|].
      destruct (int_de_str (cantidad_var self)); [discriminate Hfecha|].
      apply (inj inr) in Hfecha. apply (f_equal snd) in Hfecha.
      cbn [snd] in Hfecha. now subst cantidad. }
    pose proof Hok as (_ & _ & Hcant & _).
    exact (actualizar_total_corto self cantidad Hc Hcant). }
  apply es_valida_todo_ok in Hok.
  destruct (procesar_valida hoy _ Hok) as (us & Hus & Hr).
  cbn [Compra.__init__ Compra.usuario] in Hus. apply (inj Some) in Hus.
  subst us.
  destruct (procesar_casos hoy
              (Compra.__init__ (Some (usuario_logueado self)) fecha cantidad
                 edades (tipo_pase self) (forma_pago self)))
    as (r & Hp & Hokr & _).
  rewrite Hok in Hokr. rewrite Hp in Hr. cbn [fst] in Hr.
  apply (inj inr) in Hr.
  rewrite (realizar_compra_aceptada hoy entorno self w _ _ _ r _
             Hfecha Hedades Hp Hokr).
  cbn [fst snd].
  destruct (enviar_correo_confirmacion_efectos entorno
              (Usuario.email (usuario_logueado self)) (mensaje r) w)
    as (_ & _ & Hco & _).
  rewrite Hco.
  assert (Hm : mensaje r = texto_base) by (rewrite Hr; reflexivity).
  rewrite Hm. split; [reflexivity|]. split; [reflexivity|].
  split; [eexists; reflexivity | exact Htotal].
Qed.

(** *** The quantity buttons *)

Lemma en_rango_true (n : Z) :
  CANTIDAD_MIN_ENTRADAS <= n <= CANTIDAD_MAX_ENTRADAS ->
  (CANTIDAD_MIN_ENTRADAS <=? n) && (n <=? CANTIDAD_MAX_ENTRADAS) = true.
Proof.
  intros [Ha Hb]. apply andb_true_iff. split; now apply Z.leb_le.
Qed.

Lemma en_rango_cotas (n : Z) :
  (CANTIDAD_MIN_ENTRADAS <=? n) && (n <=? CANTIDAD_MAX_ENTRADAS) = true ->
  1 <= n <= 10.
Proof.
  intros Hr. apply andb_true_iff in Hr. destruct Hr as [Ha Hb].
  apply Z.leb_le in Ha, Hb. unfold CANTIDAD_MIN_ENTRADAS in Ha.
  unfold CANTIDAD_MAX_ENTRADAS in Hb. lia.
Qed.

Lemma actualizar_campos_edad_en_rango self n :
  int_de_str (cantidad_var self) = inr n ->
  (CANTIDAD_MIN_ENTRADAS <=? n) && (n <=? CANTIDAD_MAX_ENTRADAS) = true ->
  actualizar_campos_edad self
  = set_edades_inputs
      (set_frame_edades (label_error_cantidad_configure self [])
         (filas_nuevas 0 (Z.to_nat n)))
      (replicate (Z.to_nat n) []).
Proof.
  intros Hn Hr. unfold actualizar_campos_edad.
  change (cantidad_var (set_frame_edades self [])) with (cantidad_var self).
  rewrite Hn, Hr. reflexivity.
Qed.

Lemma actualizar_campos_edad_fuera self n :
  int_de_str (cantidad_var self) = inr n ->
  (CANTIDAD_MIN_ENTRADAS <=? n) && (n <=? CANTIDAD_MAX_ENTRADAS) = false ->
  actualizar_campos_edad self
  = label_error_cantidad_configure (set_frame_edades self [])
      (msg_cantidad_rango CANTIDAD_MIN_ENTRADAS CANTIDAD_MAX_ENTRADAS).
Proof.
  intros Hn Hr. unfold actualizar_campos_edad.
  change (cantidad_var (set_frame_edades self [])) with (cantidad_var self).
  rewrite Hn, Hr. reflexivity.
Qed.

Lemma actualizar_campos_edad_campos self :
  cantidad_var (actualizar_campos_edad self) = cantidad_var self
  /\ tipo_pase (actualizar_campos_edad self) = tipo_pase self.
Proof.
  unfold actualizar_campos_edad.
  destruct (negb _); split; reflexivity.
Qed.

Lemma filas_nuevas_length (desde : Z) (n : nat) :
  length (filas_nuevas desde n) = n.
Proof.
  revert desde. induction n as [|n IH]; intros desde; [reflexivity|].
  cbn [filas_nuevas length]. now rewrite IH.
Qed.

(** The form once its two observers have run on a quantity that is a
    number. *)
Lemma tras_observadores self n :
  int_de_str (cantidad_var self) = inr n ->
  cantidad_var (actualizar_total (actualizar_campos_edad self))
  = cantidad_var self
  /\ label_total (actualizar_total (actualizar_campos_edad self))
     = match str_con_limite (n * dict_get PRECIOS (tipo_pase self) 0) with
       | inr texto => u "Total: $" ++ texto
       | inl _ => u "Total: -"
       end
  /\ (if (CANTIDAD_MIN_ENTRADAS <=? n) && (n <=? CANTIDAD_MAX_ENTRADAS)
      then
        edades_inputs (actualizar_total (actualizar_campos_edad self))
        = replicate (Z.to_nat n) []
        /\ length (frame_edades
                     (actualizar_total (actualizar_campos_edad self)))
           = Z.to_nat n
        /\ label_error_cantidad
             (actualizar_total (actualizar_campos_edad self)) = []
      else
        edades_inputs (actualizar_total (actualizar_campos_edad self))
        = edades_inputs self
        /\ frame_edades (actualizar_total (actualizar_campos_edad self)) = []
        /\ label_error_cantidad
             (actualizar_total (actualizar_campos_edad self))
           = msg_cantidad_rango CANTIDAD_MIN_ENTRADAS CANTIDAD_MAX_ENTRADAS).
Proof.
  intros Hn. rewrite actualizar_total_eq.
  destruct (actualizar_campos_edad_campos self) as [Hc Ht].
  rewrite Hc, Ht, Hn.
  split; [exact Hc|]. split; [reflexivity|].
  destruct ((CANTIDAD_MIN_ENTRADAS <=? n) && (n <=? CANTIDAD_MAX_ENTRADAS))
    eqn:Hr.
  - rewrite (actualizar_campos_edad_en_rango self n Hn Hr).
    split; [reflexivity|]. split; [apply filas_nuevas_length | reflexivity].
  - rewrite (actualizar_campos_edad_fuera self n Hn Hr).
    split; [reflexivity|]. split; reflexivity.
Qed.

Lemma cantidad_var_set_campos self (s : str) :
  cantidad_var (cantidad_var_set self s) = s
  /\ tipo_pase (cantidad_var_set self s) = tipo_pase self.
Proof.
  unfold cantidad_var_set.
  destruct (actualizar_campos_edad_campos
              (actualizar_total (set_cantidad_var self s))) as [-> ->].
  rewrite actualizar_total_eq. split; reflexivity.
Qed.

Lemma ajustar_cantidad_eq (cambio : Z) self :
  ajustar_cantidad cambio self
  = actualizar_total
      (actualizar_campos_edad
         match int_de_str (cantidad_var self) with
         | inr cantidad_actual =>
           if (CANTIDAD_MIN_ENTRADAS <=? cantidad_actual + cambio)
              && (cantidad_actual + cambio <=? CANTIDAD_MAX_ENTRADAS)
           then cantidad_var_set self (str_de_int (cantidad_actual + cambio))
           else self
         | inl _ => cantidad_var_set self (str_de_int CANTIDAD_MIN_ENTRADAS)
         end).
Proof. reflexivity. Qed.

(** A click on [-] or [+].  Afterwards the quantity field holds a
    number: the old one moved by [cambio] when that stays between the
    bounds, the old one as it was when it does not, and the lower bound
    when the field did not hold a number.  The label of the total shows
    the total of that quantity, or a dash when the total has too many
    digits to be written.  When the quantity is between the bounds the
    total is written, there is one age field for each ticket and every
    age field is blank, so the ages typed before the click are lost;
    when it is not, no age field is shown, the range warning is, and
    the variables of the age fields shown before are kept. *)
Theorem ajustar_cantidad_formulario (Hlim : limite_conforme) (cambio : Z)
    (self : ComprarEntradasUI.t) :
  let self' := ajustar_cantidad cambio self in
  exists cantidad,
    int_de_str (cantidad_var self') = inr cantidad
    /\ match int_de_str (cantidad_var self) with
       | inr actual =>
         if (CANTIDAD_MIN_ENTRADAS <=? actual + cambio)
            && (actual + cambio <=? CANTIDAD_MAX_ENTRADAS)
         then cantidad = actual + cambio
              /\ cantidad_var self' = str_de_int cantidad
         else cantidad = actual /\ cantidad_var self' = cantidad_var self
       | inl _ =>
         cantidad = CANTIDAD_MIN_ENTRADAS
         /\ cantidad_var self' = str_de_int CANTIDAD_MIN_ENTRADAS
       end
    /\ label_total self'
       = match str_con_limite
                 (cantidad * dict_get PRECIOS (tipo_pase self) 0) with
         | inr texto => u "Total: $" ++ texto
         | inl _ => u "Total: -"
         end
    /\ (if (CANTIDAD_MIN_ENTRADAS <=? cantidad)
           && (cantidad <=? CANTIDAD_MAX_ENTRADAS)
        then
          label_total self'
          = u "Total: $"
              ++ str_de_int (cantidad * dict_get PRECIOS (tipo_pase self) 0)
          /\ edades_inputs self' = replicate (Z.to_nat cantidad) []
          /\ length (frame_edades self') = Z.to_nat cantidad
          /\ label_error_cantidad self' = []
        else
          edades_inputs self' = edades_inputs self
          /\ frame_edades self' = []
          /\ label_error_cantidad self'
             = msg_cantidad_rango CANTIDAD_MIN_ENTRADAS
                 CANTIDAD_MAX_ENTRADAS).
Proof.
  intros self'. unfold self'. clear self'. rewrite ajustar_cantidad_eq.
  assert (Hfin : forall s cantidad,
             int_de_str (cantidad_var s) = inr cantidad ->
             tipo_pase s = tipo_pase self ->
             (((CANTIDAD_MIN_ENTRADAS <=? cantidad)
               && (cantidad <=? CANTIDAD_MAX_ENTRADAS) = false) ->
              edades_inputs s = edades_inputs self) ->
             int_de_str
               (cantidad_var (actualizar_total (actualizar_campos_edad s)))
             = inr cantidad
             /\ cantidad_var (actualizar_total (actualizar_campos_edad s))
                = cantidad_var s
             /\ label_total (actualizar_total (actualizar_campos_edad s))
                = match str_con_limite
                          (cantidad * dict_get PRECIOS (tipo_pase self) 0)
                  with
                  | inr texto => u "Total: $" ++ texto
                  | inl _ => u "Total: -"
                  end
             /\ (if (CANTIDAD_MIN_ENTRADAS <=? cantidad)
                    && (cantidad <=? CANTIDAD_MAX_ENTRADAS)
                 then
                   label_total (actualizar_total (actualizar_campos_edad s))
                   = u "Total: $"
                       ++ str_de_int
                            (cantidad
                             * dict_get PRECIOS (tipo_pase self) 0)
                   /\ edades_inputs
                        (actualizar_total (actualizar_campos_edad s))
                      = replicate (Z.to_nat cantidad) []
                   /\ length (frame_edades
                                (actualizar_total
                                   (actualizar_campos_edad s)))
                      = Z.to_nat cantidad
                   /\ label_error_cantidad
                        (actualizar_total (actualizar_campos_edad s)) = []
                 else
                   edades_inputs
                     (actualizar_total (actualizar_campos_edad s))
                   = edades_inputs self
                   /\ frame_edades
                        (actualizar_total (actualizar_campos_edad s)) = []
                   /\ label_error_cantidad
                        (actualizar_total (actualizar_campos_edad s))
                      = msg_cantidad_rango CANTIDAD_MIN_ENTRADAS
                          CANTIDAD_MAX_ENTRADAS)).
  { intros s cantidad Hn Ht He.
    destruct (tras_observadores s cantidad Hn) as (Hc & Hl & Hr).
    rewrite Ht in Hl. rewrite Hc.
    split; [exact Hn|]. split; [reflexivity|]. split; [exact Hl|].
    destruct ((CANTIDAD_MIN_ENTRADAS <=? cantidad)
              && (cantidad <=? CANTIDAD_MAX_ENTRADAS)) eqn:Hrango.
    - split; [|exact Hr]. rewrite Hl.
      rewrite (str_con_limite_corto _
                 (total_corto cantidad (tipo_pase self)
                    (en_rango_cotas _ Hrango))).
      reflexivity.
    - destruct Hr as (Hr1 & Hr2 & Hr3). rewrite Hr1, (He eq_refl).
      split; [reflexivity|]. split; [exact Hr2 | exact Hr3]. }
  destruct (int_de_str (cantidad_var self)) as [e|actual] eqn:Ha.
  - destruct (cantidad_var_set_campos self (str_de_int CANTIDAD_MIN_ENTRADAS))
      as [Hc Ht].
    assert (Hn : int_de_str
                   (cantidad_var
                      (cantidad_var_set self
                         (str_de_int CANTIDAD_MIN_ENTRADAS)))
                 = inr CANTIDAD_MIN_ENTRADAS).
    { rewrite Hc. apply (int_de_str_de_int Hlim).
      unfold CANTIDAD_MIN_ENTRADAS. lia. }
    destruct (Hfin _ _ Hn Ht) as (Hi & Hv & Hl & Hr).
    { intros Hx. discriminate Hx. }
    exists CANTIDAD_MIN_ENTRADAS. rewrite Hv, Hc in *.
    split; [exact Hi|]. split; [split; reflexivity|].
    split; [exact Hl | exact Hr].
  - destruct ((CANTIDAD_MIN_ENTRADAS <=? actual + cambio)
              && (actual + cambio <=? CANTIDAD_MAX_ENTRADAS)) eqn:Hrango.
    + destruct (cantidad_var_set_campos self (str_de_int (actual + cambio)))
        as [Hc Ht].
      pose proof (en_rango_cotas _ Hrango) as Hcotas.
      assert (Hn : int_de_str
                     (cantidad_var
                        (cantidad_var_set self
                           (str_de_int (actual + cambio))))
                   = inr (actual + cambio)).
      { rewrite Hc. apply (int_de_str_de_int Hlim). lia. }
      destruct (Hfin _ _ Hn Ht) as (Hi & Hv & Hl & Hr).
      { intros Hx. rewrite Hrango in Hx. discriminate Hx. }
      exists (actual + cambio). rewrite Hv, Hc in *.
      split; [exact Hi|]. split; [split; reflexivity|].
      split; [exact Hl | exact Hr].
    + destruct (Hfin self actual Ha eq_refl (fun _ => eq_refl))
        as (Hi & Hv & Hl & Hr).
      exists actual. rewrite Hv.
      split; [exact Ha|]. split; [split; reflexivity|].
      split; [exact Hl | exact Hr].
Qed.

(** *** The feedback on the date *)

Lemma date_lt_ge (a b : date) : date_lt a b = negb (date_ge a b).
Proof.
  unfold date_lt, date_ge.
  destruct (Z.ltb_spec (year a) (year b)), (Z.ltb_spec (year b) (year a)),
    (Z.eqb_spec (year a) (year b)),
    (Z.ltb_spec (month a) (month b)), (Z.ltb_spec (month b) (month a)),
    (Z.eqb_spec (month a) (month b)),
    (Z.ltb_spec (day a) (day b)), (Z.leb_spec (day b) (day a));
    cbn [andb orb negb]; trivial; lia.
Qed.

Lemma desborde_no_es_TypeError : u "OverflowError" <> u "TypeError".
Proof. intros Hx. vm_compute in Hx. discriminate Hx. Qed.

Lemma es_ValueError_o_TypeError_clase e :
  clase e = ValueError -> es_ValueError_o_TypeError e = true.
Proof. unfold es_ValueError_o_TypeError. now intros ->. Qed.

Lemma es_ValueError_o_TypeError_desborde e :
  clase e = OtraExcepcion (u "OverflowError") ->
  es_ValueError_o_TypeError e = false.
Proof.
  unfold es_ValueError_o_TypeError. intros ->.
  apply bool_decide_eq_false_2, desborde_no_es_TypeError.
Qed.

Lemma monthrange_casos (y m : Z) :
  match monthrange y m with
  | inl e => clase e = ValueError /\ ~ 1 <= m <= 12
  | inr (_, num_dias) => 1 <= m <= 12 /\ 28 <= num_dias <= 31
  end.
Proof.
  unfold monthrange.
  destruct (Z.leb_spec 1 m), (Z.leb_spec m 12); cbn [andb negb];
    try (split; [reflexivity | lia]).
  split; [lia|].
  assert (Hm : m = 1 \/ m = 2 \/ m = 3 \/ m = 4 \/ m = 5 \/ m = 6 \/ m = 7
               \/ m = 8 \/ m = 9 \/ m = 10 \/ m = 11 \/ m = 12) by lia.
  destruct (_is_leap y);
    repeat (destruct Hm as [->|Hm]; [vm_compute; split; discriminate|]);
    subst m; vm_compute; split; discriminate.
Qed.

Lemma fecha_del_formulario_campos self self' :
  anio_var self' = anio_var self -> mes_var self' = mes_var self ->
  dia_var self' = dia_var self ->
  fecha_del_formulario self' = fecha_del_formulario self.
Proof. unfold fecha_del_formulario. now intros -> -> ->. Qed.

(** The label set by the three branches of [actualizar_dias]. *)
Lemma aviso_fecha (hoy fecha : date) self :
  text (label_feedback_fecha
          (snd (if date_lt fecha hoy then
                  (devolver tt,
                   label_feedback_fecha_configure self msg_fecha_anterior
                     (u "red"))
                else if negb (bool_decide (weekday fecha ∈ DIAS_ABIERTOS))
                then
                  (devolver tt,
                   label_feedback_fecha_configure self msg_parque_cerrado
                     (u "orange"))
                else
                  (@devolver unit tt,
                   label_feedback_fecha_configure self msg_fecha_valida
                     (u "green")))))
  = if date_ge fecha hoy then
      if bool_decide (weekday fecha ∈ DIAS_ABIERTOS) then msg_fecha_valida
      else msg_parque_cerrado
    else msg_fecha_anterior.
Proof.
  rewrite date_lt_ge. destruct (date_ge fecha hoy); cbn [negb]; [|reflexivity].
  destruct (bool_decide (weekday fecha ∈ DIAS_ABIERTOS)); reflexivity.
Qed.

Lemma fecha_del_formulario_eq self (y m d : Z) :
  int_de_str (anio_var self) = inr y ->
  int_de_str (mes_var self) = inr m ->
  int_de_str (dia_var self) = inr d ->
  fecha_del_formulario self
  = match date_nuevo y m d with
    | inr fecha => Some fecha
    | inl _ => None
    end.
Proof. unfold fecha_del_formulario. now intros -> -> ->. Qed.

(** What is left of [actualizar_dias] once the year, the month and the
    day are read: [self] is the form with the days of the month in its
    menu and the day brought down to the last of the month. *)
Lemma actualizar_dias_fecha (hoy : date) self (year month dia : Z) :
  int_de_str (anio_var self) = inr year ->
  int_de_str (mes_var self) = inr month ->
  int_de_str (dia_var self) = inr dia ->
  let fin :=
    match
      match date_nuevo year month dia with
      | inl e => (@lanzar unit e, self)
      | inr fecha_seleccionada =>
        if date_lt fecha_seleccionada hoy then
          (devolver tt,
           label_feedback_fecha_configure self msg_fecha_anterior (u "red"))
        else if negb (bool_decide
                        (weekday fecha_seleccionada ∈ DIAS_ABIERTOS))
        then
          (devolver tt,
           label_feedback_fecha_configure self msg_parque_cerrado
             (u "orange"))
        else
          (devolver tt,
           label_feedback_fecha_configure self msg_fecha_valida (u "green"))
      end
    with
    | (inl e, self) =>
      if es_ValueError_o_TypeError e
      then (@devolver unit tt, label_feedback_fecha_configure_text self [])
      else (lanzar e, self)
    | (inr _, self) => (devolver tt, self)
    end in
  (fst fin = inr tt
   /\ text (label_feedback_fecha (snd fin))
      = match fecha_del_formulario (snd fin) with
        | Some fecha =>
          if date_ge fecha hoy then
            if bool_decide (weekday fecha ∈ DIAS_ABIERTOS)
            then msg_fecha_valida else msg_parque_cerrado
          else msg_fecha_anterior
        | None => []
        end)
  \/ (exists e,
        fst fin = inl e
        /\ clase e = OtraExcepcion (u "OverflowError")
        /\ fecha_del_formulario (snd fin) = None
        /\ label_feedback_fecha (snd fin) = label_feedback_fecha self).
Proof.
  intros Ha Hm Hd fin. unfold fin. clear fin.
  pose proof (fecha_del_formulario_eq self year month dia Ha Hm Hd) as Hf.
  pose proof (date_nuevo_casos year month dia) as Hdate.
  destruct (negb (cabe_en_int year && cabe_en_int month && cabe_en_int dia)).
  { destruct Hdate as (e & Hdate & He). rewrite Hdate in *.
    unfold lanzar. cbv beta iota.
    rewrite (es_ValueError_o_TypeError_desborde e He). right. exists e.
    cbn [fst snd]. split; [reflexivity|]. split; [exact He|].
    split; [exact Hf | reflexivity]. }
  destruct (fecha_existe year month dia).
  2:{ destruct Hdate as (e & Hdate & He). rewrite Hdate in *.
      unfold lanzar. cbv beta iota.
      rewrite (es_ValueError_o_TypeError_clase e He). left.
      cbn [fst snd]. split; [reflexivity|].
      rewrite (fecha_del_formulario_campos self
                 (label_feedback_fecha_configure_text self [])
                 eq_refl eq_refl eq_refl).
      rewrite Hf. reflexivity. }
  rewrite Hdate in *. left.
  destruct (date_lt (Date year month dia) hoy) eqn:Hlt.
  - unfold devolver. cbv beta iota. cbn [fst snd]. split; [reflexivity|].
    rewrite (fecha_del_formulario_campos self
               (label_feedback_fecha_configure self msg_fecha_anterior
                  (u "red")) eq_refl eq_refl eq_refl).
    rewrite Hf. rewrite date_lt_ge in Hlt. apply negb_true_iff in Hlt.
    rewrite Hlt. reflexivity.
  - rewrite date_lt_ge in Hlt. apply negb_false_iff in Hlt.
    destruct (bool_decide (weekday (Date year month dia) ∈ DIAS_ABIERTOS))
      eqn:Hw; cbn [negb].
    + unfold devolver. cbv beta iota. cbn [fst snd]. split; [reflexivity|].
      rewrite (fecha_del_formulario_campos self
                 (label_feedback_fecha_configure self msg_fecha_valida
                    (u "green")) eq_refl eq_refl eq_refl).
      rewrite Hf, Hlt, Hw. reflexivity.
    + unfold devolver. cbv beta iota. cbn [fst snd]. split; [reflexivity|].
      rewrite (fecha_del_formulario_campos self
                 (label_feedback_fecha_configure self msg_parque_cerrado
                    (u "orange")) eq_refl eq_refl eq_refl).
      rewrite Hf, Hlt, Hw. reflexivity.
Qed.

(** The feedback on the date.  [actualizar_dias] either returns or lets
    an [OverflowError] escape.  When it returns, the label says what
    the date now in the form is worth: nothing when the year, the month
    and the day do not make a date, and otherwise that the date is
    before today, that the park is closed that day, or that the date is
    valid.  The date is read after the day was brought down to the last
    day of the month, and it is the date that [realizar_compra] would
    read from the form; the four texts differ, so the label says that
    the date is valid exactly when the date check of [Compra] accepts
    it. *)
Theorem actualizar_dias_aviso (Hlim : limite_conforme) (hoy : date)
    (self : ComprarEntradasUI.t) :
  let fin := actualizar_dias hoy self in
  let self' := snd fin in
  NoDup [[]; msg_fecha_anterior; msg_parque_cerrado; msg_fecha_valida]
  /\
  ((fst fin = inr tt
   /\ text (label_feedback_fecha self')
      = match fecha_del_formulario self' with
        | Some fecha =>
          if date_ge fecha hoy then
            if bool_decide (weekday fecha ∈ DIAS_ABIERTOS)
            then msg_fecha_valida else msg_parque_cerrado
          else msg_fecha_anterior
        | None => []
        end)
  \/ (exists e,
        fst fin = inl e
        /\ clase e = OtraExcepcion (u "OverflowError")
        /\ fecha_del_formulario self' = None
        /\ label_feedback_fecha self' = label_feedback_fecha self)).
Proof.
  intros fin self'. unfold self', fin. clear fin self'.
  split.
  { apply (proj1 (bool_decide_eq_true _)). vm_compute. reflexivity. }
  unfold actualizar_dias, actualizar_dias_try.
  destruct (int_de_str (anio_var self)) as [e|year] eqn:Ha.
  { unfold lanzar. cbv beta iota.
    rewrite (es_ValueError_o_TypeError_clase e
               (int_de_str_ValueError _ _ Ha)).
    left. cbn [fst snd]. split; [reflexivity|].
    rewrite (fecha_del_formulario_campos self
               (label_feedback_fecha_configure_text self [])
               eq_refl eq_refl eq_refl).
    unfold fecha_del_formulario. rewrite Ha. reflexivity. }
  destruct (int_de_str (mes_var self)) as [e|month] eqn:Hm.
  { unfold lanzar. cbv beta iota.
    rewrite (es_ValueError_o_TypeError_clase e
               (int_de_str_ValueError _ _ Hm)).
    left. cbn [fst snd]. split; [reflexivity|].
    rewrite (fecha_del_formulario_campos self
               (label_feedback_fecha_configure_text self [])
               eq_refl eq_refl eq_refl).
    unfold fecha_del_formulario. rewrite Ha, Hm. reflexivity. }
  pose proof (monthrange_casos year month) as Hmr.
  destruct (monthrange year month) as [e|[dia1 num_dias]].
  { destruct Hmr as [He Hmes]. unfold lanzar. cbv beta iota.
    rewrite (es_ValueError_o_TypeError_clase e He).
    left. cbn [fst snd]. split; [reflexivity|].
    rewrite (fecha_del_formulario_campos self
               (label_feedback_fecha_configure_text self [])
               eq_refl eq_refl eq_refl).
    unfold fecha_del_formulario. rewrite Ha, Hm.
    destruct (int_de_str (dia_var self)) as [e'|dia]; [reflexivity|].
    pose proof (date_nuevo_casos year month dia) as Hdate.
    destruct (negb (cabe_en_int year && cabe_en_int month
                    && cabe_en_int dia)).
    { destruct Hdate as (e' & -> & _). reflexivity. }
    assert (Hno : fecha_existe year month dia = false).
    { unfold fecha_existe.
      destruct (Z.leb_spec 1 month), (Z.leb_spec month 12);
        rewrite ?andb_false_r; cbn [andb]; trivial; lia. }
    rewrite Hno in Hdate. destruct Hdate as (e' & -> & _). reflexivity. }
  destruct Hmr as [Hmes Hdias].
  set (self1 := om_dia_configure self
                  (map (fun d => str_de_int (Z.of_nat d))
                     (seq 1 (Z.to_nat num_dias)))).
  change (dia_var self1) with (dia_var self).
  destruct (int_de_str (dia_var self)) as [e|dia] eqn:Hd.
  { unfold lanzar. cbv beta iota.
    rewrite (es_ValueError_o_TypeError_clase e
               (int_de_str_ValueError _ _ Hd)).
    left. cbn [fst snd]. split; [reflexivity|].
    rewrite (fecha_del_formulario_campos self
               (label_feedback_fecha_configure_text self1 [])
               eq_refl eq_refl eq_refl).
    unfold fecha_del_formulario. rewrite Ha, Hm, Hd. reflexivity. }
  destruct (dia >? num_dias).
  - assert (Hd2 : int_de_str (dia_var (dia_var_set self1
                                         (str_de_int num_dias)))
                  = inr num_dias).
    { change (dia_var (dia_var_set self1 (str_de_int num_dias)))
        with (str_de_int num_dias).
      apply (int_de_str_de_int Hlim). lia. }
    rewrite Hd2.
    exact (actualizar_dias_fecha hoy
             (dia_var_set self1 (str_de_int num_dias)) year month num_dias
             Ha Hm Hd2).
  - change (dia_var self1) with (dia_var self). rewrite Hd.
    exact (actualizar_dias_fecha hoy self1 year month dia Ha Hm Hd).
Qed.

End FormularioCompra.

(** ** The form of [ui_comprar_entradas.py] *)

Section FormularioSimple.
Import ConfiguracionParque Especificacion.
Context `{Unicode} `{Maquina}.
Import ui_comprar_entradas.

Lemma ui_ajustar_cantidad_paso (Hlim : limite_conforme) (cambio : Z) self :
  cantidad_var_set (ajustar_cantidad cambio self) []
  = cantidad_var_set self []
  /\ exists cantidad,
       int_de_str (cantidad_var (ajustar_cantidad cambio self))
       = inr cantidad
       /\ match int_de_str (cantidad_var self) with
          | inr actual =>
            if (CANTIDAD_MIN_ENTRADAS <=? actual + cambio)
               && (actual + cambio <=? CANTIDAD_MAX_ENTRADAS)
            then cantidad = actual + cambio
                 /\ cantidad_var (ajustar_cantidad cambio self)
                    = str_de_int cantidad
            else cantidad = actual
                 /\ cantidad_var (ajustar_cantidad cambio self)
                    = cantidad_var self
          | inl _ =>
            cantidad = CANTIDAD_MIN_ENTRADAS
            /\ cantidad_var (ajustar_cantidad cambio self)
               = str_de_int CANTIDAD_MIN_ENTRADAS
          end.
Proof.
  unfold ajustar_cantidad.
  destruct (int_de_str (cantidad_var self)) as [e|actual] eqn:Ha.
  - split; [reflexivity|]. exists CANTIDAD_MIN_ENTRADAS.
    split; [|split; reflexivity].
    change (cantidad_var (cantidad_var_set self
                            (str_de_int CANTIDAD_MIN_ENTRADAS)))
      with (str_de_int CANTIDAD_MIN_ENTRADAS).
    apply (int_de_str_de_int Hlim). unfold CANTIDAD_MIN_ENTRADAS. lia.
  - destruct ((CANTIDAD_MIN_ENTRADAS <=? actual + cambio)
              && (actual + cambio <=? CANTIDAD_MAX_ENTRADAS)) eqn:Hrango.
    + split; [reflexivity|]. exists (actual + cambio).
      split; [|split; reflexivity].
      change (cantidad_var (cantidad_var_set self
                              (str_de_int (actual + cambio))))
        with (str_de_int (actual + cambio)).
      apply (int_de_str_de_int Hlim).
      apply andb_true_iff in Hrango. destruct Hrango as [Hl Hu].
      apply Z.leb_le in Hl, Hu. unfold CANTIDAD_MIN_ENTRADAS in Hl.
      unfold CANTIDAD_MAX_ENTRADAS in Hu. lia.
    + split; [reflexivity|]. exists actual.
      split; [exact Ha | split; reflexivity].
Qed.

(** The quantity buttons of the form.  A click changes nothing but the
    quantity field, which afterwards holds a number: the old one moved
    by [cambio] when that stays between the bounds, the old one when it
    does not, the lower bound when the field did not hold a number.
    So from a quantity between the bounds no run of clicks leads out of
    the bounds. *)
Theorem ajustar_cantidad_entre_cotas (Hlim : limite_conforme)
    (cambios : list Z) (self : ui_comprar_entradas.t) (n : Z)
    (Hn : int_de_str (cantidad_var self) = inr n)
    (Hcotas : CANTIDAD_MIN_ENTRADAS <= n <= CANTIDAD_MAX_ENTRADAS) :
  let self' := fold_left (fun s cambio => ajustar_cantidad cambio s) cambios
                 self in
  cantidad_var_set self' [] = cantidad_var_set self []
  /\ exists n',
       int_de_str (cantidad_var self') = inr n'
       /\ CANTIDAD_MIN_ENTRADAS <= n' <= CANTIDAD_MAX_ENTRADAS.
Proof.
  intros self'. unfold self'. clear self'. revert self n Hn Hcotas.
  induction cambios as [|cambio r IH]; intros self n Hn Hc.
  - cbn [fold_left]. split; [reflexivity|]. exists n.
    split; [exact Hn | exact Hc].
  - cbn [fold_left].
    destruct (ui_ajustar_cantidad_paso Hlim cambio self)
      as (Hcampos & n1 & Hn1 & Hcaso).
    rewrite Hn in Hcaso.
    assert (Hc1 : CANTIDAD_MIN_ENTRADAS <= n1 <= CANTIDAD_MAX_ENTRADAS).
    { destruct ((CANTIDAD_MIN_ENTRADAS <=? n + cambio)
                && (n + cambio <=? CANTIDAD_MAX_ENTRADAS)) eqn:Hrango.
      - destruct Hcaso as [-> _]. apply andb_true_iff in Hrango.
        destruct Hrango as [Hl Hu]. apply Z.leb_le in Hl, Hu. lia.
      - destruct Hcaso as [-> _]. exact Hc. }
    destruct (IH (ajustar_cantidad cambio self) n1 Hn1 Hc1)
      as (Hcampos' & n' & Hn' & Hc').
    split; [now rewrite Hcampos'|]. exists n'.
    split; [exact Hn' | exact Hc'].
Qed.

(** [[x] * n]: the list of [n] copies, empty for [n] zero or less,
    unless [n] is not an index of the machine or the memory does not
    hold the list. *)
Lemma lista_por_casos {A} (x : A) (n : Z) :
  match lista_por x n with
  | inl e =>
    (clase e = OtraExcepcion (u "OverflowError")
     /\ (n < - maxsize - 1 \/ maxsize < n))
    \/ (clase e = OtraExcepcion (u "MemoryError")
        /\ - maxsize - 1 <= n <= maxsize /\ 0 < n
        /\ memoria_alcanza n = false)
  | inr l => l = replicate (Z.to_nat n) x
  end.
Proof.
  unfold lista_por.
  destruct (Z.ltb_spec n (- maxsize - 1)); cbn [orb].
  { left. split; [reflexivity | lia]. }
  destruct (Z.ltb_spec maxsize n).
  { left. split; [reflexivity | lia]. }
  destruct (Z.leb_spec n 0).
  { destruct n; try lia; reflexivity. }
  destruct (memoria_alcanza n) eqn:Hm; cbn [negb].
  - reflexivity.
  - right. split; [reflexivity|]. split; [lia|]. split; [lia | reflexivity].
Qed.

(** The ages of the form.  [realizar_compra] gives every visitor the
    age 25.  When the list of the ages cannot be made, because the
    quantity is not an index of the machine or the memory does not
    hold the list, the exception escapes from [realizar_compra] and the
    result box is left as it was.  When it is made, the ages check of
    [Compra] passes exactly when the quantity is 1 or more: an order
    whose quantity is in range is never refused for its ages, and
    [procesar] accepts it exactly when the four other checks pass;
    whatever [procesar] answers replaces the text of the result box. *)
Theorem realizar_compra_edades_fijas (hoy : date)
    (self : ui_comprar_entradas.t) (fecha : date) (cantidad : Z)
    (Hfecha : leer_fecha_y_cantidad self = inr (fecha, cantidad)) :
  match lista_por 25 cantidad with
  | inl e =>
    realizar_compra hoy self = (inl e, self)
    /\ ((clase e = OtraExcepcion (u "OverflowError")
         /\ (cantidad < - maxsize - 1 \/ maxsize < cantidad))
        \/ (clase e = OtraExcepcion (u "MemoryError")
            /\ 0 < cantidad <= maxsize
            /\ memoria_alcanza cantidad = false))
  | inr edades =>
    let c :=
      Compra.__init__ (Some (usuario_logueado self)) fecha cantidad edades
        (tipo_pase self) (forma_pago self) in
    edades = replicate (Z.to_nat cantidad) 25
    /\ (edades_ok c <-> 1 <= cantidad)
    /\ exists r,
         fst (Compra.procesar hoy c) = inr r
         /\ realizar_compra hoy self
            = (inr tt, set_text_resultado self (mensaje r))
         /\ (ok r = true
             <-> identidad_ok c /\ fecha_ok hoy c /\ cantidad_ok c
                 /\ forma_pago_ok c)
  end.
Proof.
  pose proof (lista_por_casos 25 cantidad) as Hl.
  destruct (lista_por 25 cantidad) as [e|edades] eqn:Hlista.
  { split.
    - unfold realizar_compra. rewrite Hfecha, Hlista. reflexivity.
    - destruct Hl as [[He Hc]|(He & Hc & Hp & Hm)].
      + left. exact (conj He Hc).
      + right. split; [exact He|]. split; [lia | exact Hm]. }
  intros c. split; [exact Hl|].
  assert (Hedades : edades_ok c <-> 1 <= cantidad).
  { unfold edades_ok, c, len. cbn [Compra.__init__ Compra.edades
                                     Compra.cantidad].
    rewrite Hl, length_replicate. split.
    - intros [Hne Hlen]. destruct (Z.to_nat cantidad) eqn:Hz.
      + now destruct Hne.
      + lia.
    - intros Hc. split; [|lia]. destruct (Z.to_nat cantidad) eqn:Hz; [lia|].
      discriminate. }
  split; [exact Hedades|].
  destruct (procesar_casos hoy c) as (r & Hp & Hok & _).
  exists r. split; [now rewrite Hp|]. split.
  - unfold realizar_compra. rewrite Hfecha, Hlista. fold c. rewrite Hp.
    reflexivity.
  - rewrite Hok, es_valida_todo_ok. unfold todo_ok. rewrite Hedades. split.
    + intros (Hi & Hf & Hc & _ & Hfp).
      exact (conj Hi (conj Hf (conj Hc Hfp))).
    + intros (Hi & Hf & Hc & Hfp).
      exact (conj Hi (conj Hf (conj Hc (conj (proj1 Hc) Hfp)))).
Qed.

End FormularioSimple.

Lemma unicode_latin1_limite : @limite_conforme unicode_latin1.
Proof. unfold limite_conforme. cbn. lia. Qed.

Lemma validar_edad_y_leer_edades_testigo :
  @conforme_ascii unicode_latin1
  /\ ComprarEntradasUI.validar_edad [32%N] = []
  /\ ~ edad_aceptable [32%N].
Proof.
  destruct (validar_edad_y_leer_edades unicode_latin1_conforme)
    as (Hv & Hb & _).
  assert (Hblanco : en_blanco [32%N]).
  { constructor; [vm_compute; reflexivity | constructor]. }
  split; [exact unicode_latin1_conforme|].
  split; [apply Hv; left; exact Hblanco | exact (Hb _ Hblanco)].
Defined.

Lemma realizar_compra_confirmada_testigo :
  ComprarEntradasUI.leer_fecha_y_cantidad Ejemplos.formulario
  = inr (Ejemplos.jueves, 2)
  /\ ComprarEntradasUI.leer_edades
       (ComprarEntradasUI.edades_inputs Ejemplos.formulario) []
     = inr [30; 40]
  /\ fst (ComprarEntradasUI.realizar_compra Ejemplos.hoy
            Ejemplos.sin_credenciales Ejemplos.formulario Ejemplos.mundo_ana)
     = inr tt.
Proof.
  assert (Hfecha : ComprarEntradasUI.leer_fecha_y_cantidad
                     Ejemplos.formulario = inr (Ejemplos.jueves, 2))
    by (vm_compute; reflexivity).
  assert (Hedades : ComprarEntradasUI.leer_edades
                      (ComprarEntradasUI.edades_inputs Ejemplos.formulario)
                      [] = inr [30; 40])
    by (vm_compute; reflexivity).
  assert (Hval : fst (Compra.es_valida Ejemplos.hoy
                        (Compra.__init__
                           (Some (ComprarEntradasUI.usuario_logueado
                                    Ejemplos.formulario))
                           Ejemplos.jueves 2 [30; 40]
                           (ComprarEntradasUI.tipo_pase Ejemplos.formulario)
                           (ComprarEntradasUI.forma_pago
                              Ejemplos.formulario))) = true)
    by (vm_compute; reflexivity).
  apply es_valida_todo_ok in Hval.
  split; [exact Hfecha|]. split; [exact Hedades|].
  exact (proj1 (realizar_compra_confirmada Ejemplos.hoy
                  Ejemplos.sin_credenciales Ejemplos.formulario
                  Ejemplos.mundo_ana Ejemplos.jueves 2 [30; 40]
                  Hfecha Hedades Hval)).
Defined.

Lemma ajustar_cantidad_formulario_testigo :
  @limite_conforme unicode_latin1
  /\ exists cantidad,
       int_de_str
         (ComprarEntradasUI.cantidad_var
            (ComprarEntradasUI.ajustar_cantidad 1 Ejemplos.formulario))
       = inr cantidad.
Proof.
  split; [exact unicode_latin1_limite|].
  destruct (ajustar_cantidad_formulario unicode_latin1_limite 1
              Ejemplos.formulario) as (cantidad & Hc & _).
  exists cantidad. exact Hc.
Defined.

Lemma actualizar_dias_aviso_testigo :
  @limite_conforme unicode_latin1
  /\ NoDup [[]; ComprarEntradasUI.msg_fecha_anterior;
            ComprarEntradasUI.msg_parque_cerrado;
            ComprarEntradasUI.msg_fecha_valida].
Proof.
  exact (conj unicode_latin1_limite
           (proj1 (actualizar_dias_aviso unicode_latin1_limite Ejemplos.hoy
                     Ejemplos.formulario))).
Defined.

Lemma ajustar_cantidad_entre_cotas_testigo :
  @limite_conforme unicode_latin1
  /\ int_de_str (ui_comprar_entradas.cantidad_var Ejemplos.formulario_simple)
     = inr 2
  /\ exists n',
       int_de_str
         (ui_comprar_entradas.cantidad_var
            (fold_left
               (fun s cambio => ui_comprar_entradas.ajustar_cantidad cambio s)
               [1; 1; -1] Ejemplos.formulario_simple))
       = inr n'
       /\ ConfiguracionParque.CANTIDAD_MIN_ENTRADAS <= n'
          <= ConfiguracionParque.CANTIDAD_MAX_ENTRADAS.
Proof.
  assert (Hn : int_de_str
                 (ui_comprar_entradas.cantidad_var Ejemplos.formulario_simple)
               = inr 2)
    by (vm_compute; reflexivity).
  assert (Hcotas : ConfiguracionParque.CANTIDAD_MIN_ENTRADAS <= 2
                   <= ConfiguracionParque.CANTIDAD_MAX_ENTRADAS)
    by (unfold ConfiguracionParque.CANTIDAD_MIN_ENTRADAS,
          ConfiguracionParque.CANTIDAD_MAX_ENTRADAS; lia).
  split; [exact unicode_latin1_limite|]. split; [exact Hn|].
  exact (proj2 (ajustar_cantidad_entre_cotas unicode_latin1_limite
                  [1; 1; -1] Ejemplos.formulario_simple 2 Hn Hcotas)).
Defined.

Lemma realizar_compra_edades_fijas_testigo :
  ui_comprar_entradas.leer_fecha_y_cantidad Ejemplos.formulario_simple
  = inr (Ejemplos.jueves, 2)
  /\ lista_por 25 2 = inr [25; 25]
  /\ (Especificacion.edades_ok
        (Compra.__init__
           (Some (ui_comprar_entradas.usuario_logueado
                    Ejemplos.formulario_simple))
           Ejemplos.jueves 2 [25; 25]
           (ui_comprar_entradas.tipo_pase Ejemplos.formulario_simple)
           (ui_comprar_entradas.forma_pago Ejemplos.formulario_simple))
      <-> 1 <= 2).
Proof.
  assert (Hfecha : ui_comprar_entradas.leer_fecha_y_cantidad
                     Ejemplos.formulario_simple = inr (Ejemplos.jueves, 2))
    by (vm_compute; reflexivity).
  assert (Hlista : lista_por 25 2 = inr [25; 25])
    by (vm_compute; reflexivity).
  pose proof (realizar_compra_edades_fijas Ejemplos.hoy
                Ejemplos.formulario_simple Ejemplos.jueves 2 Hfecha) as Ht.
  rewrite Hlista in Ht.
  split; [exact Hfecha|]. split; [exact Hlista|].
  exact (proj1 (proj2 Ht)).
Defined.
